(** * Book Recommendator: the recommend and saved-books API routes

    A shallow embedding of [src/app/api/recommend/route.ts] and of the
    saved-books route, with the properties of the recommendation assembly,
    the subject slug, the cover URL and the save operation.

    Conventions of the embedding.
    - A JavaScript string is a Rocq [string] holding the bytes of its UTF-8
      encoding. The model has the strings without lone surrogates: a lone
      surrogate has no UTF-8 form, a URL never decodes to one and a JSON
      text only through a [\u] escape. The string built-ins work on the
      characters of the string as ECMAScript has them: [length] counts
      UTF-16 code units, [trim] and [\s] know the white space of Unicode,
      [toLowerCase] follows the case mappings of the Unicode Character
      Database, and [encodeURIComponent] escapes the bytes of the
      encoding.
    - A JSON field that may be missing is an [option]; [None] is JavaScript's
      [undefined] (or [null]). Numbers are integers ([Z]).
    - [Set<string>] is a [gset]; an array is a [list], [push] appends at the
      end and [forEach] threads the mutated state through the elements.
    - An [async] function is a tree of awaited operations ([Async]); the
      network, the clock and the document store answer through a handler,
      which records the requests made, the documents created and the errors
      logged. *)

From Stdlib Require Import ZArith Lia Ascii String.
From stdpp Require Import base option list sets gmap strings pretty.

(** ** JavaScript values and string built-ins *)

(** Truthiness of a value of type [string | undefined]. *)
Definition truthy (v : option string) : bool :=
  match v with
  | Some (String _ _) => true
  | _ => false
  end.

(** Truthiness of a value of type [number | null | undefined]. *)
Definition truthy_number (v : option Z) : bool :=
  match v with
  | Some n => negb (n =? 0)%Z
  | None => false
  end.

(** ** Unicode data

    The tables of the Unicode Character Database the string built-ins
    consult (version 14.0): they belong to the runtime, not to the
    repository. *)

Module Unicode.

(** The simple lower-case mappings, as runs [(first, last, step, target)]:
    every [step]-th code point from [first] to [last] maps to [target] plus
    its distance from [first]. *)
Definition lowercaseMappings : list (N * N * N * N) :=
  [(65, 90, 1, 97); (192, 214, 1, 224); (216, 222, 1, 248);
   (256, 302, 2, 257); (306, 310, 2, 307); (313, 327, 2, 314);
   (330, 374, 2, 331); (376, 376, 1, 255); (377, 381, 2, 378);
   (385, 385, 1, 595); (386, 388, 2, 387); (390, 390, 1, 596);
   (391, 391, 1, 392); (393, 394, 1, 598); (395, 395, 1, 396);
   (398, 398, 1, 477); (399, 399, 1, 601); (400, 400, 1, 603);
   (401, 401, 1, 402); (403, 403, 1, 608); (404, 404, 1, 611);
   (406, 406, 1, 617); (407, 407, 1, 616); (408, 408, 1, 409);
   (412, 412, 1, 623); (413, 413, 1, 626); (415, 415, 1, 629);
   (416, 420, 2, 417); (422, 422, 1, 640); (423, 423, 1, 424);
   (425, 425, 1, 643); (428, 428, 1, 429); (430, 430, 1, 648);
   (431, 431, 1, 432); (433, 434, 1, 650); (435, 437, 2, 436);
   (439, 439, 1, 658); (440, 440, 1, 441); (444, 444, 1, 445);
   (452, 452, 1, 454); (453, 453, 1, 454); (455, 455, 1, 457);
   (456, 456, 1, 457); (458, 458, 1, 460); (459, 475, 2, 460);
   (478, 494, 2, 479); (497, 497, 1, 499); (498, 500, 2, 499);
   (502, 502, 1, 405); (503, 503, 1, 447); (504, 542, 2, 505);
   (544, 544, 1, 414); (546, 562, 2, 547); (570, 570, 1, 11365);
   (571, 571, 1, 572); (573, 573, 1, 410); (574, 574, 1, 11366);
   (577, 577, 1, 578); (579, 579, 1, 384); (580, 580, 1, 649);
   (581, 581, 1, 652); (582, 590, 2, 583); (880, 882, 2, 881);
   (886, 886, 1, 887); (895, 895, 1, 1011); (902, 902, 1, 940);
   (904, 906, 1, 941); (908, 908, 1, 972); (910, 911, 1, 973);
   (913, 929, 1, 945); (931, 939, 1, 963); (975, 975, 1, 983);
   (984, 1006, 2, 985); (1012, 1012, 1, 952); (1015, 1015, 1, 1016);
   (1017, 1017, 1, 1010); (1018, 1018, 1, 1019); (1021, 1023, 1, 891);
   (1024, 1039, 1, 1104); (1040, 1071, 1, 1072); (1120, 1152, 2, 1121);
   (1162, 1214, 2, 1163); (1216, 1216, 1, 1231); (1217, 1229, 2, 1218);
   (1232, 1326, 2, 1233); (1329, 1366, 1, 1377); (4256, 4293, 1, 11520);
   (4295, 4295, 1, 11559); (4301, 4301, 1, 11565); (5024, 5103, 1, 43888);
   (5104, 5109, 1, 5112); (7312, 7354, 1, 4304); (7357, 7359, 1, 4349);
   (7680, 7828, 2, 7681); (7838, 7838, 1, 223); (7840, 7934, 2, 7841);
   (7944, 7951, 1, 7936); (7960, 7965, 1, 7952); (7976, 7983, 1, 7968);
   (7992, 7999, 1, 7984); (8008, 8013, 1, 8000); (8025, 8031, 2, 8017);
   (8040, 8047, 1, 8032); (8072, 8079, 1, 8064); (8088, 8095, 1, 8080);
   (8104, 8111, 1, 8096); (8120, 8121, 1, 8112); (8122, 8123, 1, 8048);
   (8124, 8124, 1, 8115); (8136, 8139, 1, 8050); (8140, 8140, 1, 8131);
   (8152, 8153, 1, 8144); (8154, 8155, 1, 8054); (8168, 8169, 1, 8160);
   (8170, 8171, 1, 8058); (8172, 8172, 1, 8165); (8184, 8185, 1, 8056);
   (8186, 8187, 1, 8060); (8188, 8188, 1, 8179); (8486, 8486, 1, 969);
   (8490, 8490, 1, 107); (8491, 8491, 1, 229); (8498, 8498, 1, 8526);
   (8544, 8559, 1, 8560); (8579, 8579, 1, 8580); (9398, 9423, 1, 9424);
   (11264, 11311, 1, 11312); (11360, 11360, 1, 11361); (11362, 11362, 1, 619);
   (11363, 11363, 1, 7549); (11364, 11364, 1, 637); (11367, 11371, 2, 11368);
   (11373, 11373, 1, 593); (11374, 11374, 1, 625); (11375, 11375, 1, 592);
   (11376, 11376, 1, 594); (11378, 11378, 1, 11379); (11381, 11381, 1, 11382);
   (11390, 11391, 1, 575); (11392, 11490, 2, 11393); (11499, 11501, 2, 11500);
   (11506, 11506, 1, 11507); (42560, 42604, 2, 42561); (42624, 42650, 2, 42625);
   (42786, 42798, 2, 42787); (42802, 42862, 2, 42803); (42873, 42875, 2, 42874);
   (42877, 42877, 1, 7545); (42878, 42886, 2, 42879); (42891, 42891, 1, 42892);
   (42893, 42893, 1, 613); (42896, 42898, 2, 42897); (42902, 42920, 2, 42903);
   (42922, 42922, 1, 614); (42923, 42923, 1, 604); (42924, 42924, 1, 609);
   (42925, 42925, 1, 620); (42926, 42926, 1, 618); (42928, 42928, 1, 670);
   (42929, 42929, 1, 647); (42930, 42930, 1, 669); (42931, 42931, 1, 43859);
   (42932, 42946, 2, 42933); (42948, 42948, 1, 42900); (42949, 42949, 1, 642);
   (42950, 42950, 1, 7566); (42951, 42953, 2, 42952); (42960, 42960, 1, 42961);
   (42966, 42968, 2, 42967); (42997, 42997, 1, 42998); (65313, 65338, 1, 65345);
   (66560, 66599, 1, 66600); (66736, 66771, 1, 66776); (66928, 66964, 2, 66967);
   (66929, 66937, 2, 66968); (66941, 66953, 2, 66980); (66957, 66961, 2, 66996);
   (66965, 66965, 1, 67004); (68736, 68786, 1, 68800); (71840, 71871, 1, 71872);
   (93760, 93791, 1, 93792); (125184, 125217, 1, 125218)]%N.

(** The code points with the property [Cased]. *)
Definition casedRanges : list (N * N) :=
  [(65, 90); (97, 122); (170, 170); (181, 181);
   (186, 186); (192, 214); (216, 246); (248, 442);
   (444, 447); (452, 659); (661, 696); (704, 705);
   (736, 740); (837, 837); (880, 883); (886, 887);
   (890, 893); (895, 895); (902, 902); (904, 906);
   (908, 908); (910, 929); (931, 1013); (1015, 1153);
   (1162, 1327); (1329, 1366); (1376, 1416); (4256, 4293);
   (4295, 4295); (4301, 4301); (4304, 4346); (4349, 4351);
   (5024, 5109); (5112, 5117); (7296, 7304); (7312, 7354);
   (7357, 7359); (7424, 7615); (7680, 7957); (7960, 7965);
   (7968, 8005); (8008, 8013); (8016, 8023); (8025, 8025);
   (8027, 8027); (8029, 8029); (8031, 8061); (8064, 8116);
   (8118, 8124); (8126, 8126); (8130, 8132); (8134, 8140);
   (8144, 8147); (8150, 8155); (8160, 8172); (8178, 8180);
   (8182, 8188); (8305, 8305); (8319, 8319); (8336, 8348);
   (8450, 8450); (8455, 8455); (8458, 8467); (8469, 8469);
   (8473, 8477); (8484, 8484); (8486, 8486); (8488, 8488);
   (8490, 8493); (8495, 8500); (8505, 8505); (8508, 8511);
   (8517, 8521); (8526, 8526); (8544, 8575); (8579, 8580);
   (9398, 9449); (11264, 11492); (11499, 11502); (11506, 11507);
   (11520, 11557); (11559, 11559); (11565, 11565); (42560, 42605);
   (42624, 42653); (42786, 42887); (42891, 42894); (42896, 42954);
   (42960, 42961); (42963, 42963); (42965, 42969); (42997, 42998);
   (43000, 43002); (43824, 43866); (43868, 43880); (43888, 43967);
   (64256, 64262); (64275, 64279); (65313, 65338); (65345, 65370);
   (66560, 66639); (66736, 66771); (66776, 66811); (66928, 66938);
   (66940, 66954); (66956, 66962); (66964, 66965); (66967, 66977);
   (66979, 66993); (66995, 67001); (67003, 67004); (67456, 67456);
   (67459, 67461); (67463, 67504); (67506, 67514); (68736, 68786);
   (68800, 68850); (71840, 71903); (93760, 93823); (119808, 119892);
   (119894, 119964); (119966, 119967); (119970, 119970); (119973, 119974);
   (119977, 119980); (119982, 119993); (119995, 119995); (119997, 120003);
   (120005, 120069); (120071, 120074); (120077, 120084); (120086, 120092);
   (120094, 120121); (120123, 120126); (120128, 120132); (120134, 120134);
   (120138, 120144); (120146, 120485); (120488, 120512); (120514, 120538);
   (120540, 120570); (120572, 120596); (120598, 120628); (120630, 120654);
   (120656, 120686); (120688, 120712); (120714, 120744); (120746, 120770);
   (120772, 120779); (122624, 122633); (122635, 122654); (125184, 125251);
   (127280, 127305); (127312, 127337); (127344, 127369)]%N.

(** The code points with the property [Case_Ignorable]. *)
Definition caseIgnorableRanges : list (N * N) :=
  [(39, 39); (46, 46); (58, 58); (94, 94);
   (96, 96); (168, 168); (173, 173); (175, 175);
   (180, 180); (183, 184); (688, 879); (884, 885);
   (890, 890); (900, 901); (903, 903); (1155, 1161);
   (1369, 1369); (1375, 1375); (1425, 1469); (1471, 1471);
   (1473, 1474); (1476, 1477); (1479, 1479); (1524, 1524);
   (1536, 1541); (1552, 1562); (1564, 1564); (1600, 1600);
   (1611, 1631); (1648, 1648); (1750, 1757); (1759, 1768);
   (1770, 1773); (1807, 1807); (1809, 1809); (1840, 1866);
   (1958, 1968); (2027, 2037); (2042, 2042); (2045, 2045);
   (2070, 2093); (2137, 2139); (2184, 2184); (2192, 2193);
   (2200, 2207); (2249, 2306); (2362, 2362); (2364, 2364);
   (2369, 2376); (2381, 2381); (2385, 2391); (2402, 2403);
   (2417, 2417); (2433, 2433); (2492, 2492); (2497, 2500);
   (2509, 2509); (2530, 2531); (2558, 2558); (2561, 2562);
   (2620, 2620); (2625, 2626); (2631, 2632); (2635, 2637);
   (2641, 2641); (2672, 2673); (2677, 2677); (2689, 2690);
   (2748, 2748); (2753, 2757); (2759, 2760); (2765, 2765);
   (2786, 2787); (2810, 2815); (2817, 2817); (2876, 2876);
   (2879, 2879); (2881, 2884); (2893, 2893); (2901, 2902);
   (2914, 2915); (2946, 2946); (3008, 3008); (3021, 3021);
   (3072, 3072); (3076, 3076); (3132, 3132); (3134, 3136);
   (3142, 3144); (3146, 3149); (3157, 3158); (3170, 3171);
   (3201, 3201); (3260, 3260); (3263, 3263); (3270, 3270);
   (3276, 3277); (3298, 3299); (3328, 3329); (3387, 3388);
   (3393, 3396); (3405, 3405); (3426, 3427); (3457, 3457);
   (3530, 3530); (3538, 3540); (3542, 3542); (3633, 3633);
   (3636, 3642); (3654, 3662); (3761, 3761); (3764, 3772);
   (3782, 3782); (3784, 3789); (3864, 3865); (3893, 3893);
   (3895, 3895); (3897, 3897); (3953, 3966); (3968, 3972);
   (3974, 3975); (3981, 3991); (3993, 4028); (4038, 4038);
   (4141, 4144); (4146, 4151); (4153, 4154); (4157, 4158);
   (4184, 4185); (4190, 4192); (4209, 4212); (4226, 4226);
   (4229, 4230); (4237, 4237); (4253, 4253); (4348, 4348);
   (4957, 4959); (5906, 5908); (5938, 5939); (5970, 5971);
   (6002, 6003); (6068, 6069); (6071, 6077); (6086, 6086);
   (6089, 6099); (6103, 6103); (6109, 6109); (6155, 6159);
   (6211, 6211); (6277, 6278); (6313, 6313); (6432, 6434);
   (6439, 6440); (6450, 6450); (6457, 6459); (6679, 6680);
   (6683, 6683); (6742, 6742); (6744, 6750); (6752, 6752);
   (6754, 6754); (6757, 6764); (6771, 6780); (6783, 6783);
   (6823, 6823); (6832, 6862); (6912, 6915); (6964, 6964);
   (6966, 6970); (6972, 6972); (6978, 6978); (7019, 7027);
   (7040, 7041); (7074, 7077); (7080, 7081); (7083, 7085);
   (7142, 7142); (7144, 7145); (7149, 7149); (7151, 7153);
   (7212, 7219); (7222, 7223); (7288, 7293); (7376, 7378);
   (7380, 7392); (7394, 7400); (7405, 7405); (7412, 7412);
   (7416, 7417); (7468, 7530); (7544, 7544); (7579, 7679);
   (8125, 8125); (8127, 8129); (8141, 8143); (8157, 8159);
   (8173, 8175); (8189, 8190); (8203, 8207); (8216, 8217);
   (8228, 8228); (8231, 8231); (8234, 8238); (8288, 8292);
   (8294, 8303); (8305, 8305); (8319, 8319); (8336, 8348);
   (8400, 8432); (11388, 11389); (11503, 11505); (11631, 11631);
   (11647, 11647); (11744, 11775); (11823, 11823); (12293, 12293);
   (12330, 12333); (12337, 12341); (12347, 12347); (12441, 12446);
   (12540, 12542); (40981, 40981); (42232, 42237); (42508, 42508);
   (42607, 42610); (42612, 42621); (42623, 42623); (42652, 42655);
   (42736, 42737); (42752, 42785); (42864, 42864); (42888, 42890);
   (42994, 42996); (43000, 43001); (43010, 43010); (43014, 43014);
   (43019, 43019); (43045, 43046); (43052, 43052); (43204, 43205);
   (43232, 43249); (43263, 43263); (43302, 43309); (43335, 43345);
   (43392, 43394); (43443, 43443); (43446, 43449); (43452, 43453);
   (43471, 43471); (43493, 43494); (43561, 43566); (43569, 43570);
   (43573, 43574); (43587, 43587); (43596, 43596); (43632, 43632);
   (43644, 43644); (43696, 43696); (43698, 43700); (43703, 43704);
   (43710, 43711); (43713, 43713); (43741, 43741); (43756, 43757);
   (43763, 43764); (43766, 43766); (43867, 43871); (43881, 43883);
   (44005, 44005); (44008, 44008); (44013, 44013); (64286, 64286);
   (64434, 64450); (65024, 65039); (65043, 65043); (65056, 65071);
   (65106, 65106); (65109, 65109); (65279, 65279); (65287, 65287);
   (65294, 65294); (65306, 65306); (65342, 65342); (65344, 65344);
   (65392, 65392); (65438, 65439); (65507, 65507); (65529, 65531);
   (66045, 66045); (66272, 66272); (66422, 66426); (67456, 67461);
   (67463, 67504); (67506, 67514); (68097, 68099); (68101, 68102);
   (68108, 68111); (68152, 68154); (68159, 68159); (68325, 68326);
   (68900, 68903); (69291, 69292); (69446, 69456); (69506, 69509);
   (69633, 69633); (69688, 69702); (69744, 69744); (69747, 69748);
   (69759, 69761); (69811, 69814); (69817, 69818); (69821, 69821);
   (69826, 69826); (69837, 69837); (69888, 69890); (69927, 69931);
   (69933, 69940); (70003, 70003); (70016, 70017); (70070, 70078);
   (70089, 70092); (70095, 70095); (70191, 70193); (70196, 70196);
   (70198, 70199); (70206, 70206); (70367, 70367); (70371, 70378);
   (70400, 70401); (70459, 70460); (70464, 70464); (70502, 70508);
   (70512, 70516); (70712, 70719); (70722, 70724); (70726, 70726);
   (70750, 70750); (70835, 70840); (70842, 70842); (70847, 70848);
   (70850, 70851); (71090, 71093); (71100, 71101); (71103, 71104);
   (71132, 71133); (71219, 71226); (71229, 71229); (71231, 71232);
   (71339, 71339); (71341, 71341); (71344, 71349); (71351, 71351);
   (71453, 71455); (71458, 71461); (71463, 71467); (71727, 71735);
   (71737, 71738); (71995, 71996); (71998, 71998); (72003, 72003);
   (72148, 72151); (72154, 72155); (72160, 72160); (72193, 72202);
   (72243, 72248); (72251, 72254); (72263, 72263); (72273, 72278);
   (72281, 72283); (72330, 72342); (72344, 72345); (72752, 72758);
   (72760, 72765); (72767, 72767); (72850, 72871); (72874, 72880);
   (72882, 72883); (72885, 72886); (73009, 73014); (73018, 73018);
   (73020, 73021); (73023, 73029); (73031, 73031); (73104, 73105);
   (73109, 73109); (73111, 73111); (73459, 73460); (78896, 78904);
   (92912, 92916); (92976, 92982); (92992, 92995); (94031, 94031);
   (94095, 94111); (94176, 94177); (94179, 94180); (110576, 110579);
   (110581, 110587); (110589, 110590); (113821, 113822); (113824, 113827);
   (118528, 118573); (118576, 118598); (119143, 119145); (119155, 119170);
   (119173, 119179); (119210, 119213); (119362, 119364); (121344, 121398);
   (121403, 121452); (121461, 121461); (121476, 121476); (121499, 121503);
   (121505, 121519); (122880, 122886); (122888, 122904); (122907, 122913);
   (122915, 122916); (122918, 122922); (123184, 123197); (123566, 123566);
   (123628, 123631); (125136, 125142); (125252, 125259); (127995, 127999);
   (917505, 917505); (917536, 917631); (917760, 917999)]%N.

(** General category [Zs]. *)
Definition spaceSeparatorRanges : list (N * N) :=
  [(32, 32); (160, 160); (5760, 5760); (8192, 8202); (8239, 8239); (8287, 8287);
   (12288, 12288)]%N.

Definition within (n : N) (ranges : list (N * N)) : bool :=
  existsb (fun r => (r.1 <=? n) && (n <=? r.2))%N ranges.

Fixpoint simpleLowercase (n : N) (runs : list (N * N * N * N)) : option N :=
  match runs with
  | [] => None
  | (first, last, step, target) :: runs' =>
      if ((first <=? n) && (n <=? last) && ((n - first) mod step =? 0))%N
      then Some (target + (n - first))%N
      else simpleLowercase n runs'
  end.

(** [Lowercase_Mapping]: the simple mapping, or that of [SpecialCasing.txt]
    for U+0130, the one code point whose lower case has two code points.
    [None] for a code point that is its own lower case. *)
Definition lowercase (n : N) : option (list N) :=
  if (n =? 304)%N then Some [105; 775]%N
  else (fun m => [m]) <$> simpleLowercase n lowercaseMappings.

Definition cased (n : N) : bool := within n casedRanges.
Definition caseIgnorable (n : N) : bool := within n caseIgnorableRanges.
Definition spaceSeparator (n : N) : bool := within n spaceSeparatorRanges.

End Unicode.

(** ** Strings in UTF-8

    A JavaScript string without lone surrogates is held as the bytes of its
    UTF-8 encoding. Its characters (code points) are the well-formed byte
    sequences of the Unicode Standard (table 3-7); a byte that starts none,
    which the encoding of a string never has, counts as a character by
    itself, with no code point. *)

Module Utf8.

Definition code (c : ascii) : N := N_of_ascii c.

Definition between (lo hi : N) (c : ascii) : bool :=
  ((lo <=? code c) && (code c <=? hi))%N.

Definition continuation (c : ascii) : bool := between 128 191 c.

Definition two (a b : ascii) : bool := between 194 223 a && continuation b.

Definition three (a b c : ascii) : bool :=
  ((code a =? 224)%N && between 160 191 b
   || between 225 236 a && continuation b
   || (code a =? 237)%N && between 128 159 b
   || between 238 239 a && continuation b)
  && continuation c.

Definition four (a b c d : ascii) : bool :=
  ((code a =? 240)%N && between 144 191 b
   || between 241 243 a && continuation b
   || (code a =? 244)%N && between 128 143 b)
  && continuation c && continuation d.

(** The characters of a string, each as its bytes. *)
Fixpoint chars (s : string) : list string :=
  match s with
  | EmptyString => []
  | String a r =>
      match r with
      | String b r1 =>
          if two a b then String a (String b EmptyString) :: chars r1
          else
            match r1 with
            | String c r2 =>
                if three a b c
                then String a (String b (String c EmptyString)) :: chars r2
                else
                  match r2 with
                  | String d r3 =>
                      if four a b c d
                      then String a (String b (String c (String d EmptyString)))
                             :: chars r3
                      else String a EmptyString :: chars r
                  | EmptyString => String a EmptyString :: chars r
                  end
            | EmptyString => String a EmptyString :: chars r
            end
      | EmptyString => [String a EmptyString]
      end
  end.

Definition join (characters : list string) : string :=
  fold_right append EmptyString characters.




(** The code point of a character. *)
Definition codePoint (ch : string) : option N :=
  match ch with
  | String a EmptyString => if (code a <? 128)%N then Some (code a) else None
  | String a (String b EmptyString) =>
      if two a b then Some ((code a - 192) * 64 + (code b - 128))%N else None
  | String a (String b (String c EmptyString)) =>
      if three a b c
      then Some ((code a - 224) * 4096 + (code b - 128) * 64 + (code c - 128))%N
      else None
  | String a (String b (String c (String d EmptyString))) =>
      if four a b c d
      then Some ((code a - 240) * 262144 + (code b - 128) * 4096
                 + (code c - 128) * 64 + (code d - 128))%N
      else None
  | _ => None
  end.

(** The bytes of a code point. *)
Definition encode (n : N) : string :=
  let byte (k : N) := ascii_of_N k in
  (if n <? 128 then String (byte n) EmptyString
   else if n <? 2048 then
     String (byte (192 + n / 64)) (String (byte (128 + n mod 64)) EmptyString)
   else if n <? 65536 then
     String (byte (224 + n / 4096))
       (String (byte (128 + (n / 64) mod 64))
          (String (byte (128 + n mod 64)) EmptyString))
   else
     String (byte (240 + n / 262144))
       (String (byte (128 + (n / 4096) mod 64))
          (String (byte (128 + (n / 64) mod 64))
             (String (byte (128 + n mod 64)) EmptyString))))%N.

(** The UTF-16 code units a character takes in a JavaScript string: two
    for a code point above U+FFFF, which has four bytes. *)
Definition units (ch : string) : nat :=
  match ch with
  | String _ (String _ (String _ (String _ _))) => 2
  | _ => 1
  end.

End Utf8.

(** ** JavaScript string built-ins *)

Module JsString.

Definition code (c : ascii) : N := N_of_ascii c.

(** [String.prototype.length]: the number of UTF-16 code units. *)
Definition length (s : string) : nat :=
  foldr (fun ch n => (Utf8.units ch + n)%nat) 0%nat (Utf8.chars s).

(** The [WhiteSpace] and [LineTerminator] code points of ECMAScript: what
    [trim] strips and what [\s] matches. *)
Definition whiteSpace (n : N) : bool :=
  ((n =? 9) || (n =? 11) || (n =? 12) || (n =? 65279))%N || Unicode.spaceSeparator n.

Definition lineTerminator (n : N) : bool :=
  ((n =? 10) || (n =? 13) || (n =? 8232) || (n =? 8233))%N.

Definition isWhiteSpace (ch : string) : bool :=
  match Utf8.codePoint ch with
  | Some n => whiteSpace n || lineTerminator n
  | None => false
  end.

(** The ASCII letters and digits, as bytes. *)
Definition isUpper (c : ascii) : bool :=
  let n := code c in ((65 <=? n) && (n <=? 90))%N.

Definition isLower (c : ascii) : bool :=
  let n := code c in ((97 <=? n) && (n <=? 122))%N.

Definition isDigit (c : ascii) : bool :=
  let n := code c in ((48 <=? n) && (n <=? 57))%N.

Definition isAlnum (c : ascii) : bool := isUpper c || isLower c || isDigit c.

Definition isCased (ch : string) : bool :=
  match Utf8.codePoint ch with Some n => Unicode.cased n | None => false end.

Definition isCaseIgnorable (ch : string) : bool :=
  match Utf8.codePoint ch with Some n => Unicode.caseIgnorable n | None => false end.

(** The lower-case mapping of a character; a character without one stays. *)
Definition lowerChar (ch : string) : string :=
  match Utf8.codePoint ch ≫= Unicode.lowercase with
  | Some mapped => Utf8.join (Utf8.encode <$> mapped)
  | None => ch
  end.

(** Whether a cased letter follows, case-ignorable characters skipped. *)
Fixpoint beforeCased (characters : list string) : bool :=
  match characters with
  | [] => false
  | ch :: rest => if isCaseIgnorable ch then beforeCased rest else isCased ch
  end.

(** Lower-casing from left to right; [afterCased] tells that a cased letter
    precedes, case-ignorable characters skipped. A capital sigma (U+03A3)
    between a cased letter and no cased letter becomes the final sigma
    (U+03C2), the one mapping that depends on the context. *)
Fixpoint lowerFrom (afterCased : bool) (characters : list string) : list string :=
  match characters with
  | [] => []
  | ch :: rest =>
      (if bool_decide (Utf8.codePoint ch = Some 931%N)
          && afterCased && negb (beforeCased rest)
       then Utf8.encode 962
       else lowerChar ch)
      :: lowerFrom (if isCaseIgnorable ch then afterCased else isCased ch) rest
  end.

(** [String.prototype.toLowerCase]. *)
Definition toLowerCase (s : string) : string :=
  Utf8.join (lowerFrom false (Utf8.chars s)).

Fixpoint trimStartChars (characters : list string) : list string :=
  match characters with
  | [] => []
  | ch :: rest => if isWhiteSpace ch then trimStartChars rest else characters
  end.

Fixpoint trimEndChars (characters : list string) : list string :=
  match characters with
  | [] => []
  | ch :: rest =>
      match trimEndChars rest with
      | [] => if isWhiteSpace ch then [] else [ch]
      | rest' => ch :: rest'
      end
  end.

(** [String.prototype.trim]. *)
Definition trim (s : string) : string :=
  Utf8.join (trimEndChars (trimStartChars (Utf8.chars s))).

(** The two shapes of regular expression the route uses: one character of
    a class ([/[.,]/]) and a non-empty greedy run of a class ([/\s+/]).
    Neither class holds a code point above U+FFFF, so matching code points
    is matching code units. *)
Inductive RegExp : Type :=
| CharClass (cls : string -> bool)
| CharClassPlus (cls : string -> bool).

Definition regexp_class (re : RegExp) : string -> bool :=
  match re with CharClass cls | CharClassPlus cls => cls end.

Definition regexp_greedy (re : RegExp) : bool :=
  match re with CharClass _ => false | CharClassPlus _ => true end.

(** [String.prototype.replace] with a global ([/g]) regular expression and
    a replacement without [$] patterns: scanning left to right, every match
    is replaced; [in_match] tells that the scan is inside a greedy match
    that was already replaced. *)
Fixpoint replace_from (re : RegExp) (replacement : string)
    (in_match : bool) (characters : list string) : string :=
  match characters with
  | [] => EmptyString
  | ch :: rest =>
      if regexp_class re ch then
        if regexp_greedy re && in_match
        then replace_from re replacement true rest
        else replacement +:+ replace_from re replacement true rest
      else ch +:+ replace_from re replacement false rest
  end.

Definition replace (re : RegExp) (replacement : string) (s : string) : string :=
  replace_from re replacement false (Utf8.chars s).

(** The class [[.,]]. *)
Definition dot_or_comma (ch : string) : bool :=
  match Utf8.codePoint ch with
  | Some n => ((n =? 46) || (n =? 44))%N
  | None => false
  end.

Definition hexDigit (n : N) : ascii :=
  if (n <? 10)%N then ascii_of_N (48 + n) else ascii_of_N (55 + n).

(** [%XX] with upper-case hexadecimal digits. *)
Definition percent (c : ascii) : string :=
  String "%" (String (hexDigit (code c / 16)) (String (hexDigit (code c mod 16)) EmptyString)).

Definition one_of (set : string) (c : ascii) : bool :=
  bool_decide (c ∈ list_ascii_of_string set).

(** The characters [encodeURIComponent] leaves alone. *)
Definition uriUnreserved (c : ascii) : bool :=
  isAlnum c || one_of "-_.!~*'()" c.

(** [encodeURIComponent]: every byte of the UTF-8 encoding but those of the
    unreserved characters is escaped. *)
Fixpoint encodeURIComponent (s : string) : string :=
  match s with
  | EmptyString => EmptyString
  | String c r =>
      (if uriUnreserved c then String c EmptyString else percent c)
        +:+ encodeURIComponent r
  end.

(** The application/x-www-form-urlencoded serializer behind
    [URLSearchParams.set] and the URL's string form. *)
Fixpoint formUrlEncode (s : string) : string :=
  match s with
  | EmptyString => EmptyString
  | String c r =>
      (if isAlnum c || one_of "*-._" c then String c EmptyString
       else if (code c =? 32)%N then "+"
       else percent c) +:+ formUrlEncode r
  end.

(** Number to string conversion of a template literal, for the integers
    that print as their decimal digits (those below 10^21 in size). *)
Definition ofNumber (n : Z) : string := pretty n.

End JsString.

Arguments JsString.length : simpl never.
Arguments JsString.trim : simpl never.
Arguments JsString.toLowerCase : simpl never.
Arguments JsString.replace : simpl never.

(** ** The data model of the recommend route *)

Definition OPEN_LIBRARY_BASE : string := "https://openlibrary.org".
Definition MAX_RESULTS : nat := 10.

Module SearchDoc.
Record t : Type := mk {
  key : option string;
  title : option string;
  author_name : option (list string);
  cover_i : option Z;
  first_publish_year : option Z;
  subject : option (list string);
  subject_facet : option (list string);
}.
End SearchDoc.

Module Author.
Record t : Type := mk { name : option string }.
End Author.

Module SubjectWork.
Record t : Type := mk {
  key : option string;
  title : option string;
  authors : option (list Author.t);
  cover_id : option Z;
  first_publish_year : option Z;
  subject : option (list string);
}.
End SubjectWork.

Module Book.
Record t : Type := mk {
  key : option string;
  title : option string;
  author : string;
  coverImage : option string;
  year : option Z;
  subjects : option (list string);
}.
End Book.

(** [a ?? b]. *)
Definition nullish {A : Type} (a : option A) (b : A) : A :=
  match a with Some x => x | None => b end.

Definition coverUrlFromId (coverId : option Z) : option string :=
  match coverId with
  | Some n =>
      if truthy_number coverId
      then Some ("https://covers.openlibrary.org/b/id/" +:+ JsString.ofNumber n +:+ "-L.jpg")
      else None
  | None => None
  end.

Definition mapDocToBook (doc : SearchDoc.t) : Book.t :=
  {| Book.key := SearchDoc.key doc;
     Book.title := SearchDoc.title doc;
     Book.author :=
       match SearchDoc.author_name doc with
       | Some (a :: _) => a
       | _ => "Unknown author"
       end;
     Book.coverImage := coverUrlFromId (SearchDoc.cover_i doc);
     Book.year := SearchDoc.first_publish_year doc;
     Book.subjects :=
       match SearchDoc.subject doc with
       | Some s => Some s
       | None => SearchDoc.subject_facet doc
       end |}.

Definition mapSubjectWorkToBook (work : SubjectWork.t) : Book.t :=
  {| Book.key := SubjectWork.key work;
     Book.title := SubjectWork.title work;
     Book.author :=
       match SubjectWork.authors work with
       | Some (a :: _) => nullish (Author.name a) "Unknown author"
       | _ => "Unknown author"
       end;
     Book.coverImage := coverUrlFromId (SubjectWork.cover_id work);
     Book.year := SubjectWork.first_publish_year work;
     Book.subjects := SubjectWork.subject work |}.

(** ** Asynchronous route handlers

    An [async] function is the tree of the operations it awaits. [Throw] is
    a thrown exception (a rejected promise), [Await] a call to the outside
    whose answer the rest of the function depends on. *)

Inductive Exn : Type :=
| ErrorObject (message : string)
| ThrownValue.

Inductive Async (E : Type -> Type) (A : Type) : Type :=
| Resolve (a : A)
| Throw (e : Exn)
| Await {X : Type} (op : E X) (k : X -> Async E A).

Arguments Resolve {E A} a.
Arguments Throw {E A} e.
Arguments Await {E A X} op k.

Fixpoint Async_bind {E A B} (k : A -> Async E B) (p : Async E A) : Async E B :=
  match p with
  | Resolve a => k a
  | Throw e => Throw e
  | Await op k' => Await op (fun x => Async_bind k (k' x))
  end.

#[export] Instance Async_mret {E} : MRet (Async E) := fun _ a => Resolve a.
#[export] Instance Async_mbind {E} : MBind (Async E) := fun _ _ k p => Async_bind k p.

(** [try { body } catch (error) { handler }]. *)
Fixpoint try_catch {E A} (body : Async E A) (handler : Exn -> Async E A) : Async E A :=
  match body with
  | Resolve a => Resolve a
  | Throw e => handler e
  | Await op k => Await op (fun x => try_catch (k x) handler)
  end.

(** An awaited operation that either answers or rejects. *)
Definition await {E X} (op : E (Exn + X)%type) : Async E X :=
  Await op (fun answer =>
    match answer with
    | inl e => Throw e
    | inr x => Resolve x
    end).

(** Running a handler against the outside world [W]: [answer] gives each
    operation its result and the next state of the world. *)
Fixpoint run {E A W} (answer : forall X, E X -> W -> X * W)
    (p : Async E A) (w : W) : (Exn + A) * W :=
  match p with
  | Resolve a => (inr a, w)
  | Throw e => (inl e, w)
  | Await op k => let '(x, w') := answer _ op w in run answer (k x) w'
  end.

(** [Array.prototype.forEach] with a callback that mutates the state [S]. *)
Definition forEach {A S} (callback : A -> S -> S) (array : list A) (s : S) : S :=
  fold_left (fun s a => callback a s) array s.

(** ** The recommend route *)

Module Recommend.

Record RequestInit : Type := {
  user_agent : string;
  cache : string;
}.

(** The parsed JSON of an Open Library answer: an object that may carry
    [docs] (search) and may carry [works] (subject listing). *)
Record Json : Type := {
  docs : option (list SearchDoc.t);
  works : option (list SubjectWork.t);
}.

(** A fetch [Response]: [ok] and what [json()] resolves to. *)
Record Response : Type := {
  ok : bool;
  json : Exn + Json;
}.

Inductive Op : Type -> Type :=
| fetch (url : string) (init : RequestInit) : Op (Exn + Response)
| console_error (e : Exn) : Op unit.

(** The JSON bodies the route answers with. *)
Inductive Body : Type :=
| ErrorBody (error : string)
| ResultBody (seed : option Book.t) (recommendations : list Book.t)
    (message : option string).

Record NextResponse : Type := {
  status : Z;
  body : Body;
}.

(** [NextResponse.json(body)] answers with status 200. *)
Definition NextResponse_json (b : Body) : NextResponse :=
  {| status := 200; body := b |}.

Definition createErrorResponse (message : string) (status : Z) : NextResponse :=
  {| status := status; body := ErrorBody message |}.

(** The request, reduced to [searchParams.get("query")]. *)
Record Request : Type := { query_param : option string }.

(** The two arrays the handler mutates. *)
Record Assembly : Type := {
  recommendations : list Book.t;
  uniqueKeys : gset (option string);
}.

Definition has (keys : gset (option string)) (k : option string) : bool :=
  bool_decide (k ∈ keys).

Definition push (book : Book.t) (k : option string) (st : Assembly) : Assembly :=
  {| recommendations := recommendations st ++ [book];
     uniqueKeys := uniqueKeys st ∪ {[ k ]} |}.

Definition init : RequestInit :=
  {| user_agent := "BookRecommendator/1.0 (https://github.com/Saelmala)";
     cache := "no-store" |}.

Definition searchUrl (query : string) : string :=
  OPEN_LIBRARY_BASE +:+ "/search.json?q=" +:+ JsString.formUrlEncode query
    +:+ "&limit=25".

Definition subjectSlug (primarySubject : string) : string :=
  JsString.replace (JsString.CharClassPlus JsString.isWhiteSpace) "_"
    (JsString.replace (JsString.CharClass JsString.dot_or_comma) ""
       (JsString.toLowerCase primarySubject)).

Definition subjectUrl (primarySubject : string) : string :=
  OPEN_LIBRARY_BASE +:+ "/subjects/"
    +:+ JsString.encodeURIComponent (subjectSlug primarySubject)
    +:+ ".json?limit=30".

(** The callback of the subject loop. *)
Definition pushSubjectWork (work : SubjectWork.t) (st : Assembly) : Assembly :=
  if (MAX_RESULTS <=? length (recommendations st))%nat then st
  else push (mapSubjectWorkToBook work) (SubjectWork.key work) st.

(** [subjectData.works?.filter(...).forEach(...)]: the filter runs over the
    whole array first, against the keys used before the loop starts. *)
Definition addSubjectWorks (works : option (list SubjectWork.t))
    (st : Assembly) : Assembly :=
  match works with
  | None => st
  | Some works =>
      forEach pushSubjectWork
        (List.filter
           (fun work => truthy (SubjectWork.key work)
                        && negb (has (uniqueKeys st) (SubjectWork.key work)))
           works)
        st
  end.

(** The callback of the fallback loop. *)
Definition pushFallbackDoc (doc : SearchDoc.t) (st : Assembly) : Assembly :=
  if (MAX_RESULTS <=? length (recommendations st))%nat
     || has (uniqueKeys st) (SearchDoc.key doc)
  then st
  else push (mapDocToBook doc) (SearchDoc.key doc) st.

Definition addFallbackDocs (docs : list SearchDoc.t) (st : Assembly) : Assembly :=
  if (length (recommendations st) <? MAX_RESULTS)%nat
  then forEach pushFallbackDoc (drop 1 docs) st
  else st.

(** [searchData.docs?.filter((doc) => doc.key && doc.title) ?? []]. *)
Definition qualifying (docs : option (list SearchDoc.t)) : list SearchDoc.t :=
  nullish
    (List.filter (fun doc => truthy (SearchDoc.key doc) && truthy (SearchDoc.title doc))
       <$> docs)
    [].

Definition primarySubjectOf (seedDoc : SearchDoc.t) : option string :=
  (nullish (SearchDoc.subject seedDoc) []
     ++ nullish (SearchDoc.subject_facet seedDoc) []) !! 0%nat.

(** The subject lookup, from the seed to the state after the subject loop. *)
Definition lookupSubject (seedDoc : SearchDoc.t) (st : Assembly)
    : Async Op Assembly :=
  match primarySubjectOf seedDoc with
  | Some (String _ _ as primarySubject) =>
      subjectResponse ← await (fetch (subjectUrl primarySubject) init);
      if ok subjectResponse then
        subjectData ← match json subjectResponse with
                      | inl e => Throw e
                      | inr data => Resolve data
                      end;
        mret (addSubjectWorks (works subjectData) st)
      else mret st
  | _ => mret st
  end.

Definition assemble (query : string) : Async Op NextResponse :=
  searchResponse ← await (fetch (searchUrl query) init);
  if negb (ok searchResponse) then
    mret (createErrorResponse "Unable to reach the Open Library search service." 502)
  else
    searchData ← match json searchResponse with
                 | inl e => Throw e
                 | inr data => Resolve data
                 end;
    let docs := qualifying (docs searchData) in
    match docs with
    | [] =>
        mret (NextResponse_json
                (ResultBody None []
                   (Some "We could not find any matches for that book.")))
    | seedDoc :: _ =>
        let seedBook := mapDocToBook seedDoc in
        let st0 := {| recommendations := [];
                      uniqueKeys := {[ Book.key seedBook ]} |} in
        st1 ← lookupSubject seedDoc st0;
        let st2 := addFallbackDocs docs st1 in
        mret (NextResponse_json
                (ResultBody (Some seedBook)
                   (take MAX_RESULTS (recommendations st2)) None))
    end.

Definition GET (request : Request) : Async Op NextResponse :=
  match JsString.trim <$> query_param request with
  | None | Some EmptyString =>
      mret (createErrorResponse "Missing required query parameter." 400)
  | Some query =>
      if (JsString.length query <? 2)%nat then
        mret (createErrorResponse "Query must be at least 2 characters long." 400)
      else
        try_catch (assemble query)
          (fun error =>
             Await (console_error error) (fun _ =>
             mret (createErrorResponse "Unexpected error while fetching data." 500)))
  end.

(** *** The outside world of the route *)

(** The network answers the [n]-th fetch of the invocation (from 0). *)
Definition Network : Type := nat -> string -> Exn + Response.

Record World : Type := {
  fetched : list (string * RequestInit);
  logged : list Exn;
}.

Definition start : World := {| fetched := []; logged := [] |}.

Definition answer (net : Network) (X : Type) (op : Op X) (w : World) : X * World :=
  match op in Op X return X * World with
  | fetch url init =>
      (net (length (fetched w)) url,
       {| fetched := fetched w ++ [(url, init)]; logged := logged w |})
  | console_error e =>
      (tt, {| fetched := fetched w; logged := logged w ++ [e] |})
  end.

(** One invocation of the route against a network. *)
Definition serve (net : Network) (request : Request) : (Exn + NextResponse) * World :=
  run (answer net) (GET request) start.

End Recommend.

(** ** The saved-books route: [POST] *)

Module SavedBooks.

(** [Book & { savedAt: string }]: the payload [{ ...book, savedAt }]. *)
Record SavedBook : Type := {
  book_fields : Book.t;
  savedAt : string;
}.

(** The request body, [{ book?: Book }]. *)
Record PostBody : Type := { book : option Book.t }.

(** What [createDocument] resolves to. *)
Record Created : Type := {
  id : string;
  rev : string;
}.

(** The operations the handler calls. [createDocument] lives in
    [@/lib/couchdb] and the clock in the runtime, so both are answered by
    the environment: [new_Date_toISOString] is [new Date().toISOString()],
    the current instant as ISO-8601 text in UTC. *)
Inductive Op : Type -> Type :=
| request_json : Op (Exn + PostBody)
| new_Date_toISOString : Op string
| createDocument (payload : SavedBook) : Op (Exn + Created)
| console_error (e : Exn) : Op unit.

Inductive Body : Type :=
| ErrorBody (error : string)
| SavedBody (id rev savedAt : string).

Record NextResponse : Type := {
  status : Z;
  body : Body;
}.

Definition POST : Async Op NextResponse :=
  try_catch
    (body ← await request_json;
     match book body with
     | None =>
         mret {| status := 400; body := ErrorBody "Body must include a book payload." |}
     | Some book =>
         stamp ← Await new_Date_toISOString Resolve;
         let payload := {| book_fields := book; savedAt := stamp |} in
         result ← await (createDocument payload);
         mret {| status := 200;
                 body := SavedBody (id result) (rev result) (savedAt payload) |}
     end)
    (fun error =>
       Await (console_error error) (fun _ =>
       let message :=
         match error with
         | ErrorObject message => message
         | ThrownValue => "Unexpected error when saving the book."
         end in
       mret {| status := 500; body := ErrorBody message |})).

(** *** The outside world of the route *)

(** The environment of one request: the body [request.json()] resolves to
    (or the error it rejects with), the instant of the clock, and the
    document store. The handler is taken by itself here, so the store
    client ([createDocument] of [@/lib/couchdb]) is a parameter: for each
    payload, the identifier and revision the store assigns or the error it
    fails with. [Shelf] runs the handler on the client itself. *)
Record Env : Type := {
  request_body : Exn + PostBody;
  clock : string;
  store : SavedBook -> Exn + Created;
}.

Record World : Type := {
  created : list SavedBook;
  logged : list Exn;
}.

Definition start : World := {| created := []; logged := [] |}.

Definition answer (env : Env) (X : Type) (op : Op X) (w : World) : X * World :=
  match op in Op X return X * World with
  | request_json => (request_body env, w)
  | new_Date_toISOString => (clock env, w)
  | createDocument payload =>
      (store env payload,
       match store env payload with
       | inr _ => {| created := created w ++ [payload]; logged := logged w |}
       | inl _ => w
       end)
  | console_error e => (tt, {| created := created w; logged := logged w ++ [e] |})
  end.

Definition serve (env : Env) : (Exn + NextResponse) * World :=
  run (answer env) POST start.

End SavedBooks.

(** ** The subject slug as the specification words it *)

Module SlugSpec.

(** The steps are read on the characters of a Unicode string: lower case as
    the Unicode Standard defines it for a string, white space as the
    characters listed below, percent-encoding over the bytes of UTF-8. *)

(** Whether the code point of a character has a property. *)
Definition has (property : N -> bool) (ch : string) : bool :=
  match Utf8.codePoint ch with
  | Some n => property n
  | None => false
  end.

(** The first character that is not case-ignorable is a cased letter. *)
Fixpoint meets_cased (characters : list string) : bool :=
  match characters with
  | [] => false
  | ch :: rest =>
      if has Unicode.caseIgnorable ch then meets_cased rest
      else has Unicode.cased ch
  end.

(** The condition [Final_Sigma] of the Unicode Standard, for a character
    between [before] and [after]. *)
Definition final_sigma (before after : list string) : bool :=
  meets_cased (rev before) && negb (meets_cased after).

(** The lower case of one character where it stands. *)
Definition lower (before : list string) (ch : string) (after : list string) : string :=
  match Utf8.codePoint ch with
  | Some n =>
      if bool_decide (n = 931%N) && final_sigma before after then Utf8.encode 962
      else
        match Unicode.lowercase n with
        | Some mapped => Utf8.join (Utf8.encode <$> mapped)
        | None => ch
        end
  | None => ch
  end.

(** Every character in its lower case, [before] being the characters
    already passed. *)
Fixpoint lower_each (before characters : list string) : list string :=
  match characters with
  | [] => []
  | ch :: after => lower before ch after :: lower_each (before ++ [ch]) after
  end.

(** Lower-case the string. *)
Definition lower_case (s : string) : string :=
  Utf8.join (lower_each [] (Utf8.chars s)).

(** Strip commas and periods. *)
Definition strip_commas_periods (s : string) : string :=
  Utf8.join (List.filter (fun ch => negb (bool_decide (ch = "." \/ ch = ",")))
               (Utf8.chars s)).

(** The white-space characters: the controls TAB to CR, the space, the
    no-break spaces, the spaces of fixed width, the line and paragraph
    separators and the byte-order mark. *)
Definition white_space_characters : list N :=
  [9; 10; 11; 12; 13; 32; 160; 5760; 8192; 8193; 8194; 8195; 8196; 8197; 8198;
   8199; 8200; 8201; 8202; 8232; 8233; 8239; 8287; 12288; 65279]%N.

Definition white_space (ch : string) : bool :=
  has (fun n => bool_decide (n ∈ white_space_characters)) ch.

(** Replace each run of white space with a single underscore: the
    underscore stands where the run ends. *)
Fixpoint underscore_each (characters : list string) : list string :=
  match characters with
  | [] => []
  | ch :: rest =>
      if white_space ch then
        match rest with
        | next :: _ =>
            if white_space next then underscore_each rest
            else "_" :: underscore_each rest
        | [] => ["_"]
        end
      else ch :: underscore_each rest
  end.

Definition underscore_runs (s : string) : string :=
  Utf8.join (underscore_each (Utf8.chars s)).

(** Percent-encode as a path segment: a byte of the encoding stays when it
    is a letter, a digit or one of the marks, and is written as [%] and two
    upper-case hexadecimal digits otherwise. *)
Definition unreserved : string :=
  "ABCDEFGHIJKLMNOPQRSTUVWXYZabcdefghijklmnopqrstuvwxyz0123456789-_.!~*'()".

Definition hexadecimal (n : N) : ascii :=
  nth (N.to_nat n) (list_ascii_of_string "0123456789ABCDEF") "0"%char.

Fixpoint percent_encode (s : string) : string :=
  match s with
  | EmptyString => EmptyString
  | String c r =>
      if bool_decide (c ∈ list_ascii_of_string unreserved)
      then String c (percent_encode r)
      else String "%"
             (String (hexadecimal (N_of_ascii c / 16))
                (String (hexadecimal (N_of_ascii c mod 16)) (percent_encode r)))
  end.

Definition slug (subject : string) : string :=
  percent_encode (underscore_runs (strip_commas_periods (lower_case subject))).

End SlugSpec.

(** ** Vocabulary of the statements *)

(** What follows the first character: the rest of a replaced run's text. *)
Definition after_underscore (s : string) : string :=
  match s with
  | String _ r => r
  | EmptyString => EmptyString
  end.

Definition keys (books : list Book.t) : list (option string) :=
  Book.key <$> books.

Module Shape.

Import Recommend.

(** The set of used keys is the seed's key and the keys recommended so far,
    and the seed's key is not among the latter. *)
Definition consistent (seed : option string) (st : Assembly) : Prop :=
  uniqueKeys st = {[ seed ]} ∪ list_to_set (keys (recommendations st))
  /\ seed ∉ keys (recommendations st).

(** The query the handler works with: trimmed, of length two at least. *)
Definition valid_query (request : Request) (query : string) : Prop :=
  JsString.trim <$> query_param request = Some query
  /\ (2 <= JsString.length query)%nat.

(** The state before the subject lookup. *)
Definition seeded (seedDoc : SearchDoc.t) : Assembly :=
  {| recommendations := []; uniqueKeys := {[ SearchDoc.key seedDoc ]} |}.

Definition called (w : World) (url : string) : World :=
  {| fetched := fetched w ++ [(url, init)]; logged := logged w |}.

Definition success (seedDoc : SearchDoc.t) (st : Assembly) : NextResponse :=
  NextResponse_json
    (ResultBody (Some (mapDocToBook seedDoc))
       (take MAX_RESULTS (recommendations st)) None).

(** The state after the subject lookup: the seeded state, with or without
    the works of a subject listing. *)
Inductive after_lookup (seedDoc : SearchDoc.t) : Assembly -> Prop :=
| lookup_skipped : after_lookup seedDoc (seeded seedDoc)
| lookup_listed works :
    after_lookup seedDoc (addSubjectWorks works (seeded seedDoc)).

(** Every invocation answers, and a result body is either the no-match
    body or a seed with the truncated list of the assembly. *)
Inductive answered : (Exn + NextResponse) -> Prop :=
| answered_error message status :
    answered (inr (createErrorResponse message status))
| answered_no_match message :
    message ≠ "" ->
    answered (inr (NextResponse_json (ResultBody None [] (Some message))))
| answered_success seedDoc rest st1 :
    after_lookup seedDoc st1 ->
    answered (inr (success seedDoc (addFallbackDocs (seedDoc :: rest) st1))).

(** The recommendations of an answer; an error body has none. *)
Definition recommendations_of (r : Exn + NextResponse) : list Book.t :=
  match r with
  | inr {| body := ResultBody _ recs _ |} => recs
  | _ => []
  end.

End Shape.

Import Shape.

(** ** Sample catalog answers *)

Module Sample.

Import Recommend.

Definition hit (key title : string) (subject : option (list string)) : SearchDoc.t :=
  {| SearchDoc.key := Some key;
     SearchDoc.title := Some title;
     SearchDoc.author_name := None;
     SearchDoc.cover_i := None;
     SearchDoc.first_publish_year := None;
     SearchDoc.subject := subject;
     SearchDoc.subject_facet := None |}.

(** A work of a subject listing that carries a key and nothing else but a
    cover id of 0. *)
Definition bare_work (key : string) : SubjectWork.t :=
  {| SubjectWork.key := Some key;
     SubjectWork.title := None;
     SubjectWork.authors := None;
     SubjectWork.cover_id := Some 0%Z;
     SubjectWork.first_publish_year := None;
     SubjectWork.subject := None |}.

Definition answers (data : Json) : Exn + Response :=
  inr {| ok := true; json := inr data |}.

Definition unavailable : Exn + Response :=
  inr {| ok := false; json := inl (ErrorObject "Unexpected token") |}.

Definition search_hits (hits : list SearchDoc.t) : Json :=
  {| docs := Some hits; works := None |}.

Definition subject_listing (listing : list SubjectWork.t) : Json :=
  {| docs := None; works := Some listing |}.

Definition dune : SearchDoc.t := hit "/works/OL1W" "Dune" (Some ["Science Fiction, Fantasy."]).
Definition emma : SearchDoc.t := hit "/works/OL3W" "Emma" None.

Definition work (key title : string) : SubjectWork.t :=
  {| SubjectWork.key := Some key;
     SubjectWork.title := Some title;
     SubjectWork.authors := Some [ {| Author.name := Some "William Gibson" |} ];
     SubjectWork.cover_id := Some 283860%Z;
     SubjectWork.first_publish_year := Some 1984%Z;
     SubjectWork.subject := Some ["Science fiction"] |}.

(** The search finds [dune], [emma] and [dune] again; the subject listing
    names the work [/works/OL2W] twice and the seed once. *)
Definition repeating : Network := fun n _ =>
  match n with
  | O => answers (search_hits [dune; emma; dune])
  | _ => answers (subject_listing
                    [work "/works/OL2W" "Neuromancer"; work "/works/OL2W" "Neuromancer";
                     work "/works/OL1W" "Dune"])
  end.

(** The search answers as in [repeating]; the subject listing names one work
    that has a key and no title. *)
Definition untitled : Network := fun n _ =>
  match n with
  | O => answers (search_hits [dune; emma; dune])
  | _ => answers (subject_listing [bare_work "/works/OL2W"])
  end.

(** The search answers as in [repeating]; the subject listing is refused. *)
Definition listing_down : Network := fun n _ =>
  match n with
  | O => answers (search_hits [dune; emma; dune])
  | _ => unavailable
  end.

(** The search finds only hits without a title or without a key. *)
Definition nothing_usable : Network := fun _ _ =>
  answers (search_hits
             [ {| SearchDoc.key := Some "/works/OL9W"; SearchDoc.title := None;
                  SearchDoc.author_name := None; SearchDoc.cover_i := None;
                  SearchDoc.first_publish_year := None; SearchDoc.subject := None;
                  SearchDoc.subject_facet := None |};
               {| SearchDoc.key := Some ""; SearchDoc.title := Some "Untitled";
                  SearchDoc.author_name := None; SearchDoc.cover_i := None;
                  SearchDoc.first_publish_year := None; SearchDoc.subject := None;
                  SearchDoc.subject_facet := None |} ]).

Definition ask (query : string) : Request := {| query_param := Some query |}.

(** One accented letter between a no-break space, a space and an
    ideographic space. *)
Definition padded_letter : string :=
  Utf8.encode 160 +:+ " é" +:+ Utf8.encode 12288.

Definition dune_book : Book.t :=
  {| Book.key := Some "/works/OL1W";
     Book.title := Some "Dune";
     Book.author := "Frank Herbert";
     Book.coverImage := None;
     Book.year := None;
     Book.subjects := None |}.

(** A shelf that accepts every document, at one instant of the clock. *)
Definition shelf (body : SavedBooks.PostBody) : SavedBooks.Env :=
  {| SavedBooks.request_body := inr body;
     SavedBooks.clock := "2026-01-02T03:04:05.678Z";
     SavedBooks.store := fun _ =>
       inr {| SavedBooks.id := "6e1295ed6c29495e54cc05947f18c8af";
              SavedBooks.rev := "1-2902191555" |} |}.

End Sample.

(** ** What the catalog answered: vocabulary of the further properties *)

Module Catalog.

Import Recommend.

(** The qualifying hits of the first answer to a request: none when the
    query is missing, the search is rejected or its body does not parse. *)
Definition hits (net : Network) (request : Request) : list SearchDoc.t :=
  match JsString.trim <$> query_param request with
  | Some query =>
      match net 0%nat (searchUrl query) with
      | inr searchResponse =>
          match json searchResponse with
          | inr searchData => qualifying (docs searchData)
          | inl _ => []
          end
      | inl _ => []
      end
  | None => []
  end.

(** The works the second answer lists for a seed: none when the seed has no
    primary subject, or the listing is rejected, refused or without works. *)
Definition listed (net : Network) (seedDoc : SearchDoc.t) : list SubjectWork.t :=
  match primarySubjectOf seedDoc with
  | Some (String _ _ as primarySubject) =>
      match net 1%nat (subjectUrl primarySubject) with
      | inr subjectResponse =>
          if ok subjectResponse then
            match json subjectResponse with
            | inr subjectData => nullish (works subjectData) []
            | inl _ => []
            end
          else []
      | inl _ => []
      end
  | _ => []
  end.

(** The listed works with a truthy key other than the seed's. *)
Definition eligible (seedDoc : SearchDoc.t) (listing : list SubjectWork.t)
    : list SubjectWork.t :=
  List.filter
    (fun work => truthy (SubjectWork.key work)
                 && bool_decide (SubjectWork.key work ≠ SearchDoc.key seedDoc))
    listing.

(** The bytes of a string. *)
Definition chars (s : string) : list ascii := list_ascii_of_string s.

(** The characters a percent-encoded path segment is made of. *)
Definition segment_safe (c : ascii) : bool :=
  JsString.uriUnreserved c || bool_decide (c = "%"%char).

(** The characters a form-urlencoded value is made of. *)
Definition form_safe (c : ascii) : bool :=
  JsString.isAlnum c || JsString.one_of "*-._+%" c.

End Catalog.

(** ** Sample outages *)

Module Outage.

Import Recommend.

(** The catalog refuses every request with a non-success status. *)
Definition search_down : Network := fun _ _ => Sample.unavailable.

(** No answer at all: every fetch is rejected. *)
Definition offline : Network := fun _ _ => inl (ErrorObject "fetch failed").

(** The search answers with a body that is not JSON. *)
Definition garbled : Network := fun _ _ =>
  inr {| ok := true; json := inl (ErrorObject "Unexpected token < in JSON") |}.

End Outage.

(** ** The document-store client ([lib/couchdb.ts]) *)

Module CouchDb.

(** What [new URL(dbUrl)] gives the module: the two credentials, and the text
    [toString()] yields once both are empty (for a URL without credentials,
    its text as it is). *)
Record ParsedURL : Type := {
  username : string;
  password : string;
  href_without_credentials : string;
}.

(** The built-ins the configuration runs on. [new URL] and
    [decodeURIComponent] either answer or throw an [Error] with a message;
    [base64] is [Buffer.from(text).toString("base64")]. *)
Record Runtime : Type := {
  new_URL : string -> string + ParsedURL;
  decodeURIComponent : string -> string + string;
  base64 : string -> string;
}.

(** [text.replace(/\/+$/, "")]: the slashes the text ends with are removed. *)
Fixpoint stripTrailingSlashes (s : string) : string :=
  match s with
  | EmptyString => EmptyString
  | String c r =>
      match stripTrailingSlashes r with
      | EmptyString =>
          if bool_decide (c = "/"%char) then EmptyString else String c EmptyString
      | r' => String c r'
      end
  end.

(** The module's state once loaded, and what it warned about on the way. *)
Record Config : Type := {
  resolvedBaseUrl : option string;
  authorizationHeader : option string;
  dbName : string;
  warnings : list string;
}.

(** The credentials branch of the [try] block: the header to set, or the
    message of the error thrown while decoding. *)
Definition credentialsHeader (rt : Runtime) (parsed : ParsedURL)
    : string + option string :=
  if bool_decide (username parsed ≠ "") || bool_decide (password parsed ≠ "") then
    match decodeURIComponent rt (username parsed) with
    | inl message => inl message
    | inr username =>
        match decodeURIComponent rt (password parsed) with
        | inl message => inl message
        | inr password =>
            inr (Some ("Basic " +:+ base64 rt (username +:+ ":" +:+ password)))
        end
    end
  else inr None.

(** A text of [n] slashes. *)
Fixpoint slashes (n : nat) : string :=
  match n with
  | O => EmptyString
  | S n => String "/" (slashes n)
  end.

(** The statements the module runs when it is loaded, from the two
    environment variables. *)
Definition load (rt : Runtime) (COUCHDB_URL COUCHDB_DATABASE : option string)
    : Config :=
  let dbName := nullish COUCHDB_DATABASE "saved_books" in
  let invalid dbUrl message :=
    {| resolvedBaseUrl := Some (stripTrailingSlashes dbUrl);
       authorizationHeader := None;
       dbName := dbName;
       warnings := ["Invalid COUCHDB_URL provided. " +:+ message] |} in
  let configured :=
    match COUCHDB_URL with
    | Some (String _ _ as dbUrl) =>
        match new_URL rt dbUrl with
        | inl message => invalid dbUrl message
        | inr parsed =>
            match credentialsHeader rt parsed with
            | inl message => invalid dbUrl message
            | inr header =>
                {| resolvedBaseUrl :=
                     Some (stripTrailingSlashes (href_without_credentials parsed));
                   authorizationHeader := header;
                   dbName := dbName;
                   warnings := [] |}
            end
        end
    | _ =>
        {| resolvedBaseUrl := None; authorizationHeader := None;
           dbName := dbName; warnings := [] |}
    end in
  if truthy (resolvedBaseUrl configured) then configured
  else
    {| resolvedBaseUrl := resolvedBaseUrl configured;
       authorizationHeader := authorizationHeader configured;
       dbName := dbName;
       warnings :=
         warnings configured
           ++ ["COUCHDB_URL environment variable is not set. Saved books API routes will fail."] |}.

(** A [Headers] object: values by lower-cased name. *)
Abbreviation Headers := (gmap string string).

Definition baseHeaders (cfg : Config) : Headers :=
  let headers : Headers :=
    <["accept" := "application/json"]>
      (<["content-type" := "application/json"]> ∅) in
  match authorizationHeader cfg with
  | Some (String _ _ as header) => <["authorization" := header]> headers
  | _ => headers
  end.

(** The [init] a caller passes: a method, a body (the document whose JSON
    text is sent) and headers, each optional. *)
Record RequestInit : Type := {
  init_method : option string;
  init_body : option SavedBooks.SavedBook;
  init_headers : option Headers;
}.

(** What [fetch] is called with. *)
Record HttpRequest : Type := {
  url : string;
  method : option string;
  headers : Headers;
  body : option SavedBooks.SavedBook;
}.

(** [CouchDocument<SavedBook>]. *)
Record StoredDoc : Type := {
  _id : string;
  _rev : string;
  saved : SavedBooks.SavedBook;
}.

Record Row : Type := {
  row_id : string;
  doc : option StoredDoc;
}.

Record AllDocs : Type := { rows : list Row }.

(** The two types [couchRequest<T>] is called at. *)
Inductive Answer : Type :=
| CreatedAnswer
| AllDocsAnswer.

Definition answer_type (T : Answer) : Type :=
  match T with
  | CreatedAnswer => SavedBooks.Created
  | AllDocsAnswer => AllDocs
  end.

(** A fetch [Response] whose JSON has the type the caller casts it to. *)
Record Response (T : Type) : Type := {
  ok : bool;
  status : Z;
  statusText : string;
  text : Exn + string;
  json : Exn + T;
}.

Arguments ok {T} _.
Arguments status {T} _.
Arguments statusText {T} _.
Arguments text {T} _.
Arguments json {T} _.

Inductive Op : Type -> Type :=
| fetch (T : Answer) (request : HttpRequest) : Op (Exn + Response (answer_type T)).

Definition couchRequest (T : Answer) (cfg : Config) (path : string)
    (init : option RequestInit) : Async Op (answer_type T) :=
  match resolvedBaseUrl cfg with
  | Some (String _ _ as resolvedBaseUrl) =>
      let url := resolvedBaseUrl +:+ path in
      let headers :=
        match init ≫= init_headers with
        | Some overrideHeaders => overrideHeaders ∪ baseHeaders cfg
        | None => baseHeaders cfg
        end in
      response ← await (fetch T {| url := url;
                                   method := init ≫= init_method;
                                   headers := headers;
                                   body := init ≫= init_body |});
      if negb (ok response) then
        text ← match text response with
               | inl e => Throw e
               | inr text => Resolve text
               end;
        Throw (ErrorObject
                 ("CouchDB request failed (" +:+ JsString.ofNumber (status response)
                    +:+ " " +:+ statusText response +:+ "): " +:+ text))
      else
        match json response with
        | inl e => Throw e
        | inr data => Resolve data
        end
  | _ => Throw (ErrorObject "Missing CouchDB configuration (COUCHDB_URL).")
  end.

Definition createDocument (cfg : Config) (doc : SavedBooks.SavedBook)
    : Async Op SavedBooks.Created :=
  let path := "/" +:+ dbName cfg in
  couchRequest CreatedAnswer cfg path
    (Some {| init_method := Some "POST"; init_body := Some doc; init_headers := None |}).

(** [array.filter(Boolean)] on documents that may be missing. *)
Definition filter_Boolean {A} (array : list (option A)) : list A := omap id array.

Definition listDocuments (cfg : Config) : Async Op (list StoredDoc) :=
  let path := "/" +:+ dbName cfg +:+ "/_all_docs?include_docs=true" in
  data ← couchRequest AllDocsAnswer cfg path None;
  mret (filter_Boolean (doc <$> rows data)).

End CouchDb.

(** ** The saved-books route: [GET] *)

Module SavedList.

(** An item of the answer: the identifier and the fields copied from a
    stored document, one by one. *)
Record Item : Type := {
  id : string;
  title : option string;
  author : string;
  coverImage : option string;
  year : option Z;
  subjects : option (list string);
  key : option string;
  savedAt : string;
}.

Inductive Op : Type -> Type :=
| listDocuments : Op (Exn + list CouchDb.StoredDoc)
| console_error (e : Exn) : Op unit.

Inductive Body : Type :=
| ErrorBody (error : string)
| ItemsBody (items : list Item).

Record NextResponse : Type := {
  status : Z;
  body : Body;
}.

(** The callback of [docs.map]. *)
Definition itemOf (doc : CouchDb.StoredDoc) : Item :=
  let fields := SavedBooks.book_fields (CouchDb.saved doc) in
  {| id := CouchDb._id doc;
     title := Book.title fields;
     author := Book.author fields;
     coverImage := Book.coverImage fields;
     year := Book.year fields;
     subjects := Book.subjects fields;
     key := Book.key fields;
     savedAt := SavedBooks.savedAt (CouchDb.saved doc) |}.

Definition GET : Async Op NextResponse :=
  try_catch
    (docs ← await listDocuments;
     let items := itemOf <$> docs in
     mret {| status := 200; body := ItemsBody items |})
    (fun error =>
       Await (console_error error) (fun _ =>
       mret {| status := 500; body := ErrorBody "Failed to load saved books." |})).

End SavedList.

(** ** The two saved-books handlers on the document-store client *)

Module Shelf.

(** The store answers the [n]-th request of an invocation (from 0) with a
    response of the type the client casts it to. *)
Definition Store : Type :=
  nat -> CouchDb.HttpRequest ->
  forall T : CouchDb.Answer, Exn + CouchDb.Response (CouchDb.answer_type T).

Record Env : Type := {
  config : CouchDb.Config;
  request_body : Exn + SavedBooks.PostBody;
  clock : string;
  store : Store;
}.

Record World : Type := {
  sent : list CouchDb.HttpRequest;
  logged : list Exn;
}.

Definition start : World := {| sent := []; logged := [] |}.

Definition answer_client (env : Env) (X : Type) (op : CouchDb.Op X) (w : World)
    : X * World :=
  match op in CouchDb.Op X return X * World with
  | CouchDb.fetch T request =>
      (store env (length (sent w)) request T,
       {| sent := sent w ++ [request]; logged := logged w |})
  end.

(** [createDocument] and [listDocuments] are the client's functions, run
    against the store. *)
Definition answer_post (env : Env) (X : Type) (op : SavedBooks.Op X) (w : World)
    : X * World :=
  match op in SavedBooks.Op X return X * World with
  | SavedBooks.request_json => (request_body env, w)
  | SavedBooks.new_Date_toISOString => (clock env, w)
  | SavedBooks.createDocument payload =>
      run (answer_client env) (CouchDb.createDocument (config env) payload) w
  | SavedBooks.console_error e =>
      (tt, {| sent := sent w; logged := logged w ++ [e] |})
  end.

Definition answer_get (env : Env) (X : Type) (op : SavedList.Op X) (w : World)
    : X * World :=
  match op in SavedList.Op X return X * World with
  | SavedList.listDocuments =>
      run (answer_client env) (CouchDb.listDocuments (config env)) w
  | SavedList.console_error e =>
      (tt, {| sent := sent w; logged := logged w ++ [e] |})
  end.

(** One [POST /api/saved-books] and one [GET /api/saved-books]. *)
Definition post (env : Env) : (Exn + SavedBooks.NextResponse) * World :=
  run (answer_post env) SavedBooks.POST start.

Definition get (env : Env) : (Exn + SavedList.NextResponse) * World :=
  run (answer_get env) SavedList.GET start.

(** The client has a base URL to send requests to. *)
Definition configured (cfg : CouchDb.Config) (base : string) : Prop :=
  CouchDb.resolvedBaseUrl cfg = Some base /\ base ≠ "".

(** The message of the error [couchRequest] throws for a refused request. *)
Definition refusal {T} (response : CouchDb.Response T) (text : string) : string :=
  "CouchDB request failed (" +:+ JsString.ofNumber (CouchDb.status response)
    +:+ " " +:+ CouchDb.statusText response +:+ "): " +:+ text.

(** The request [createDocument] sends for a payload. *)
Definition createRequest (cfg : CouchDb.Config) (base : string)
    (payload : SavedBooks.SavedBook) : CouchDb.HttpRequest :=
  {| CouchDb.url := base +:+ "/" +:+ CouchDb.dbName cfg;
     CouchDb.method := Some "POST";
     CouchDb.headers := CouchDb.baseHeaders cfg;
     CouchDb.body := Some payload |}.

(** The request [listDocuments] sends. *)
Definition listRequest (cfg : CouchDb.Config) (base : string) : CouchDb.HttpRequest :=
  {| CouchDb.url := base +:+ "/" +:+ CouchDb.dbName cfg +:+ "/_all_docs?include_docs=true";
     CouchDb.method := None;
     CouchDb.headers := CouchDb.baseHeaders cfg;
     CouchDb.body := None |}.

End Shelf.

(** ** A sample shelf *)

Module ShelfSample.

Definition config : CouchDb.Config :=
  {| CouchDb.resolvedBaseUrl := Some "https://db.example.com";
     CouchDb.authorizationHeader := Some "Basic YWRtaW46c2VjcmV0";
     CouchDb.dbName := "saved_books";
     CouchDb.warnings := [] |}.

Definition unconfigured : CouchDb.Config :=
  {| CouchDb.resolvedBaseUrl := None;
     CouchDb.authorizationHeader := None;
     CouchDb.dbName := "saved_books";
     CouchDb.warnings :=
       ["COUCHDB_URL environment variable is not set. Saved books API routes will fail."] |}.

Definition stamp : string := "2026-01-02T03:04:05.678Z".

Definition dune_saved : SavedBooks.SavedBook :=
  {| SavedBooks.book_fields := Sample.dune_book; SavedBooks.savedAt := stamp |}.

Definition dune_doc : CouchDb.StoredDoc :=
  {| CouchDb._id := "6e1295ed6c29495e54cc05947f18c8af";
     CouchDb._rev := "1-2902191555";
     CouchDb.saved := dune_saved |}.

Definition answers {T} (status : Z) (statusText : string) (data : T)
    : Exn + CouchDb.Response T :=
  inr {| CouchDb.ok := true; CouchDb.status := status;
         CouchDb.statusText := statusText;
         CouchDb.text := inl (ErrorObject "body used already");
         CouchDb.json := inr data |}.

(** A store that creates every document under one identifier and lists one
    stored document and one row without a document. *)
Definition accepting : Shelf.Store := fun _ _ T =>
  match T return Exn + CouchDb.Response (CouchDb.answer_type T) with
  | CouchDb.CreatedAnswer =>
      answers 201 "Created"
        {| SavedBooks.id := "6e1295ed6c29495e54cc05947f18c8af";
           SavedBooks.rev := "1-2902191555" |}
  | CouchDb.AllDocsAnswer =>
      answers 200 "OK"
        {| CouchDb.rows :=
             [ {| CouchDb.row_id := "6e1295ed6c29495e54cc05947f18c8af";
                  CouchDb.doc := Some dune_doc |};
               {| CouchDb.row_id := "_design/shelf"; CouchDb.doc := None |} ] |}
  end.

(** A store that refuses every request. *)
Definition unauthorized {T} : CouchDb.Response T :=
  {| CouchDb.ok := false; CouchDb.status := 401;
     CouchDb.statusText := "Unauthorized";
     CouchDb.text := inr "Name or password is incorrect.";
     CouchDb.json := inl (ErrorObject "body used already") |}.

Definition refusing : Shelf.Store := fun _ _ T => inr unauthorized.

Definition env (cfg : CouchDb.Config) (store : Shelf.Store) : Shelf.Env :=
  {| Shelf.config := cfg;
     Shelf.request_body := inr {| SavedBooks.book := Some Sample.dune_book |};
     Shelf.clock := stamp;
     Shelf.store := store |}.

End ShelfSample.

(** ** The page ([app/page.tsx]): its state and its three handlers *)

Module Page.

(** ["idle" | "saving" | "saved" | "error"]. *)
Inductive SaveState : Type :=
| idle
| saving
| saved
| error_state.

(** The state hooks of [Home]; the page's [SavedBook] is a book with an
    [id] and a [savedAt], the shape of the items the list route answers. *)
Record State : Type := {
  query : string;
  seed : option Book.t;
  recommendations : list Book.t;
  infoMessage : option string;
  error : option string;
  isLoading : bool;
  savedBooks : list SavedList.Item;
  savedStates : gmap string SaveState;
  savedLoading : bool;
  savedError : option string;
  savedToast : option string;
}.

Definition setQuery (v : string) (s : State) : State :=
  {| query := v; seed := seed s; recommendations := recommendations s;
     infoMessage := infoMessage s; error := error s; isLoading := isLoading s;
     savedBooks := savedBooks s; savedStates := savedStates s;
     savedLoading := savedLoading s; savedError := savedError s;
     savedToast := savedToast s |}.

Definition setSeed (v : option Book.t) (s : State) : State :=
  {| query := query s; seed := v; recommendations := recommendations s;
     infoMessage := infoMessage s; error := error s; isLoading := isLoading s;
     savedBooks := savedBooks s; savedStates := savedStates s;
     savedLoading := savedLoading s; savedError := savedError s;
     savedToast := savedToast s |}.

Definition setRecommendations (v : list Book.t) (s : State) : State :=
  {| query := query s; seed := seed s; recommendations := v;
     infoMessage := infoMessage s; error := error s; isLoading := isLoading s;
     savedBooks := savedBooks s; savedStates := savedStates s;
     savedLoading := savedLoading s; savedError := savedError s;
     savedToast := savedToast s |}.

Definition setInfoMessage (v : option string) (s : State) : State :=
  {| query := query s; seed := seed s; recommendations := recommendations s;
     infoMessage := v; error := error s; isLoading := isLoading s;
     savedBooks := savedBooks s; savedStates := savedStates s;
     savedLoading := savedLoading s; savedError := savedError s;
     savedToast := savedToast s |}.

Definition setError (v : option string) (s : State) : State :=
  {| query := query s; seed := seed s; recommendations := recommendations s;
     infoMessage := infoMessage s; error := v; isLoading := isLoading s;
     savedBooks := savedBooks s; savedStates := savedStates s;
     savedLoading := savedLoading s; savedError := savedError s;
     savedToast := savedToast s |}.

Definition setIsLoading (v : bool) (s : State) : State :=
  {| query := query s; seed := seed s; recommendations := recommendations s;
     infoMessage := infoMessage s; error := error s; isLoading := v;
     savedBooks := savedBooks s; savedStates := savedStates s;
     savedLoading := savedLoading s; savedError := savedError s;
     savedToast := savedToast s |}.

(** [setSavedBooks] and [setSavedStates] with an updater of the previous
    value. *)
Definition setSavedBooks (update : list SavedList.Item -> list SavedList.Item)
    (s : State) : State :=
  {| query := query s; seed := seed s; recommendations := recommendations s;
     infoMessage := infoMessage s; error := error s; isLoading := isLoading s;
     savedBooks := update (savedBooks s); savedStates := savedStates s;
     savedLoading := savedLoading s; savedError := savedError s;
     savedToast := savedToast s |}.

Definition setSavedStates (update : gmap string SaveState -> gmap string SaveState)
    (s : State) : State :=
  {| query := query s; seed := seed s; recommendations := recommendations s;
     infoMessage := infoMessage s; error := error s; isLoading := isLoading s;
     savedBooks := savedBooks s; savedStates := update (savedStates s);
     savedLoading := savedLoading s; savedError := savedError s;
     savedToast := savedToast s |}.

Definition setSavedLoading (v : bool) (s : State) : State :=
  {| query := query s; seed := seed s; recommendations := recommendations s;
     infoMessage := infoMessage s; error := error s; isLoading := isLoading s;
     savedBooks := savedBooks s; savedStates := savedStates s;
     savedLoading := v; savedError := savedError s;
     savedToast := savedToast s |}.

Definition setSavedError (v : option string) (s : State) : State :=
  {| query := query s; seed := seed s; recommendations := recommendations s;
     infoMessage := infoMessage s; error := error s; isLoading := isLoading s;
     savedBooks := savedBooks s; savedStates := savedStates s;
     savedLoading := savedLoading s; savedError := v;
     savedToast := savedToast s |}.

Definition setSavedToast (v : option string) (s : State) : State :=
  {| query := query s; seed := seed s; recommendations := recommendations s;
     infoMessage := infoMessage s; error := error s; isLoading := isLoading s;
     savedBooks := savedBooks s; savedStates := savedStates s;
     savedLoading := savedLoading s; savedError := savedError s;
     savedToast := v |}.


(** The JSON bodies the page reads, every field optional. *)
Record RecommendationPayload : Type := {
  payload_seed : option Book.t;
  payload_recommendations : option (list Book.t);
  payload_message : option string;
  payload_error : option string;
}.

Record ListPayload : Type := {
  list_items : option (list SavedList.Item);
  list_error : option string;
}.

Record SavePayload : Type := {
  save_id : option string;
  save_savedAt : option string;
  save_error : option string;
}.

(** The three requests of the page, by the type their answer is cast to. *)
Inductive Api : Type :=
| RecommendApi
| ListApi
| SaveApi.

Definition payload (api : Api) : Type :=
  match api with
  | RecommendApi => RecommendationPayload
  | ListApi => ListPayload
  | SaveApi => SavePayload
  end.

Record Response (T : Type) : Type := {
  ok : bool;
  json : Exn + T;
}.

Arguments ok {T} _.
Arguments json {T} _.

(** The [init] of a fetch: method, cache mode, Content-Type header and the
    book whose JSON text is the body. *)
Record Init : Type := {
  method : option string;
  cache : option string;
  content_type : option string;
  body : option Book.t;
}.

Inductive Op : Type -> Type :=
| fetch (api : Api) (url : string) (init : Init) : Op (Exn + Response (payload api))
| console_error (e : Exn) : Op unit.

(** A property name: the text of the key, ["undefined"] for a missing one. *)
Definition propertyKey (k : option string) : string :=
  match k with
  | Some k => k
  | None => "undefined"
  end.

Definition response_json {E T} (response : Response T) : Async E T :=
  match json response with
  | inl e => Throw e
  | inr data => Resolve data
  end.

Definition fetchSavedBooks (s : State) : Async Op State :=
  let s := setSavedError None (setSavedLoading true s) in
  s ← try_catch
        (response ← await (fetch ListApi "/api/saved-books"
                             {| method := None; cache := Some "no-store";
                                content_type := None; body := None |});
         data ← response_json response;
         if negb (ok response) then
           Throw (ErrorObject (nullish (list_error data) "Failed to load saved books."))
         else
           let items := nullish (list_items data) [] in
           let s := setSavedBooks (fun _ => items) s in
           mret (setSavedStates
                   (fun prev =>
                      forEach (fun item next =>
                                 <[propertyKey (SavedList.key item) := saved]> next)
                        items prev)
                   s))
        (fun err =>
           Await (console_error err) (fun _ =>
           mret (setSavedError (Some "We couldn't load your saved books.") s)));
  mret (setSavedLoading false s).

Definition fetchRecommendations (searchTerm : string) (s : State) : Async Op State :=
  match JsString.trim searchTerm with
  | EmptyString => mret s
  | trimmed =>
      let s := setInfoMessage None (setError None (setIsLoading true s)) in
      s ← try_catch
            (let params := "query=" +:+ JsString.formUrlEncode trimmed in
             response ← await (fetch RecommendApi ("/api/recommend?" +:+ params)
                                 {| method := Some "GET"; cache := None;
                                    content_type := None; body := None |});
             data ← response_json response;
             if negb (ok response) then
               mret (setError
                       (Some (nullish (payload_error data)
                                "We could not get recommendations right now."))
                       (setRecommendations [] (setSeed None s)))
             else
               let s := setRecommendations (nullish (payload_recommendations data) [])
                          (setSeed (payload_seed data) s) in
               match payload_recommendations data with
               | Some (_ :: _) => mret s
               | _ =>
                   mret (setInfoMessage
                           (Some (nullish (payload_message data)
                                    "We couldn't find similar titles, but try another book!"))
                           s)
               end)
            (fun err =>
               Await (console_error err) (fun _ =>
               mret (setError
                       (Some "Something went wrong while reaching the recommendation service.")
                       (setRecommendations [] (setSeed None s)))));
      mret (setIsLoading false s)
  end.

Definition handleSubmit (s : State) : Async Op State :=
  fetchRecommendations (query s) s.

Definition handleQuickPick (title : string) (s : State) : Async Op State :=
  fetchRecommendations title (setQuery title s).

(** [{ ...book, id, savedAt }]. *)
Definition savedBookOf (book : Book.t) (id savedAt : string) : SavedList.Item :=
  {| SavedList.id := id;
     SavedList.title := Book.title book;
     SavedList.author := Book.author book;
     SavedList.coverImage := Book.coverImage book;
     SavedList.year := Book.year book;
     SavedList.subjects := Book.subjects book;
     SavedList.key := Book.key book;
     SavedList.savedAt := savedAt |}.

(** The double quote of the toast. *)
Definition quote : ascii := ascii_of_nat 34.

Definition savedToastFor (book : Book.t) : string :=
  "Saved " +:+ String quote (propertyKey (Book.title book))
    +:+ String quote " to your shelf.".

Definition handleSaveBook (book : Book.t) (s : State) : Async Op State :=
  let key := propertyKey (Book.key book) in
  let s := setSavedToast None (setSavedStates (fun prev => <[key := saving]> prev) s) in
  try_catch
    (response ← await (fetch SaveApi "/api/saved-books"
                         {| method := Some "POST"; cache := None;
                            content_type := Some "application/json";
                            body := Some book |});
     data ← response_json response;
     match save_id data, save_savedAt data with
     | Some (String _ _ as id), Some (String _ _ as savedAt) =>
         if negb (ok response) then
           Throw (ErrorObject (nullish (save_error data) "Failed to save the book."))
         else
           let s := setSavedStates (fun prev => <[key := saved]> prev) s in
           let s :=
             setSavedBooks
               (fun prev =>
                  if existsb (fun item =>
                                bool_decide (SavedList.key item = Book.key book)) prev
                  then prev
                  else savedBookOf book id savedAt :: prev)
               s in
           mret (setSavedToast (Some (savedToastFor book)) s)
     | _, _ =>
         Throw (ErrorObject (nullish (save_error data) "Failed to save the book."))
     end)
    (fun err =>
       Await (console_error err) (fun _ =>
       mret (setSavedToast (Some "We couldn't save that book. Please try again.")
               (setSavedStates (fun prev => <[key := error_state]> prev) s)))).

(** [Boolean(seed) || recommendations.length > 0]. *)
Definition hasResults (s : State) : bool :=
  match seed s with
  | Some _ => true
  | None => (0 <? length (recommendations s))%nat
  end.

(** *** The page's backend *)

(** The backend answers the [n]-th request of a handler (from 0). *)
Definition Backend : Type :=
  nat -> string -> Init -> forall api : Api, Exn + Response (payload api).

Record World : Type := {
  requested : list (string * Init);
  logged : list Exn;
}.

Definition start : World := {| requested := []; logged := [] |}.

Definition answer (backend : Backend) (X : Type) (op : Op X) (w : World) : X * World :=
  match op in Op X return X * World with
  | fetch api url init =>
      (backend (length (requested w)) url init api,
       {| requested := requested w ++ [(url, init)]; logged := logged w |})
  | console_error e =>
      (tt, {| requested := requested w; logged := logged w ++ [e] |})
  end.

End Page.

(** ** From the page to the routes and back *)

Module Wire.

(** The value of a hexadecimal digit. *)
Definition unhex (c : ascii) : option N :=
  let n := JsString.code c in
  if JsString.isDigit c then Some (n - 48)%N
  else if ((65 <=? n) && (n <=? 70))%N then Some (n - 55)%N
  else if ((97 <=? n) && (n <=? 102))%N then Some (n - 87)%N
  else None.

(** Decoding of a form-urlencoded name or value: [+] is a space, [%XX] the
    byte [XX], and a [%] that two hexadecimal digits do not follow stays. *)
Fixpoint formUrlDecode (s : string) : string :=
  match s with
  | EmptyString => EmptyString
  | String c r =>
      if bool_decide (c = "+"%char) then String " " (formUrlDecode r)
      else if bool_decide (c = "%"%char) then
        match r with
        | String h (String l r') =>
            match unhex h, unhex l with
            | Some a, Some b => String (ascii_of_N (16 * a + b)) (formUrlDecode r')
            | _, _ => String c (formUrlDecode r)
            end
        | _ => String c (formUrlDecode r)
        end
      else String c (formUrlDecode r)
  end.

(** The pieces of a text between the occurrences of a separator. *)
Fixpoint splitOn (sep : ascii) (s : string) : list string :=
  match s with
  | EmptyString => [EmptyString]
  | String c r =>
      if bool_decide (c = sep) then EmptyString :: splitOn sep r
      else
        match splitOn sep r with
        | piece :: pieces => String c piece :: pieces
        | [] => [String c EmptyString]
        end
  end.

(** A piece at its first [=]: the name and the value (empty without [=]). *)
Fixpoint nameValue (piece : string) : string * string :=
  match piece with
  | EmptyString => (EmptyString, EmptyString)
  | String c r =>
      if bool_decide (c = "="%char) then (EmptyString, r)
      else let '(name, value) := nameValue r in (String c name, value)
  end.

(** The pairs [URLSearchParams] reads from a query string: the non-empty
    pieces between [&], each split at its first [=] and decoded. *)
Definition parseSearch (search : string) : list (string * string) :=
  (fun piece =>
     let '(name, value) := nameValue piece in
     (formUrlDecode name, formUrlDecode value))
    <$> List.filter (fun piece => negb (bool_decide (piece = ""))) (splitOn "&" search).

(** [searchParams.get(name)]: the value of the first pair of that name. *)
Definition searchParams_get (name : string) (search : string) : option string :=
  snd <$> List.find (fun pair => bool_decide (pair.1 = name)) (parseSearch search).

(** A URL without its fragment: what precedes the first [#]. *)
Fixpoint withoutFragment (url : string) : string :=
  match url with
  | EmptyString => EmptyString
  | String c r =>
      if bool_decide (c = "#"%char) then EmptyString else String c (withoutFragment r)
  end.

Fixpoint afterQuestionMark (url : string) : string :=
  match url with
  | EmptyString => EmptyString
  | String c r => if bool_decide (c = "?"%char) then r else afterQuestionMark r
  end.

(** The query of a URL: what follows its first [?], the fragment left out. *)
Definition searchOf (url : string) : string :=
  afterQuestionMark (withoutFragment url).

(** The request the recommend route sees for a URL of the page. *)
Definition requestOf (url : string) : Recommend.Request :=
  {| Recommend.query_param := searchParams_get "query" (searchOf url) |}.

(** [response.ok]: a status from 200 to 299. *)
Definition okStatus (status : Z) : bool := ((200 <=? status) && (status <=? 299))%Z.

(** The JSON text of a body of the recommend route, read back by the page:
    a missing field stays missing, [null] and [undefined] are both [None]. *)
Definition recommendationPayload (b : Recommend.Body) : Page.RecommendationPayload :=
  match b with
  | Recommend.ErrorBody message =>
      {| Page.payload_seed := None; Page.payload_recommendations := None;
         Page.payload_message := None; Page.payload_error := Some message |}
  | Recommend.ResultBody seed recs message =>
      {| Page.payload_seed := seed; Page.payload_recommendations := Some recs;
         Page.payload_message := message; Page.payload_error := None |}
  end.

(** The recommend route as the page's backend for its search request. *)
Definition recommend (net : Recommend.Network) (url : string)
    : Exn + Page.Response Page.RecommendationPayload :=
  match (Recommend.serve net (requestOf url)).1 with
  | inr response =>
      inr {| Page.ok := okStatus (Recommend.status response);
             Page.json := inr (recommendationPayload (Recommend.body response)) |}
  | inl e => inr {| Page.ok := false; Page.json := inl e |}
  end.

(** A backend whose search requests go to the recommend route over [net];
    the shelf requests are answered by [rest]. *)
Definition backend (net : Recommend.Network) (rest : Page.Backend) : Page.Backend :=
  fun n url init api =>
    match api return Exn + Page.Response (Page.payload api) with
    | Page.RecommendApi => recommend net url
    | Page.ListApi => rest n url init Page.ListApi
    | Page.SaveApi => rest n url init Page.SaveApi
    end.


End Wire.

(** ** Running asynchronous handlers *)

Section RunLemmas.

Context {E : Type -> Type} {W : Type}.
Variable answer : forall X, E X -> W -> X * W.

Lemma run_bind {A B} (p : Async E A) (k : A -> Async E B) (w : W) :
  run answer (p ≫= k) w =
    match run answer p w with
    | (inr x, w') => run answer (k x) w'
    | (inl e, w') => (inl e, w')
    end.
Proof.
  revert w. induction p as [a | e | X op k' IH]; intros w; simpl; try reflexivity.
  destruct (answer X op w) as [x w']. apply IH.
Qed.

Lemma run_try_catch {A} (p : Async E A) (handler : Exn -> Async E A) (w : W) :
  run answer (try_catch p handler) w =
    match run answer p w with
    | (inr x, w') => (inr x, w')
    | (inl e, w') => run answer (handler e) w'
    end.
Proof.
  revert w. induction p as [a | e | X op k' IH]; intros w; simpl; try reflexivity.
  destruct (answer X op w) as [x w']. apply IH.
Qed.

Lemma run_await {X} (op : E (Exn + X)%type) (w : W) :
  run answer (await op) w = answer _ op w.
Proof.
  unfold await. simpl. destruct (answer _ op w) as [[e | x] w']; reflexivity.
Qed.

End RunLemmas.

(** ** The two loops of the recommend route *)

Section Loops.

Import Recommend.

Lemma forEach_cons {A S} (callback : A -> S -> S) a l s :
  forEach callback (a :: l) s = forEach callback l (callback a s).
Proof. reflexivity. Qed.

Lemma has_true keys k : has keys k = true <-> k ∈ keys.
Proof. unfold has. apply bool_decide_eq_true. Qed.

Lemma has_false keys k : has keys k = false <-> k ∉ keys.
Proof. unfold has. apply bool_decide_eq_false. Qed.

(** The subject loop appends the works in order until there are ten. *)
Lemma subject_loop_recommendations works st :
  recommendations (forEach pushSubjectWork works st) =
    recommendations st
      ++ take (MAX_RESULTS - length (recommendations st))
              (mapSubjectWorkToBook <$> works).
Proof.
  revert st. induction works as [| work works IH]; intros st.
  - simpl. rewrite take_nil, app_nil_r. reflexivity.
  - rewrite forEach_cons, IH. unfold pushSubjectWork.
    destruct (Nat.leb_spec MAX_RESULTS (length (recommendations st))) as [Hfull | Hroom].
    + replace (MAX_RESULTS - length (recommendations st))%nat with 0%nat by lia.
      reflexivity.
    + simpl recommendations. rewrite length_app. simpl length.
      replace (MAX_RESULTS - length (recommendations st))%nat
        with (S (MAX_RESULTS - (length (recommendations st) + 1))) by lia.
      rewrite fmap_cons. simpl take. rewrite <- app_assoc. reflexivity.
Qed.

Lemma subject_loop_length works st :
  (length (recommendations (forEach pushSubjectWork works st))
   <= Nat.max MAX_RESULTS (length (recommendations st)))%nat.
Proof.
  rewrite subject_loop_recommendations, length_app, length_take. lia.
Qed.

Lemma fallback_loop_length docs st :
  (length (recommendations (forEach pushFallbackDoc docs st))
   <= Nat.max MAX_RESULTS (length (recommendations st)))%nat.
Proof.
  revert st. induction docs as [| doc docs IH]; intros st.
  - simpl. lia.
  - rewrite forEach_cons. etransitivity; [apply IH |]. unfold pushFallbackDoc.
    destruct (Nat.leb_spec MAX_RESULTS (length (recommendations st))); simpl.
    + lia.
    + destruct (has _ _); simpl; [lia |]. rewrite length_app. simpl. lia.
Qed.

Lemma consistent_push seed book k st :
  Book.key book = k -> k ≠ seed ->
  consistent seed st -> consistent seed (push book k st).
Proof.
  intros <- Hne [Hset Hseed]. split; unfold push, keys in *; simpl.
  - rewrite fmap_app, list_to_set_app_L, Hset. simpl.
    rewrite (right_id_L ∅ (∪)), (assoc_L (∪)). reflexivity.
  - rewrite fmap_app. simpl. apply not_elem_of_app. split; [exact Hseed |].
    rewrite list_elem_of_singleton. congruence.
Qed.

Lemma subject_loop_consistent seed works st :
  Forall (fun work => SubjectWork.key work ≠ seed) works ->
  consistent seed st -> consistent seed (forEach pushSubjectWork works st).
Proof.
  intros Hworks. revert st.
  induction Hworks as [| work works Hwork _ IH]; intros st Hst; [exact Hst |].
  rewrite forEach_cons. apply IH. unfold pushSubjectWork.
  destruct (_ <=? _)%nat; [exact Hst |].
  apply consistent_push; [reflexivity | exact Hwork | exact Hst].
Qed.

Lemma fallback_step_consistent seed doc st :
  consistent seed st -> consistent seed (pushFallbackDoc doc st).
Proof.
  intros Hst. unfold pushFallbackDoc.
  destruct (_ <=? _)%nat; simpl; [exact Hst |].
  destruct (has (uniqueKeys st) (SearchDoc.key doc)) eqn:Hhas; [exact Hst |].
  apply consistent_push; [reflexivity | | exact Hst].
  apply has_false in Hhas. destruct Hst as [Hset _]. rewrite Hset in Hhas.
  intros Heq. apply Hhas, elem_of_union_l, elem_of_singleton, Heq.
Qed.

Lemma fallback_loop_consistent seed docs st :
  consistent seed st -> consistent seed (forEach pushFallbackDoc docs st).
Proof.
  revert st. induction docs as [| doc docs IH]; intros st Hst; [exact Hst |].
  rewrite forEach_cons. apply IH, fallback_step_consistent, Hst.
Qed.

(** What the fallback loop appends is taken from the hits, in their order. *)
Lemma fallback_loop_sublist docs st :
  exists added,
    recommendations (forEach pushFallbackDoc docs st) = recommendations st ++ added
    /\ added `sublist_of` (mapDocToBook <$> docs).
Proof.
  revert st. induction docs as [| doc docs IH]; intros st.
  - exists []. simpl. rewrite app_nil_r. split; [reflexivity | constructor].
  - rewrite forEach_cons. destruct (IH (pushFallbackDoc doc st)) as (added & -> & Hsub).
    unfold pushFallbackDoc. destruct (_ || _).
    + exists added. split; [reflexivity |]. by apply sublist_cons.
    + exists (mapDocToBook doc :: added). simpl. rewrite <- app_assoc.
      split; [reflexivity |]. by apply sublist_skip.
Qed.

Lemma fallback_loop_keys_mono docs st :
  uniqueKeys st ⊆ uniqueKeys (forEach pushFallbackDoc docs st).
Proof.
  revert st. induction docs as [| doc docs IH]; intros st; [reflexivity |].
  rewrite forEach_cons. etransitivity; [| apply IH].
  unfold pushFallbackDoc. destruct (_ || _); [reflexivity |].
  simpl. apply union_subseteq_l.
Qed.

(** The fallback loop never repeats a key. *)
Lemma fallback_loop_NoDup seed docs st :
  consistent seed st -> NoDup (keys (recommendations st)) ->
  NoDup (keys (recommendations (forEach pushFallbackDoc docs st))).
Proof.
  revert st. induction docs as [| doc docs IH]; intros st Hst Hnd; [exact Hnd |].
  rewrite forEach_cons.
  apply IH; [apply fallback_step_consistent, Hst |].
  unfold pushFallbackDoc. destruct (_ <=? _)%nat; simpl; [exact Hnd |].
  destruct (has (uniqueKeys st) (SearchDoc.key doc)) eqn:Hhas; [exact Hnd |].
  apply has_false in Hhas. destruct Hst as [Hset _]. rewrite Hset in Hhas.
  unfold keys in *. simpl. rewrite fmap_app. apply NoDup_app.
  split; [exact Hnd |]. split; [| apply NoDup_singleton].
  intros k Hk. simpl. rewrite list_elem_of_singleton. intros ->.
  apply Hhas, elem_of_union_r, elem_of_list_to_set, Hk.
Qed.

(** The fallback loop stops early only when the list is full. *)
Lemma fallback_loop_complete docs st :
  (MAX_RESULTS <= length (recommendations (forEach pushFallbackDoc docs st)))%nat
  \/ forall doc, doc ∈ docs ->
       SearchDoc.key doc ∈ uniqueKeys (forEach pushFallbackDoc docs st).
Proof.
  revert st. induction docs as [| doc docs IH]; intros st.
  - right. intros doc Hdoc. by apply elem_of_nil in Hdoc.
  - rewrite forEach_cons.
    destruct (IH (pushFallbackDoc doc st)) as [Hfull | Hall]; [by left |].
    destruct (fallback_loop_sublist docs (pushFallbackDoc doc st)) as (added & Hrecs & _).
    pose proof (fallback_loop_keys_mono docs (pushFallbackDoc doc st)) as Hmono.
    revert Hall Hrecs Hmono. generalize (forEach pushFallbackDoc docs (pushFallbackDoc doc st)).
    intros st' Hall Hrecs Hmono. unfold pushFallbackDoc in Hrecs, Hmono.
    destruct (Nat.leb_spec MAX_RESULTS (length (recommendations st))) as [Hlen | Hlen];
      simpl in Hrecs, Hmono.
    + left. rewrite Hrecs, length_app. lia.
    + right. intros d Hd. apply elem_of_cons in Hd as [-> | Hd]; [| by apply Hall].
      apply Hmono. destruct (has (uniqueKeys st) (SearchDoc.key doc)) eqn:Hhas.
      * by apply has_true.
      * simpl. apply elem_of_union_r, elem_of_singleton. reflexivity.
Qed.

End Loops.

(** ** One invocation of the recommend route, step by step *)

Section Route.

Import Recommend.

Variable net : Network.

Lemma serve_valid request query :
  valid_query request query ->
  serve net request =
    match run (answer net) (assemble query) start with
    | (inr response, w) => (inr response, w)
    | (inl e, w) =>
        (inr (createErrorResponse "Unexpected error while fetching data." 500),
         {| fetched := fetched w; logged := logged w ++ [e] |})
    end.
Proof.
  intros [Htrim Hlen]. unfold serve, GET. rewrite Htrim.
  destruct query as [| a query]; [vm_compute in Hlen; lia |].
  rewrite (proj2 (Nat.ltb_ge _ _) Hlen). rewrite run_try_catch.
  destruct (run (answer net) (assemble _) start) as [[e | response] w]; reflexivity.
Qed.

Lemma run_lookupSubject seedDoc st w :
  run (answer net) (lookupSubject seedDoc st) w =
    match primarySubjectOf seedDoc with
    | Some (String _ _ as primarySubject) =>
        let w' := called w (subjectUrl primarySubject) in
        match net (length (fetched w)) (subjectUrl primarySubject) with
        | inl e => (inl e, w')
        | inr subjectResponse =>
            if ok subjectResponse then
              match json subjectResponse with
              | inl e => (inl e, w')
              | inr subjectData => (inr (addSubjectWorks (works subjectData) st), w')
              end
            else (inr st, w')
        end
    | _ => (inr st, w)
    end.
Proof.
  unfold lookupSubject.
  destruct (primarySubjectOf seedDoc) as [[| c primarySubject] |]; try reflexivity.
  rewrite run_bind, run_await. simpl.
  destruct (net _ _) as [e | subjectResponse]; [reflexivity |].
  destruct (ok subjectResponse); [| reflexivity].
  destruct (json subjectResponse); reflexivity.
Qed.

Lemma run_assemble query :
  run (answer net) (assemble query) start =
    let w := called start (searchUrl query) in
    match net 0%nat (searchUrl query) with
    | inl e => (inl e, w)
    | inr searchResponse =>
        if ok searchResponse then
          match json searchResponse with
          | inl e => (inl e, w)
          | inr searchData =>
              match qualifying (docs searchData) with
              | [] =>
                  (inr (NextResponse_json
                          (ResultBody None []
                             (Some "We could not find any matches for that book."))), w)
              | seedDoc :: rest =>
                  match run (answer net) (lookupSubject seedDoc (seeded seedDoc)) w with
                  | (inr st1, w') =>
                      (inr (success seedDoc (addFallbackDocs (seedDoc :: rest) st1)), w')
                  | (inl e, w') => (inl e, w')
                  end
              end
          end
        else
          (inr (createErrorResponse
                  "Unable to reach the Open Library search service." 502), w)
    end.
Proof.
  unfold assemble. rewrite run_bind, run_await. simpl.
  destruct (net 0%nat (searchUrl query)) as [e | searchResponse]; [reflexivity |].
  destruct (ok searchResponse); simpl; [| reflexivity].
  destruct (json searchResponse) as [e | searchData]; simpl; [reflexivity |].
  destruct (qualifying (docs searchData)) as [| seedDoc rest]; [reflexivity |].
  rewrite run_bind. unfold seeded. simpl.
  destruct (run _ (lookupSubject _ _) _) as [[e | st1] w']; reflexivity.
Qed.

(** A query that is missing or too short is answered at once. *)
Lemma serve_invalid request :
  (forall q, query_param request = Some q ->
             (JsString.length (JsString.trim q) < 2)%nat) ->
  exists message,
    message ≠ "" /\ serve net request = (inr (createErrorResponse message 400), start).
Proof.
  intros Hshort. unfold serve, GET.
  destruct (query_param request) as [q |]; simpl.
  - specialize (Hshort q eq_refl).
    destruct (JsString.trim q) as [| a query].
    + eexists. split; [| reflexivity]. discriminate.
    + rewrite (proj2 (Nat.ltb_lt _ _) Hshort).
      eexists. split; [| reflexivity]. discriminate.
  - eexists. split; [| reflexivity]. discriminate.
Qed.

Lemma query_cases request :
  (exists query, valid_query request query)
  \/ (forall q, query_param request = Some q ->
                (JsString.length (JsString.trim q) < 2)%nat).
Proof.
  unfold valid_query. destruct (query_param request) as [q |]; simpl.
  - destruct (Nat.lt_ge_cases (JsString.length (JsString.trim q)) 2) as [Hlt | Hge].
    + right. intros q' [= <-]. exact Hlt.
    + left. eauto.
  - right. intros q' [=].
Qed.

Lemma run_lookupSubject_after seedDoc w st1 w' :
  run (answer net) (lookupSubject seedDoc (seeded seedDoc)) w = (inr st1, w') ->
  after_lookup seedDoc st1.
Proof.
  rewrite run_lookupSubject.
  destruct (primarySubjectOf seedDoc) as [[| c primarySubject] |];
    try (intros [= <- _]; constructor).
  simpl. destruct (net _ _) as [e | subjectResponse]; [discriminate |].
  destruct (ok subjectResponse); [| intros [= <- _]; constructor].
  destruct (json subjectResponse); [discriminate |].
  intros [= <- _]. constructor.
Qed.

Lemma serve_answered request : answered (serve net request).1.
Proof.
  destruct (query_cases request) as [[query Hvalid] | Hshort].
  - rewrite (serve_valid _ _ Hvalid), run_assemble. simpl.
    destruct (net 0%nat (searchUrl query)) as [e | searchResponse]; [constructor |].
    destruct (ok searchResponse); [| constructor].
    destruct (json searchResponse) as [e | searchData]; [constructor |].
    destruct (qualifying (docs searchData)) as [| seedDoc rest];
      [by constructor |].
    destruct (run _ (lookupSubject _ _) _) as [[e | st1] w'] eqn:Hrun; [constructor |].
    constructor. eapply run_lookupSubject_after, Hrun.
  - destruct (serve_invalid request Hshort) as (message & _ & ->). constructor.
Qed.


Lemma seeded_consistent seedDoc : consistent (SearchDoc.key seedDoc) (seeded seedDoc).
Proof.
  split; simpl.
  - rewrite (right_id_L ∅ (∪)). reflexivity.
  - apply not_elem_of_nil.
Qed.

Lemma listed_consistent seedDoc works :
  consistent (SearchDoc.key seedDoc) (addSubjectWorks works (seeded seedDoc)).
Proof.
  destruct works as [works |]; simpl; [| apply seeded_consistent].
  apply subject_loop_consistent; [| apply seeded_consistent].
  apply List.Forall_forall. intros work Hwork.
  apply List.filter_In in Hwork as [_ Hkeep].
  apply andb_prop in Hkeep as [_ Hfresh]. apply negb_true_iff, has_false in Hfresh.
  intros Heq. apply Hfresh, elem_of_singleton, Heq.
Qed.

Lemma listed_length works st :
  (length (recommendations (addSubjectWorks works st))
   <= Nat.max MAX_RESULTS (length (recommendations st)))%nat.
Proof.
  destruct works as [works |]; simpl; [apply subject_loop_length | lia].
Qed.

Lemma fallback_length docs st :
  (length (recommendations (addFallbackDocs docs st))
   <= Nat.max MAX_RESULTS (length (recommendations st)))%nat.
Proof.
  unfold addFallbackDocs. destruct (_ <? _)%nat; [apply fallback_loop_length | lia].
Qed.

Lemma after_lookup_consistent seedDoc st1 :
  after_lookup seedDoc st1 ->
  consistent (SearchDoc.key seedDoc) st1
  /\ (length (recommendations st1) <= MAX_RESULTS)%nat.
Proof.
  intros [| works].
  - split; [apply seeded_consistent | simpl; lia].
  - split; [apply listed_consistent |].
    pose proof (listed_length works (seeded seedDoc)) as Hlen. exact Hlen.
Qed.

Lemma fallback_consistent seed docs st :
  consistent seed st -> consistent seed (addFallbackDocs docs st).
Proof.
  intros Hst. unfold addFallbackDocs.
  destruct (_ <? _)%nat; [apply fallback_loop_consistent |]; exact Hst.
Qed.

(** The positive half of the uniqueness guarantee: whatever the catalog
    answers, the seed is not among its own recommendations. *)
Lemma seed_key_never_recommended request response seed recs message :
  (serve net request).1 = inr response ->
  body response = ResultBody (Some seed) recs message ->
  Book.key seed ∉ keys recs.
Proof.
  intros Hserve Hbody. pose proof (serve_answered request) as Hans.
  rewrite Hserve in Hans. inversion Hans as [m st Hm | m Hm Heq | seedDoc rest st1 Hst1 Heq];
    subst response; simpl in Hbody; try discriminate.
  injection Hbody as <- <- <-.
  apply after_lookup_consistent in Hst1 as [Hcons _].
  apply (fallback_consistent _ (seedDoc :: rest)) in Hcons as [_ Hseed].
  intros Hin. apply Hseed. unfold keys in *. simpl in Hin.
  apply list_elem_of_fmap in Hin as (book & -> & Hbook).
  apply list_elem_of_fmap_2. eapply elem_of_sublist; [exact Hbook | apply sublist_take].
Qed.

(** Where the absorption of subject-lookup failures ends: a subject request
    that is rejected (no answer at all) is caught with every other exception
    and answered 500. *)
Lemma rejected_listing_is_an_error
    request query searchResponse searchData seedDoc rest c p e :
  valid_query request query ->
  net 0%nat (searchUrl query) = inr searchResponse ->
  ok searchResponse = true ->
  json searchResponse = inr searchData ->
  qualifying (docs searchData) = seedDoc :: rest ->
  primarySubjectOf seedDoc = Some (String c p) ->
  net 1%nat (subjectUrl (String c p)) = inl e ->
  serve net request
  = (inr (createErrorResponse "Unexpected error while fetching data." 500),
     {| fetched := [(searchUrl query, init); (subjectUrl (String c p), init)];
        logged := [e] |}).
Proof.
  intros Hvalid Hnet Hok Hjson Hq Hp Hnet1.
  rewrite (serve_valid request query Hvalid), run_assemble. simpl.
  rewrite Hnet, Hok, Hjson, Hq, run_lookupSubject, Hp. simpl. rewrite Hnet1.
  reflexivity.
Qed.

End Route.

(** ** The built-ins and the route on concrete inputs *)

Example trim_strips_both_ends :
  JsString.trim (String (ascii_of_nat 9) "  The Night Circus " +:+ String (ascii_of_nat 10) "")
  = "The Night Circus".
Proof. reflexivity. Qed.

Example trim_strips_unicode_white_space :
  JsString.trim (Utf8.encode 160 +:+ Utf8.encode 12288 +:+ "é b"
                   +:+ Utf8.encode 8232 +:+ Utf8.encode 65279)
  = "é b".
Proof. vm_compute. reflexivity. Qed.

Example length_counts_code_units :
  JsString.length "é" = 1%nat
  /\ JsString.length "日本" = 2%nat
  /\ JsString.length (Utf8.encode 128214) = 2%nat.
Proof. vm_compute. repeat split. Qed.

Example toLowerCase_follows_unicode :
  JsString.toLowerCase "Études" = "études"
  /\ JsString.toLowerCase "ΟΔΟΣ ΟΔΟΣ." = "οδος οδος."
  /\ JsString.toLowerCase (Utf8.encode 304) = "i" +:+ Utf8.encode 775.
Proof. vm_compute. repeat split. Qed.

Example encodeURIComponent_escapes :
  JsString.encodeURIComponent "rock & roll/jazz_(fusion)" = "rock%20%26%20roll%2Fjazz_(fusion)".
Proof. reflexivity. Qed.

Example searchUrl_of_query :
  Recommend.searchUrl "The Night Circus"
  = "https://openlibrary.org/search.json?q=The+Night+Circus&limit=25".
Proof. reflexivity. Qed.

Example white_space_run_is_one_underscore :
  Recommend.subjectSlug ("Fiction,  historical." +:+ String (ascii_of_nat 9) "General")
  = "fiction_historical_general".
Proof. reflexivity. Qed.

Example accented_subject_url :
  Recommend.subjectUrl "Études, Littérature."
  = "https://openlibrary.org/subjects/%C3%A9tudes_litt%C3%A9rature.json?limit=30"
  /\ Recommend.subjectUrl ("Science" +:+ Utf8.encode 160 +:+ " Fiction")
     = "https://openlibrary.org/subjects/science_fiction.json?limit=30".
Proof. vm_compute. split; reflexivity. Qed.

Example one_character_query_is_rejected :
  Recommend.serve Sample.repeating (Sample.ask "é")
  = (inr (Recommend.createErrorResponse "Query must be at least 2 characters long." 400),
     Recommend.start)
  /\ Recommend.serve Sample.repeating (Sample.ask (Utf8.encode 12288 +:+ Utf8.encode 160))
     = (inr (Recommend.createErrorResponse "Missing required query parameter." 400),
        Recommend.start).
Proof. vm_compute. split; reflexivity. Qed.

Example listing_down_recommends_the_other_hit :
  keys (recommendations_of
          (Recommend.serve Sample.listing_down (Sample.ask "dune")).1)
  = [Some "/works/OL3W"].
Proof. vm_compute. reflexivity. Qed.

Example both_requests_are_made :
  fst <$> Recommend.fetched (Recommend.serve Sample.repeating (Sample.ask " dune ")).2
  = ["https://openlibrary.org/search.json?q=dune&limit=25";
     "https://openlibrary.org/subjects/science_fiction_fantasy.json?limit=30"].
Proof. vm_compute. reflexivity. Qed.

(** ** The recommendation assembly *)

Import Recommend.

(** C1 (the code departs from the claim). The claim: the seed's key is never
    recommended and no two recommendations share a key, whatever the search
    and the subject listing answer. On the code, a subject listing that names
    a work twice has that work recommended twice: the search for [dune] with
    the [repeating] network answers 200 with the seed [/works/OL1W] and the
    recommendations [/works/OL2W], [/works/OL2W], [/works/OL3W], whose keys
    are not distinct. (The seed's key is absent from them, as
    [seed_key_never_recommended] shows in general.) *)
Theorem repeated_subject_work_recommended_twice :
  exists seed recs,
    (serve Sample.repeating (Sample.ask "dune")).1
      = inr {| status := 200; body := ResultBody (Some seed) recs None |}
    /\ Book.key seed = Some "/works/OL1W"
    /\ keys recs = [Some "/works/OL2W"; Some "/works/OL2W"; Some "/works/OL3W"]
    /\ ~ NoDup (keys recs).
Proof.
  eexists. eexists. split; [vm_compute; reflexivity |].
  split; [reflexivity |]. split; [reflexivity |].
  intros Hnd. apply NoDup_cons in Hnd as [Hfirst _].
  apply Hfirst. left.
Qed.

(** C2. Whatever the request and whatever the network answers, the route
    returns at most 10 recommendations; the subject loop and the fallback
    loop never grow a list beyond 10 entries, neither callback appends to a
    list that already has 10, and the returned list is the first 10 entries
    of the assembled one. *)
Theorem recommendations_at_most_ten :
  (forall net request,
      (length (recommendations_of (serve net request).1) <= 10)%nat)
  /\ (forall works st,
        (length (recommendations (addSubjectWorks works st))
         <= Nat.max 10 (length (recommendations st)))%nat)
  /\ (forall docs st,
        (length (recommendations (addFallbackDocs docs st))
         <= Nat.max 10 (length (recommendations st)))%nat)
  /\ (forall work st,
        pushSubjectWork work st = st \/ (length (recommendations st) < 10)%nat)
  /\ (forall doc st,
        pushFallbackDoc doc st = st \/ (length (recommendations st) < 10)%nat)
  /\ (forall seedDoc st,
        recommendations_of (inr (success seedDoc st)) = take 10 (recommendations st)).
Proof.
  split; [| split; [| split; [| split; [| split]]]].
  - intros net request. pose proof (serve_answered net request) as Hans.
    destruct Hans as [message status | message _ | seedDoc rest st1 _]; simpl; try lia.
    rewrite length_take. unfold MAX_RESULTS. lia.
  - apply listed_length.
  - apply fallback_length.
  - intros work st. unfold pushSubjectWork.
    destruct (Nat.leb_spec MAX_RESULTS (length (recommendations st))) as [_ | Hroom];
      [by left | right; exact Hroom].
  - intros doc st. unfold pushFallbackDoc.
    destruct (Nat.leb_spec MAX_RESULTS (length (recommendations st))) as [_ | Hroom];
      [by left | right; exact Hroom].
  - reflexivity.
Qed.

(** C3. A query that is missing, or whose trimmed form has a length below
    two (the white space of Unicode trimmed, the length counted in UTF-16
    code units as [query.length] does), is answered with status 400 and an
    error body, and the route fetches nothing: neither the search nor the
    subject listing is requested. *)
Theorem short_query_rejected_without_network net request :
  (forall q, query_param request = Some q ->
             (JsString.length (JsString.trim q) < 2)%nat) ->
  exists message,
    message ≠ ""
    /\ (serve net request).1 = inr {| status := 400; body := ErrorBody message |}
    /\ fetched (serve net request).2 = [].
Proof.
  intros Hshort. destruct (serve_invalid net request Hshort) as (message & Hne & ->).
  exists message. split; [exact Hne |]. split; reflexivity.
Qed.

Lemma short_query_rejected_without_network_witness :
  exists message,
    message ≠ ""
    /\ (serve Sample.repeating (Sample.ask Sample.padded_letter)).1
       = inr {| status := 400; body := ErrorBody message |}
    /\ fetched (serve Sample.repeating (Sample.ask Sample.padded_letter)).2 = [].
Proof.
  apply (short_query_rejected_without_network Sample.repeating
           (Sample.ask Sample.padded_letter)).
  intros q [= <-]. vm_compute. lia.
Defined.

(** C4. When the search answers and none of its hits has both a key and a
    title, the route answers with status 200, a null seed, no
    recommendations and a non-empty message, after the one search request. *)
Theorem no_qualifying_hit_is_a_success net request query searchResponse searchData :
  valid_query request query ->
  net 0%nat (searchUrl query) = inr searchResponse ->
  ok searchResponse = true ->
  json searchResponse = inr searchData ->
  Forall (fun doc => ~ (truthy (SearchDoc.key doc) = true
                        /\ truthy (SearchDoc.title doc) = true))
         (nullish (docs searchData) []) ->
  exists message,
    message ≠ ""
    /\ serve net request
       = (inr {| status := 200; body := ResultBody None [] (Some message) |},
          called start (searchUrl query)).
Proof.
  intros Hvalid Hnet Hok Hjson Hnone.
  assert (qualifying (docs searchData) = []) as Hq.
  { unfold qualifying. destruct (docs searchData) as [hits |]; [| reflexivity].
    simpl in *. induction Hnone as [| doc hits Hdoc _ IH]; [reflexivity |].
    simpl. destruct (truthy (SearchDoc.key doc)), (truthy (SearchDoc.title doc));
      simpl; try exact IH.
    exfalso. apply Hdoc. split; reflexivity. }
  rewrite (serve_valid net request query Hvalid), run_assemble. simpl.
  rewrite Hnet, Hok, Hjson, Hq.
  eexists. split; [| reflexivity]. discriminate.
Qed.

Lemma no_qualifying_hit_is_a_success_witness :
  exists message,
    message ≠ ""
    /\ serve Sample.nothing_usable (Sample.ask "dune")
       = (inr {| status := 200; body := ResultBody None [] (Some message) |},
          called start (searchUrl "dune")).
Proof.
  eapply (no_qualifying_hit_is_a_success Sample.nothing_usable (Sample.ask "dune") "dune").
  - split; [reflexivity | vm_compute; lia].
  - reflexivity.
  - reflexivity.
  - reflexivity.
  - simpl. repeat constructor; intros [Hkey Htitle]; discriminate.
Defined.

(** What the fallback loop alone makes of the hits after the seed. *)
Lemma fallback_only seedDoc rest :
  let recs := take MAX_RESULTS
                (recommendations (addFallbackDocs (seedDoc :: rest) (seeded seedDoc))) in
  recs `sublist_of` (mapDocToBook <$> rest)
  /\ (SearchDoc.key seedDoc ∉ keys recs)
  /\ NoDup (keys recs)
  /\ (length recs = 10%nat
      \/ forall doc, doc ∈ rest ->
           SearchDoc.key doc = SearchDoc.key seedDoc \/ SearchDoc.key doc ∈ keys recs).
Proof.
  intros recs. subst recs.
  pose proof (fallback_length (seedDoc :: rest) (seeded seedDoc)) as Hlen.
  rewrite take_ge by (simpl in Hlen; unfold MAX_RESULTS in *; lia).
  unfold addFallbackDocs in *. simpl in *. rewrite drop_0 in *.
  pose proof (seeded_consistent seedDoc) as Hseeded.
  pose proof (fallback_loop_consistent _ rest _ Hseeded) as [Hset Hseed].
  destruct (fallback_loop_sublist rest (seeded seedDoc)) as (added & Hrecs & Hsub).
  split; [| split; [| split]].
  - rewrite Hrecs. exact Hsub.
  - exact Hseed.
  - apply (fallback_loop_NoDup _ rest _ Hseeded). constructor.
  - destruct (fallback_loop_complete rest (seeded seedDoc)) as [Hfull | Hall].
    + left. unfold MAX_RESULTS in *. lia.
    + right. intros doc Hdoc. specialize (Hall doc Hdoc). rewrite Hset in Hall.
      apply elem_of_union in Hall as [Hs | Hr].
      * left. apply elem_of_singleton in Hs. exact Hs.
      * right. apply elem_of_list_to_set in Hr. exact Hr.
Qed.

(** C5. When the seed has no primary subject (its subject and subject-facet
    lists together have no first entry, or an empty one), or the subject
    listing answers with a non-success status, the route still answers 200
    with the seed, logs no error, and its recommendations are those of the
    fallback loop alone: taken from the hits after the seed in their order,
    without the seed's key, without a repeated key, and leaving out a hit
    with a new key only when 10 are already there. *)
Theorem failed_subject_lookup_falls_back
    net request query searchResponse searchData seedDoc rest :
  valid_query request query ->
  net 0%nat (searchUrl query) = inr searchResponse ->
  ok searchResponse = true ->
  json searchResponse = inr searchData ->
  qualifying (docs searchData) = seedDoc :: rest ->
  (truthy (primarySubjectOf seedDoc) = false
   \/ exists primarySubject subjectResponse,
        primarySubjectOf seedDoc = Some primarySubject
        /\ net 1%nat (subjectUrl primarySubject) = inr subjectResponse
        /\ ok subjectResponse = false) ->
  exists recs w,
    serve net request
      = (inr {| status := 200;
                body := ResultBody (Some (mapDocToBook seedDoc)) recs None |}, w)
    /\ logged w = []
    /\ recs = take 10 (recommendations
                         (addFallbackDocs (seedDoc :: rest) (seeded seedDoc)))
    /\ recs `sublist_of` (mapDocToBook <$> rest)
    /\ (SearchDoc.key seedDoc ∉ keys recs)
    /\ NoDup (keys recs)
    /\ (length recs = 10%nat
        \/ forall doc, doc ∈ rest ->
             SearchDoc.key doc = SearchDoc.key seedDoc \/ SearchDoc.key doc ∈ keys recs).
Proof.
  intros Hvalid Hnet Hok Hjson Hq Hlookup.
  assert (exists w, run (answer net) (lookupSubject seedDoc (seeded seedDoc))
                      (called start (searchUrl query)) = (inr (seeded seedDoc), w)
                    /\ logged w = []) as (w & Hrun & Hlog).
  { rewrite run_lookupSubject.
    destruct Hlookup as [Hnone | (primarySubject & subjectResponse & Hp & Hnet1 & Hdown)].
    - destruct (primarySubjectOf seedDoc) as [[| c p] |]; try discriminate; eauto.
    - rewrite Hp. destruct primarySubject as [| c p]; [eauto |].
      simpl. rewrite Hnet1, Hdown. eauto. }
  rewrite (serve_valid net request query Hvalid), run_assemble. simpl.
  rewrite Hnet, Hok, Hjson, Hq, Hrun.
  eexists. exists w. split; [reflexivity |]. split; [exact Hlog |].
  split; [reflexivity |]. apply fallback_only.
Qed.

Lemma failed_subject_lookup_falls_back_witness :
  exists recs w,
    serve Sample.listing_down (Sample.ask "dune")
      = (inr {| status := 200;
                body := ResultBody (Some (mapDocToBook Sample.dune)) recs None |}, w)
    /\ logged w = []
    /\ recs = take 10 (recommendations
                         (addFallbackDocs [Sample.dune; Sample.emma; Sample.dune]
                            (seeded Sample.dune)))
    /\ recs `sublist_of` (mapDocToBook <$> [Sample.emma; Sample.dune])
    /\ (SearchDoc.key Sample.dune ∉ keys recs)
    /\ NoDup (keys recs)
    /\ (length recs = 10%nat
        \/ forall doc, doc ∈ [Sample.emma; Sample.dune] ->
             SearchDoc.key doc = SearchDoc.key Sample.dune
             \/ SearchDoc.key doc ∈ keys recs).
Proof.
  eapply (failed_subject_lookup_falls_back Sample.listing_down (Sample.ask "dune") "dune").
  - split; [reflexivity | vm_compute; lia].
  - reflexivity.
  - reflexivity.
  - reflexivity.
  - reflexivity.
  - right. eexists. eexists. split; [reflexivity |]. split; reflexivity.
Defined.

(** ** The subject slug *)

(** A code point below 128 is one byte. *)
Lemma codePoint_ascii ch n :
  Utf8.codePoint ch = Some n -> (n < 128)%N ->
  exists a, ch = String a EmptyString /\ Utf8.code a = n.
Proof.
  destruct ch as [| a [| b [| c [| d [| e r]]]]]; simpl; try discriminate.
  - destruct (Utf8.code a <? 128)%N; [| discriminate]. intros [= <-] _. eauto.
  - destruct (Utf8.two a b) eqn:Hseq; [| discriminate].
    unfold Utf8.two, Utf8.continuation, Utf8.between in Hseq.
    rewrite ?andb_true_iff, ?orb_true_iff, ?N.leb_le, ?N.eqb_eq in Hseq.
    intros [= <-]. lia.
  - destruct (Utf8.three a b c) eqn:Hseq; [| discriminate].
    unfold Utf8.three, Utf8.continuation, Utf8.between in Hseq.
    rewrite ?andb_true_iff, ?orb_true_iff, ?andb_true_iff, ?N.leb_le, ?N.eqb_eq in Hseq.
    intros [= <-]. lia.
  - destruct (Utf8.four a b c d) eqn:Hseq; [| discriminate].
    unfold Utf8.four, Utf8.continuation, Utf8.between in Hseq.
    rewrite ?andb_true_iff, ?orb_true_iff, ?andb_true_iff, ?N.leb_le, ?N.eqb_eq in Hseq.
    intros [= <-]. lia.
Qed.

Lemma dot_or_comma_spec ch :
  JsString.dot_or_comma ch = bool_decide (ch = "." \/ ch = ",").
Proof.
  unfold JsString.dot_or_comma.
  destruct (Utf8.codePoint ch) as [n |] eqn:Hcp.
  - destruct (N.ltb_spec n 128) as [Hlt | Hge].
    + destruct (codePoint_ascii ch n Hcp Hlt) as (a & -> & <-).
      destruct a as [[] [] [] [] [] [] [] []]; vm_compute; reflexivity.
    + rewrite bool_decide_eq_false_2.
      * destruct (N.eqb_spec n 46), (N.eqb_spec n 44); first [lia | reflexivity].
      * intros [-> | ->]; vm_compute in Hcp; injection Hcp as <-; lia.
  - rewrite bool_decide_eq_false_2; [reflexivity |].
    intros [-> | ->]; discriminate.
Qed.

(** Replacing every [.] and [,] by nothing strips them. *)
Lemma replace_dot_or_comma s :
  JsString.replace (JsString.CharClass JsString.dot_or_comma) "" s
  = SlugSpec.strip_commas_periods s.
Proof.
  unfold JsString.replace, SlugSpec.strip_commas_periods.
  set (in_match := false) at 1. clearbody in_match. revert in_match.
  induction (Utf8.chars s) as [| ch l IH]; intros in_match; [reflexivity |].
  simpl. rewrite dot_or_comma_spec.
  destruct (bool_decide _); simpl; rewrite IH; reflexivity.
Qed.

Lemma white_space_spec ch : JsString.isWhiteSpace ch = SlugSpec.white_space ch.
Proof.
  unfold JsString.isWhiteSpace, SlugSpec.white_space, SlugSpec.has.
  destruct (Utf8.codePoint ch) as [n |]; [| reflexivity].
  apply eq_true_iff_eq.
  unfold JsString.whiteSpace, JsString.lineTerminator, Unicode.spaceSeparator,
    Unicode.within, Unicode.spaceSeparatorRanges, SlugSpec.white_space_characters.
  cbn [existsb fst snd].
  rewrite bool_decide_eq_true.
  rewrite !orb_true_iff, !andb_true_iff, !N.eqb_eq, !N.leb_le.
  rewrite !elem_of_cons, elem_of_nil. lia.
Qed.

(** Replacing every white-space run by [_], seen from outside a run and from
    inside one whose underscore is already written. *)
Lemma replace_white_space l :
  let go := JsString.replace_from (JsString.CharClassPlus JsString.isWhiteSpace) "_" in
  go false l = Utf8.join (SlugSpec.underscore_each l)
  /\ go true l =
       match l with
       | ch :: _ =>
           if SlugSpec.white_space ch
           then after_underscore (Utf8.join (SlugSpec.underscore_each l))
           else Utf8.join (SlugSpec.underscore_each l)
       | [] => EmptyString
       end
  /\ match l with
     | ch :: _ =>
         SlugSpec.white_space ch = true ->
         exists t, SlugSpec.underscore_each l = "_" :: t
     | [] => True
     end.
Proof.
  intros go. subst go. induction l as [| ch l (IHout & IHin & IHhead)].
  - repeat split.
  - cbn [JsString.replace_from JsString.regexp_class JsString.regexp_greedy
         SlugSpec.underscore_each andb].
    rewrite white_space_spec.
    destruct (SlugSpec.white_space ch) eqn:Hc.
    + rewrite IHin. destruct l as [| ch' l'].
      * repeat split. intros _. eexists. reflexivity.
      * destruct (SlugSpec.white_space ch') eqn:Hc'.
        -- destruct (IHhead eq_refl) as (t & Ht). rewrite Ht. simpl.
           repeat split. intros _. eexists. reflexivity.
        -- repeat split. intros _. eexists. reflexivity.
    + rewrite IHout. repeat split. discriminate.
Qed.

Lemma beforeCased_spec l : JsString.beforeCased l = SlugSpec.meets_cased l.
Proof. induction l as [| ch l IH]; [reflexivity |]. simpl. rewrite IH. reflexivity. Qed.

(** The scan from the left knows what the Unicode Standard reads off the
    characters before. *)
Lemma lowerFrom_spec before l :
  JsString.lowerFrom (SlugSpec.meets_cased (rev before)) l
  = SlugSpec.lower_each before l.
Proof.
  revert before. induction l as [| ch l IH]; intros before; [reflexivity |].
  cbn [JsString.lowerFrom SlugSpec.lower_each]. f_equal.
  - unfold SlugSpec.lower, SlugSpec.final_sigma, JsString.lowerChar.
    rewrite (beforeCased_spec l).
    destruct (Utf8.codePoint ch) as [n |]; simpl.
    + destruct (decide (n = 931%N)) as [-> | Hn].
      * rewrite (bool_decide_eq_true_2 (Some 931%N = Some 931%N)) by reflexivity.
        rewrite (bool_decide_eq_true_2 (931%N = 931%N)) by reflexivity.
        reflexivity.
      * rewrite (bool_decide_eq_false_2 (Some n = Some 931%N)) by congruence.
        rewrite (bool_decide_eq_false_2 (n = 931%N)) by exact Hn.
        reflexivity.
    + reflexivity.
  - rewrite <- IH. rewrite rev_app_distr. reflexivity.
Qed.

Lemma toLowerCase_spec s : JsString.toLowerCase s = SlugSpec.lower_case s.
Proof.
  unfold JsString.toLowerCase, SlugSpec.lower_case. f_equal.
  exact (lowerFrom_spec [] (Utf8.chars s)).
Qed.

Lemma percent_spec c r :
  (if JsString.uriUnreserved c then String c EmptyString else JsString.percent c) +:+ r
  = if bool_decide (c ∈ list_ascii_of_string SlugSpec.unreserved)
    then String c r
    else String "%"
           (String (SlugSpec.hexadecimal (N_of_ascii c / 16))
              (String (SlugSpec.hexadecimal (N_of_ascii c mod 16)) r)).
Proof. destruct c as [[] [] [] [] [] [] [] []]; reflexivity. Qed.

Lemma encodeURIComponent_spec s :
  JsString.encodeURIComponent s = SlugSpec.percent_encode s.
Proof.
  induction s as [| c s IH]; [reflexivity |].
  cbn [JsString.encodeURIComponent SlugSpec.percent_encode].
  rewrite percent_spec, IH. reflexivity.
Qed.

(** C6. For every subject, the path segment the route requests is the
    lower-cased subject with commas and periods stripped, each run of white
    space replaced by a single underscore, percent-encoded: what
    [toLowerCase], the two replacements and [encodeURIComponent] compute is
    what [SlugSpec.slug] spells out step by step. For
    "Science Fiction, Fantasy." it is "science_fiction_fantasy"; an accented
    capital is lower-cased, a no-break space belongs to the run, and [&]
    and the bytes of [é] are escaped. *)
Theorem subject_slug_exact :
  (forall subject,
      JsString.encodeURIComponent (subjectSlug subject) = SlugSpec.slug subject)
  /\ (forall subject,
        subjectUrl subject
        = "https://openlibrary.org/subjects/" +:+ SlugSpec.slug subject
            +:+ ".json?limit=30")
  /\ JsString.encodeURIComponent (subjectSlug "Science Fiction, Fantasy.")
     = "science_fiction_fantasy"
  /\ JsString.encodeURIComponent
       (subjectSlug ("Études &" +:+ Utf8.encode 160 +:+ " Cie."))
     = "%C3%A9tudes_%26_cie".
Proof.
  assert (forall subject,
             JsString.encodeURIComponent (subjectSlug subject) = SlugSpec.slug subject)
    as Hslug.
  { intros subject. unfold subjectSlug, SlugSpec.slug.
    rewrite encodeURIComponent_spec, toLowerCase_spec, replace_dot_or_comma.
    unfold JsString.replace, SlugSpec.underscore_runs.
    destruct (replace_white_space
                (Utf8.chars (SlugSpec.strip_commas_periods (SlugSpec.lower_case subject))))
      as [-> _].
    reflexivity. }
  split; [exact Hslug |]. split; [| split].
  - intros subject. unfold subjectUrl. rewrite Hslug. reflexivity.
  - vm_compute. reflexivity.
  - vm_compute. reflexivity.
Qed.

(** ** The cover URL *)

(** C7 (as amended). [coverUrlFromId] returns nothing for an absent cover
    id, and for every present cover id other than 0 it returns the fixed
    template around the decimal digits of the id (for 12345, the URL
    ending in [/b/id/12345-L.jpg]); what it returns is never the empty string
    nor the text "null". *)
Theorem cover_url_from_nonzero_id :
  coverUrlFromId None = None
  /\ (forall n : Z, n ≠ 0%Z ->
        coverUrlFromId (Some n)
        = Some ("https://covers.openlibrary.org/b/id/" +:+ JsString.ofNumber n
                  +:+ "-L.jpg"))
  /\ coverUrlFromId (Some 12345%Z)
     = Some "https://covers.openlibrary.org/b/id/12345-L.jpg"
  /\ (forall coverId url,
        coverUrlFromId coverId = Some url -> url ≠ "" /\ url ≠ "null").
Proof.
  split; [reflexivity |]. split; [| split; [vm_compute; reflexivity |]].
  - intros n Hn. unfold coverUrlFromId, truthy_number.
    destruct (Z.eqb_spec n 0); [contradiction | reflexivity].
  - intros [n |] url; simpl; [| discriminate].
    destruct (negb _); [| discriminate].
    intros [= <-]. split; discriminate.
Qed.

Lemma cover_url_from_nonzero_id_witness :
  coverUrlFromId (Some 7%Z) = Some "https://covers.openlibrary.org/b/id/7-L.jpg".
Proof.
  exact (proj1 (proj2 cover_url_from_nonzero_id) 7%Z ltac:(lia)).
Defined.

(** C7, where the claim fails: the cover id 0 is present and numeric, and
    [coverUrlFromId] returns nothing for it. *)
Lemma cover_id_zero_gets_no_url :
  coverUrlFromId (Some 0%Z) = None
  /\ coverUrlFromId (Some 0%Z) ≠ Some "https://covers.openlibrary.org/b/id/0-L.jpg".
Proof. split; [reflexivity | discriminate]. Qed.

(** C10. The cover id 0 is falsy: [coverUrlFromId] answers for it as for an
    absent id, with nothing, and neither a search hit nor a subject work
    whose cover id is 0 is mapped to a book with a cover image. *)
Theorem cover_id_zero_is_absent :
  coverUrlFromId (Some 0%Z) = None
  /\ coverUrlFromId (Some 0%Z) = coverUrlFromId None
  /\ (forall doc, SearchDoc.cover_i doc = Some 0%Z ->
                  Book.coverImage (mapDocToBook doc) = None)
  /\ (forall work, SubjectWork.cover_id work = Some 0%Z ->
                   Book.coverImage (mapSubjectWorkToBook work) = None).
Proof.
  repeat split.
  - intros doc Hzero. simpl. rewrite Hzero. reflexivity.
  - intros work Hzero. simpl. rewrite Hzero. reflexivity.
Qed.

Lemma cover_id_zero_is_absent_witness :
  Book.coverImage (mapSubjectWorkToBook (Sample.bare_work "/works/OL2W")) = None.
Proof.
  exact (proj2 (proj2 (proj2 cover_id_zero_is_absent))
           (Sample.bare_work "/works/OL2W") eq_refl).
Defined.

(** ** Works of a subject listing *)

Lemma fallback_extends docs st :
  exists added,
    recommendations (addFallbackDocs docs st) = recommendations st ++ added.
Proof.
  unfold addFallbackDocs. destruct (_ <? _)%nat.
  - destruct (fallback_loop_sublist (drop 1 docs) st) as (added & Hrecs & _). eauto.
  - exists []. rewrite app_nil_r. reflexivity.
Qed.

(** A work that passes the filter of the subject loop is recommended unless
    ten recommendations are reached without it. *)
Lemma listed_work_recommended seedDoc rest listing work :
  work ∈ listing ->
  truthy (SubjectWork.key work) = true ->
  SubjectWork.key work ≠ SearchDoc.key seedDoc ->
  let recs := take MAX_RESULTS
                (recommendations
                   (addFallbackDocs (seedDoc :: rest)
                      (addSubjectWorks (Some listing) (seeded seedDoc)))) in
  mapSubjectWorkToBook work ∈ recs \/ length recs = 10%nat.
Proof.
  intros Hwork Hkey Hseed recs. subst recs.
  destruct (fallback_extends (seedDoc :: rest)
              (addSubjectWorks (Some listing) (seeded seedDoc))) as (added & ->).
  unfold addSubjectWorks. rewrite subject_loop_recommendations. simpl.
  set (kept := List.filter _ listing).
  assert (work ∈ kept) as Hkept.
  { apply list_elem_of_In, List.filter_In. split; [by apply list_elem_of_In |].
    rewrite Hkey. simpl. apply negb_true_iff, has_false.
    intros Hin. apply Hseed. apply elem_of_singleton in Hin. exact Hin. }
  apply (list_elem_of_fmap_2 mapSubjectWorkToBook) in Hkept.
  apply list_elem_of_lookup in Hkept as (i & Hi).
  destruct (Nat.lt_ge_cases i MAX_RESULTS) as [Hlt | Hge].
  - left. apply elem_of_take. exists i. split; [| exact Hlt].
    apply lookup_app_l_Some, lookup_take_Some.
    split; [exact Hi | unfold MAX_RESULTS in *; simpl; lia].
  - right. apply lookup_lt_Some in Hi.
    rewrite length_take, length_app, length_take. unfold MAX_RESULTS in *. lia.
Qed.

(** C9. A work of the subject listing is recommended whenever its key is
    truthy and differs from the seed's, with or without a title, unless ten
    recommendations are reached without it; so the search for [dune] on the
    [untitled] network returns a recommendation without a title. Search
    hits, by contrast, qualify only with a key and a title. *)
Theorem untitled_subject_work_is_recommended :
  (forall net request query searchResponse searchData seedDoc rest c p
          subjectResponse subjectData listing work,
      valid_query request query ->
      net 0%nat (searchUrl query) = inr searchResponse ->
      ok searchResponse = true ->
      json searchResponse = inr searchData ->
      qualifying (docs searchData) = seedDoc :: rest ->
      primarySubjectOf seedDoc = Some (String c p) ->
      net 1%nat (subjectUrl (String c p)) = inr subjectResponse ->
      ok subjectResponse = true ->
      json subjectResponse = inr subjectData ->
      works subjectData = Some listing ->
      work ∈ listing ->
      truthy (SubjectWork.key work) = true ->
      SubjectWork.key work ≠ SearchDoc.key seedDoc ->
      mapSubjectWorkToBook work ∈ recommendations_of (serve net request).1
      \/ length (recommendations_of (serve net request).1) = 10%nat)
  /\ (exists book,
        book ∈ recommendations_of (serve Sample.untitled (Sample.ask "dune")).1
        /\ Book.key book = Some "/works/OL2W"
        /\ Book.title book = None)
  /\ (forall hits doc,
        doc ∈ qualifying hits ->
        truthy (SearchDoc.key doc) = true /\ truthy (SearchDoc.title doc) = true).
Proof.
  split; [| split].
  - intros net request query searchResponse searchData seedDoc rest c p
      subjectResponse subjectData listing work
      Hvalid Hnet Hok Hjson Hq Hp Hnet1 Hok1 Hjson1 Hworks Hwork Hkey Hseed.
    rewrite (serve_valid net request query Hvalid), run_assemble. simpl.
    rewrite Hnet, Hok, Hjson, Hq, run_lookupSubject, Hp. simpl.
    rewrite Hnet1, Hok1, Hjson1, Hworks.
    apply (listed_work_recommended seedDoc rest listing work Hwork Hkey Hseed).
  - eexists. split; [| split].
    + vm_compute. left.
    + reflexivity.
    + reflexivity.
  - intros hits doc Hdoc. unfold qualifying in Hdoc.
    destruct hits as [hits |]; simpl in Hdoc; [| by apply elem_of_nil in Hdoc].
    apply list_elem_of_In, List.filter_In in Hdoc as [_ Hboth].
    apply andb_prop in Hboth. exact Hboth.
Qed.

Lemma untitled_subject_work_is_recommended_witness :
  mapSubjectWorkToBook (Sample.bare_work "/works/OL2W")
    ∈ recommendations_of (serve Sample.untitled (Sample.ask "dune")).1
  \/ length (recommendations_of (serve Sample.untitled (Sample.ask "dune")).1) = 10%nat.
Proof.
  eapply (proj1 untitled_subject_work_is_recommended
            Sample.untitled (Sample.ask "dune") "dune").
  - split; [reflexivity | vm_compute; lia].
  - reflexivity.
  - reflexivity.
  - reflexivity.
  - reflexivity.
  - reflexivity.
  - reflexivity.
  - reflexivity.
  - reflexivity.
  - reflexivity.
  - left.
  - reflexivity.
  - discriminate.
Defined.

(** ** Saving a book *)

(** C8. [POST] answers 400 with an error body when the request body carries
    no book. Otherwise it reads the clock once, hands the store the book
    with that stamp as [savedAt], and, the store having created the
    document, answers 200 with the identifier and revision the store
    assigned and the very stamp it persisted. (When the store fails instead,
    or the body cannot be read, nothing is persisted and the answer is 500
    with the error's message.) *)
Theorem save_stamps_and_persists env :
  (forall body,
      SavedBooks.request_body env = inr body ->
      SavedBooks.book body = None ->
      exists message,
        message ≠ ""
        /\ SavedBooks.serve env
           = (inr {| SavedBooks.status := 400;
                     SavedBooks.body := SavedBooks.ErrorBody message |},
              SavedBooks.start))
  /\ (forall body book document,
        SavedBooks.request_body env = inr body ->
        SavedBooks.book body = Some book ->
        SavedBooks.store env
          {| SavedBooks.book_fields := book;
             SavedBooks.savedAt := SavedBooks.clock env |} = inr document ->
        SavedBooks.serve env
        = (inr {| SavedBooks.status := 200;
                  SavedBooks.body :=
                    SavedBooks.SavedBody (SavedBooks.id document)
                      (SavedBooks.rev document) (SavedBooks.clock env) |},
           {| SavedBooks.created :=
                [ {| SavedBooks.book_fields := book;
                     SavedBooks.savedAt := SavedBooks.clock env |} ];
              SavedBooks.logged := [] |}))
  /\ (forall body book e,
        SavedBooks.request_body env = inr body ->
        SavedBooks.book body = Some book ->
        SavedBooks.store env
          {| SavedBooks.book_fields := book;
             SavedBooks.savedAt := SavedBooks.clock env |} = inl e ->
        exists message,
          SavedBooks.serve env
          = (inr {| SavedBooks.status := 500;
                    SavedBooks.body := SavedBooks.ErrorBody message |},
             {| SavedBooks.created := []; SavedBooks.logged := [e] |}))
  /\ (forall e,
        SavedBooks.request_body env = inl e ->
        exists message,
          SavedBooks.serve env
          = (inr {| SavedBooks.status := 500;
                    SavedBooks.body := SavedBooks.ErrorBody message |},
             {| SavedBooks.created := []; SavedBooks.logged := [e] |})).
Proof.
  unfold SavedBooks.serve, SavedBooks.POST.
  rewrite run_try_catch, run_bind, run_await. simpl.
  split; [| split; [| split]].
  - intros body -> ->. eexists. split; [| reflexivity]. discriminate.
  - intros body book document -> ->. simpl. intros ->. reflexivity.
  - intros body book e -> ->. simpl. intros ->. eexists. reflexivity.
  - intros e ->. eexists. reflexivity.
Qed.

Lemma save_stamps_and_persists_witness :
  SavedBooks.serve (Sample.shelf {| SavedBooks.book := Some Sample.dune_book |})
  = (inr {| SavedBooks.status := 200;
            SavedBooks.body :=
              SavedBooks.SavedBody "6e1295ed6c29495e54cc05947f18c8af"
                "1-2902191555" "2026-01-02T03:04:05.678Z" |},
     {| SavedBooks.created :=
          [ {| SavedBooks.book_fields := Sample.dune_book;
               SavedBooks.savedAt := "2026-01-02T03:04:05.678Z" |} ];
        SavedBooks.logged := [] |}).
Proof.
  exact (proj1 (proj2 (save_stamps_and_persists
                         (Sample.shelf {| SavedBooks.book := Some Sample.dune_book |})))
           _ Sample.dune_book _ eq_refl eq_refl eq_refl).
Defined.

(** ** Further properties of the recommend route *)

Section Provenance.

Import Catalog.

Variable net : Network.

Lemma eligible_is_the_filter seedDoc listing :
  List.filter
    (fun work => truthy (SubjectWork.key work)
                 && negb (has (uniqueKeys (seeded seedDoc)) (SubjectWork.key work)))
    listing
  = eligible seedDoc listing.
Proof.
  unfold eligible. apply List.filter_ext. intros work. f_equal.
  unfold has. simpl.
  destruct (decide (SubjectWork.key work = SearchDoc.key seedDoc)) as [Heq | Hne].
  - rewrite (bool_decide_eq_false_2 (_ ≠ _)) by (intros Hne; exact (Hne Heq)).
    rewrite bool_decide_eq_true_2 by (apply elem_of_singleton, Heq). reflexivity.
  - rewrite (bool_decide_eq_true_2 (_ ≠ _)) by exact Hne.
    rewrite bool_decide_eq_false_2; [reflexivity |].
    intros Hin. apply Hne. apply elem_of_singleton in Hin. exact Hin.
Qed.

(** The state after the subject lookup, from what the network listed. *)
Lemma run_lookupSubject_listed seedDoc w st1 w' :
  run (answer net) (lookupSubject seedDoc (seeded seedDoc)) w = (inr st1, w') ->
  length (fetched w) = 1%nat ->
  st1 = addSubjectWorks (Some (listed net seedDoc)) (seeded seedDoc).
Proof.
  rewrite run_lookupSubject. unfold listed. intros Hrun Hone.
  destruct (primarySubjectOf seedDoc) as [[| c p] |];
    try (injection Hrun as <- _; reflexivity).
  simpl in Hrun. rewrite Hone in Hrun.
  destruct (net 1%nat _) as [e | subjectResponse]; [discriminate |].
  destruct (ok subjectResponse); [| injection Hrun as <- _; reflexivity].
  destruct (json subjectResponse) as [e | subjectData]; [discriminate |].
  injection Hrun as <- _. destruct (works subjectData); reflexivity.
Qed.

(** A result with a seed comes from the first qualifying hit, the listing
    of its primary subject and the hits after it. *)
Lemma success_provenance request response seed recs message :
  (serve net request).1 = inr response ->
  body response = ResultBody (Some seed) recs message ->
  exists seedDoc rest,
    hits net request = seedDoc :: rest
    /\ seed = mapDocToBook seedDoc
    /\ recs = take MAX_RESULTS
                (recommendations
                   (addFallbackDocs (seedDoc :: rest)
                      (addSubjectWorks (Some (listed net seedDoc)) (seeded seedDoc)))).
Proof.
  destruct (query_cases request) as [[query Hvalid] | Hshort].
  - rewrite (serve_valid net _ _ Hvalid), run_assemble. unfold hits.
    destruct Hvalid as [-> _]. simpl.
    destruct (net 0%nat (searchUrl query)) as [e | searchResponse];
      [intros [= <-]; discriminate |].
    destruct (ok searchResponse); [| intros [= <-]; discriminate].
    destruct (json searchResponse) as [e | searchData]; [intros [= <-]; discriminate |].
    destruct (qualifying (docs searchData)) as [| seedDoc rest];
      [intros [= <-]; discriminate |].
    destruct (run _ (lookupSubject _ _) _) as [[e | st1] w'] eqn:Hrun;
      [intros [= <-]; discriminate |].
    apply run_lookupSubject_listed in Hrun; [| reflexivity]. subst st1.
    intros [= <-]. simpl. intros [= <- <- <-]. eauto.
  - destruct (serve_invalid net request Hshort) as (m & _ & ->).
    intros [= <-]. discriminate.
Qed.

End Provenance.

Import Catalog.

Lemma qualifying_truthy found doc :
  doc ∈ qualifying found ->
  truthy (SearchDoc.key doc) = true /\ truthy (SearchDoc.title doc) = true.
Proof.
  unfold qualifying. destruct found as [found |]; simpl; [| intros H; by apply elem_of_nil in H].
  intros Hdoc. apply list_elem_of_In, List.filter_In in Hdoc as [_ Hboth].
  apply andb_prop in Hboth. exact Hboth.
Qed.

Lemma hits_truthy net request doc :
  doc ∈ hits net request ->
  truthy (SearchDoc.key doc) = true /\ truthy (SearchDoc.title doc) = true.
Proof.
  unfold hits. destruct (JsString.trim <$> query_param request) as [query |];
    [| intros H; by apply elem_of_nil in H].
  destruct (net 0%nat (searchUrl query)) as [e | searchResponse];
    [intros H; by apply elem_of_nil in H |].
  destruct (json searchResponse) as [e | searchData];
    [intros H; by apply elem_of_nil in H |].
  apply qualifying_truthy.
Qed.

(** The assembled list: the eligible works of the listing, cut at ten, and
    then what the fallback loop added from the hits after the seed. *)
Lemma assembled_shape seedDoc rest listing :
  exists added,
    recommendations
      (addFallbackDocs (seedDoc :: rest)
         (addSubjectWorks (Some listing) (seeded seedDoc)))
    = take MAX_RESULTS (mapSubjectWorkToBook <$> eligible seedDoc listing) ++ added
    /\ added `sublist_of` (mapDocToBook <$> rest)
    /\ ((MAX_RESULTS <= length (eligible seedDoc listing))%nat -> added = []).
Proof.
  assert (recommendations (addSubjectWorks (Some listing) (seeded seedDoc))
          = take MAX_RESULTS (mapSubjectWorkToBook <$> eligible seedDoc listing)) as Hst1.
  { unfold addSubjectWorks. rewrite subject_loop_recommendations, eligible_is_the_filter.
    reflexivity. }
  unfold addFallbackDocs. rewrite Hst1.
  destruct (Nat.ltb_spec (length (take MAX_RESULTS
                                    (mapSubjectWorkToBook <$> eligible seedDoc listing)))
              MAX_RESULTS) as [Hroom | Hfull].
  - simpl drop. rewrite drop_0.
    destruct (fallback_loop_sublist rest
                (addSubjectWorks (Some listing) (seeded seedDoc))) as (added & Hrecs & Hsub).
    exists added. rewrite Hrecs, Hst1. split; [reflexivity |]. split; [exact Hsub |].
    intros Hten. rewrite length_take, length_fmap in Hroom. lia.
  - exists []. rewrite Hst1, app_nil_r. split; [reflexivity |].
    split; [apply sublist_nil_l | reflexivity].
Qed.

(** X1. In every answer with a seed, the seed has a truthy key and a truthy
    title, every recommended book has a truthy key, and the seed's key is not
    among the recommended keys. *)
Theorem seed_and_recommendations_carry_keys net request response seed recs message :
  (serve net request).1 = inr response ->
  body response = ResultBody (Some seed) recs message ->
  truthy (Book.key seed) = true
  /\ truthy (Book.title seed) = true
  /\ (Book.key seed ∉ keys recs)
  /\ Forall (fun book => truthy (Book.key book) = true) recs.
Proof.
  intros Hserve Hbody.
  pose proof (seed_key_never_recommended net request response seed recs message
                Hserve Hbody) as Hseed.
  destruct (success_provenance net request response seed recs message Hserve Hbody)
    as (seedDoc & rest & Hhits & -> & ->).
  assert (forall doc, doc ∈ seedDoc :: rest ->
            truthy (SearchDoc.key doc) = true /\ truthy (SearchDoc.title doc) = true)
    as Htruthy.
  { intros doc Hdoc. apply (hits_truthy net request). rewrite Hhits. exact Hdoc. }
  destruct (Htruthy seedDoc ltac:(left)) as [Hkey Htitle].
  split; [exact Hkey |]. split; [exact Htitle |]. split; [exact Hseed |].
  destruct (assembled_shape seedDoc rest (listed net seedDoc)) as (added & -> & Hsub & _).
  apply Forall_take, Forall_app. split.
  - apply Forall_take, Forall_fmap, Forall_forall. intros work Hwork. simpl.
    apply list_elem_of_In, List.filter_In in Hwork as [_ Hkeep].
    apply andb_prop in Hkeep as [Hk _]. exact Hk.
  - apply Forall_forall. intros book Hbook.
    apply (elem_of_sublist _ _ _ Hbook) in Hsub.
    apply list_elem_of_fmap in Hsub as (doc & -> & Hdoc). simpl.
    apply Htruthy. right. exact Hdoc.
Qed.

Lemma seed_and_recommendations_carry_keys_witness :
  truthy (Some "/works/OL1W") = true
  /\ truthy (Some "Dune") = true
  /\ (Some "/works/OL1W" ∉ keys (recommendations_of
                                    (serve Sample.repeating (Sample.ask "dune")).1))
  /\ Forall (fun book => truthy (Book.key book) = true)
       (recommendations_of (serve Sample.repeating (Sample.ask "dune")).1).
Proof.
  eapply (seed_and_recommendations_carry_keys Sample.repeating (Sample.ask "dune")
            _ (mapDocToBook Sample.dune)).
  - vm_compute. reflexivity.
  - reflexivity.
Defined.

Lemma fallback_keeps_NoDup seed docs st :
  consistent seed st -> NoDup (keys (recommendations st)) ->
  NoDup (keys (recommendations (addFallbackDocs docs st))).
Proof.
  intros Hst Hnd. unfold addFallbackDocs.
  destruct (_ <? _)%nat; [by apply (fallback_loop_NoDup seed) | exact Hnd].
Qed.

(** X2. When the eligible works of the subject listing (those with a truthy
    key other than the seed's) have pairwise distinct keys, the keys of the
    seed and of the recommendations are pairwise distinct, whatever the
    search hits repeat. *)
Theorem distinct_listing_gives_distinct_keys net request response seed recs message :
  (serve net request).1 = inr response ->
  body response = ResultBody (Some seed) recs message ->
  (forall seedDoc rest,
      hits net request = seedDoc :: rest ->
      NoDup (SubjectWork.key <$> eligible seedDoc (listed net seedDoc))) ->
  NoDup (Book.key seed :: keys recs).
Proof.
  intros Hserve Hbody Hdistinct.
  pose proof (seed_key_never_recommended net request response seed recs message
                Hserve Hbody) as Hseed.
  destruct (success_provenance net request response seed recs message Hserve Hbody)
    as (seedDoc & rest & Hhits & -> & ->).
  specialize (Hdistinct seedDoc rest Hhits).
  apply NoDup_cons. split; [exact Hseed |].
  unfold keys. rewrite fmap_take.
  eapply sublist_NoDup; [| apply sublist_take].
  apply (fallback_keeps_NoDup (SearchDoc.key seedDoc)); [apply listed_consistent |].
  unfold addSubjectWorks. rewrite subject_loop_recommendations, eligible_is_the_filter.
  simpl. unfold keys. rewrite fmap_take, <- list_fmap_compose.
  eapply sublist_NoDup; [exact Hdistinct | apply sublist_take].
Qed.

Lemma distinct_listing_gives_distinct_keys_witness :
  NoDup (Some "/works/OL1W"
         :: keys (recommendations_of (serve Sample.untitled (Sample.ask "dune")).1)).
Proof.
  eapply (distinct_listing_gives_distinct_keys Sample.untitled (Sample.ask "dune")
            _ (mapDocToBook Sample.dune)).
  - vm_compute. reflexivity.
  - reflexivity.
  - intros seedDoc rest [= <- <-]. vm_compute. repeat constructor. apply not_elem_of_nil.
Defined.

(** X3. The eligible works of the subject listing are recommended first, in
    the listing's order, and search hits only fill what is left of the ten:
    the recommendations are the first ten of the eligible works followed by
    hits taken in order from those after the seed, and with ten or more
    eligible works no search hit is recommended at all. *)
Theorem subject_works_come_first net request response seed recs message :
  (serve net request).1 = inr response ->
  body response = ResultBody (Some seed) recs message ->
  exists seedDoc rest added,
    hits net request = seedDoc :: rest
    /\ seed = mapDocToBook seedDoc
    /\ recs = take 10 ((mapSubjectWorkToBook
                          <$> eligible seedDoc (listed net seedDoc)) ++ added)
    /\ added `sublist_of` (mapDocToBook <$> rest)
    /\ ((10 <= length (eligible seedDoc (listed net seedDoc)))%nat ->
        recs = mapSubjectWorkToBook <$> take 10 (eligible seedDoc (listed net seedDoc))).
Proof.
  intros Hserve Hbody.
  destruct (success_provenance net request response seed recs message Hserve Hbody)
    as (seedDoc & rest & Hhits & -> & ->).
  destruct (assembled_shape seedDoc rest (listed net seedDoc))
    as (added & -> & Hsub & Hfull).
  exists seedDoc, rest, added. split; [exact Hhits |]. split; [reflexivity |].
  set (first := mapSubjectWorkToBook <$> eligible seedDoc (listed net seedDoc)).
  assert (length first = length (eligible seedDoc (listed net seedDoc))) as Hlen
    by apply length_fmap.
  unfold MAX_RESULTS in *.
  destruct (Nat.le_gt_cases 10 (length first)) as [Hten | Hfew].
  - rewrite (Hfull ltac:(lia)), !app_nil_r, take_take, Nat.min_id.
    split; [reflexivity |]. split; [apply sublist_nil_l |].
    intros _. subst first. symmetry. apply fmap_take.
  - rewrite (take_ge first) by lia.
    split; [reflexivity |]. split; [exact Hsub |]. intros Hten. lia.
Qed.

Lemma subject_works_come_first_witness :
  exists seedDoc rest added,
    hits Sample.repeating (Sample.ask "dune") = seedDoc :: rest
    /\ mapDocToBook Sample.dune = mapDocToBook seedDoc
    /\ recommendations_of (serve Sample.repeating (Sample.ask "dune")).1
       = take 10 ((mapSubjectWorkToBook
                     <$> eligible seedDoc (listed Sample.repeating seedDoc)) ++ added)
    /\ added `sublist_of` (mapDocToBook <$> rest)
    /\ ((10 <= length (eligible seedDoc (listed Sample.repeating seedDoc)))%nat ->
        recommendations_of (serve Sample.repeating (Sample.ask "dune")).1
        = mapSubjectWorkToBook
            <$> take 10 (eligible seedDoc (listed Sample.repeating seedDoc))).
Proof.
  eapply (subject_works_come_first Sample.repeating (Sample.ask "dune")).
  - vm_compute. reflexivity.
  - reflexivity.
Defined.

(** *** Every way an invocation can go *)

Lemma run_lookupSubject_world net seedDoc st w r w' :
  run (answer net) (lookupSubject seedDoc st) w = (r, w') ->
  logged w' = logged w
  /\ (fetched w' = fetched w
      \/ exists c p,
           primarySubjectOf seedDoc = Some (String c p)
           /\ fetched w' = fetched w ++ [(subjectUrl (String c p), init)]).
Proof.
  rewrite run_lookupSubject.
  destruct (primarySubjectOf seedDoc) as [[| c p] |] eqn:Hp;
    try (intros [= _ <-]; split; [reflexivity | left; reflexivity]).
  simpl. intros Hrun.
  assert (w' = called w (subjectUrl (String c p))) as ->.
  { destruct (net _ _) as [e | subjectResponse]; [by injection Hrun |].
    destruct (ok subjectResponse); [| by injection Hrun].
    destruct (json subjectResponse); by injection Hrun. }
  split; [reflexivity |]. right. exists c, p. split; reflexivity.
Qed.

(** The table of an invocation: a refused query, or a valid one with its
    one or two requests, an answer, and at most one logged error. *)
Lemma serve_table net request :
  ((forall q, query_param request = Some q ->
              (JsString.length (JsString.trim q) < 2)%nat)
   /\ exists m, m ≠ ""
        /\ serve net request = (inr (createErrorResponse m 400), start))
  \/ exists query response w,
       valid_query request query
       /\ serve net request = (inr response, w)
       /\ (fetched w = [(searchUrl query, init)]
           \/ exists seedDoc rest c p,
                hits net request = seedDoc :: rest
                /\ primarySubjectOf seedDoc = Some (String c p)
                /\ fetched w = [(searchUrl query, init);
                                (subjectUrl (String c p), init)])
       /\ ((logged w = []
            /\ (response = createErrorResponse
                             "Unable to reach the Open Library search service." 502
                \/ response = NextResponse_json
                                (ResultBody None []
                                   (Some "We could not find any matches for that book."))
                \/ exists seedDoc st, response = success seedDoc st))
           \/ exists e,
                logged w = [e]
                /\ response = createErrorResponse
                                "Unexpected error while fetching data." 500).
Proof.
  destruct (query_cases request) as [[query Hvalid] | Hshort].
  2: { left. split; [exact Hshort | apply serve_invalid, Hshort]. }
  right. exists query. rewrite (serve_valid net _ _ Hvalid), run_assemble.
  unfold hits. destruct Hvalid as [Htrim Hlen]. rewrite Htrim. simpl.
  destruct (net 0%nat (searchUrl query)) as [e | searchResponse].
  { do 2 eexists. split; [by split |]. split; [reflexivity |].
    split; [by left |]. right. by exists e. }
  destruct (ok searchResponse).
  2: { do 2 eexists. split; [by split |]. split; [reflexivity |].
       split; [by left |]. left. split; [reflexivity |]. by left. }
  destruct (json searchResponse) as [e | searchData].
  { do 2 eexists. split; [by split |]. split; [reflexivity |].
    split; [by left |]. right. by exists e. }
  destruct (qualifying (docs searchData)) as [| seedDoc rest].
  { do 2 eexists. split; [by split |]. split; [reflexivity |].
    split; [by left |]. left. split; [reflexivity |]. right. by left. }
  destruct (run _ (lookupSubject _ _) _) as [r w'] eqn:Hrun.
  apply run_lookupSubject_world in Hrun as [Hlog Hfetched]. simpl in Hlog, Hfetched.
  assert (fetched w' = [(searchUrl query, init)]
          \/ exists seedDoc0 rest0 c p,
               seedDoc :: rest = seedDoc0 :: rest0
               /\ primarySubjectOf seedDoc0 = Some (String c p)
               /\ fetched w' = [(searchUrl query, init);
                                (subjectUrl (String c p), init)]) as Hcalls.
  { destruct Hfetched as [-> | (c & p & Hp & ->)]; [by left |].
    right. by exists seedDoc, rest, c, p. }
  destruct r as [e | st1].
  - do 2 eexists. split; [by split |]. split; [reflexivity |].
    split; [exact Hcalls |]. right. exists e. simpl. rewrite Hlog. by split.
  - do 2 eexists. split; [by split |]. split; [reflexivity |].
    split; [exact Hcalls |]. left. split; [exact Hlog |]. right. right. eauto.
Qed.

(** X4. A failing search is reported without a subject request: a search
    answered with a non-success status gives 502 and logs nothing; a search
    that is rejected, or whose body does not parse, gives 500 and logs the
    error. In each case the catalog was asked exactly once. *)
Theorem search_failures_are_reported net request query :
  valid_query request query ->
  (forall searchResponse,
      net 0%nat (searchUrl query) = inr searchResponse ->
      ok searchResponse = false ->
      serve net request
      = (inr {| status := 502;
                body := ErrorBody "Unable to reach the Open Library search service." |},
         {| fetched := [(searchUrl query, init)]; logged := [] |}))
  /\ (forall e,
        net 0%nat (searchUrl query) = inl e ->
        serve net request
        = (inr {| status := 500;
                  body := ErrorBody "Unexpected error while fetching data." |},
           {| fetched := [(searchUrl query, init)]; logged := [e] |}))
  /\ (forall searchResponse e,
        net 0%nat (searchUrl query) = inr searchResponse ->
        ok searchResponse = true ->
        json searchResponse = inl e ->
        serve net request
        = (inr {| status := 500;
                  body := ErrorBody "Unexpected error while fetching data." |},
           {| fetched := [(searchUrl query, init)]; logged := [e] |})).
Proof.
  intros Hvalid. rewrite (serve_valid net _ _ Hvalid), run_assemble. simpl.
  split; [| split].
  - intros searchResponse -> ->. reflexivity.
  - intros e ->. reflexivity.
  - intros searchResponse e -> -> ->. reflexivity.
Qed.

Lemma search_failures_are_reported_witness :
  serve Outage.search_down (Sample.ask "dune")
  = (inr {| status := 502;
            body := ErrorBody "Unable to reach the Open Library search service." |},
     {| fetched := [(searchUrl "dune", init)]; logged := [] |}).
Proof.
  eapply (proj1 (search_failures_are_reported Outage.search_down (Sample.ask "dune")
                   "dune" _)).
  - reflexivity.
  - reflexivity.
  Unshelve. split; [reflexivity | vm_compute; lia].
Defined.

(** X5. An invocation asks the catalog at most twice, and only as follows:
    nothing for a missing query or one whose trimmed form has length (in
    UTF-16 code units) below two; otherwise first the search URL of the
    trimmed query and then, at most, the subject URL of the seed's primary
    subject. Every request carries the route's User-Agent and [no-store]. *)
Theorem at_most_two_requests net request :
  ((forall q, query_param request = Some q ->
              (JsString.length (JsString.trim q) < 2)%nat)
   /\ fetched (serve net request).2 = [])
  \/ exists query,
       valid_query request query
       /\ (fetched (serve net request).2 = [(searchUrl query, init)]
           \/ exists seedDoc rest c p,
                hits net request = seedDoc :: rest
                /\ primarySubjectOf seedDoc = Some (String c p)
                /\ fetched (serve net request).2
                   = [(searchUrl query, init); (subjectUrl (String c p), init)]).
Proof.
  destruct (serve_table net request)
    as [[Hshort (m & _ & ->)] | (query & response & w & Hvalid & -> & Hcalls & _)].
  - left. split; [exact Hshort | reflexivity].
  - right. exists query. split; [exact Hvalid | exact Hcalls].
Qed.

(** X6. The handler never rejects: every invocation ends in a response. A
    result body always comes with status 200, and with either a seed and no
    message or no seed, no recommendation and a message; an error body
    always has a non-empty message and status 400, 502 or 500; and an error
    is logged exactly when the status is 500, once. *)
Theorem answers_are_well_formed net request :
  exists response,
    (serve net request).1 = inr response
    /\ match body response with
       | ResultBody seed recs message =>
           status response = 200%Z
           /\ match seed with
              | Some _ => message = None
              | None => recs = [] /\ exists m, message = Some m /\ m ≠ ""
              end
       | ErrorBody m =>
           m ≠ ""
           /\ (status response = 400%Z \/ status response = 502%Z
               \/ status response = 500%Z)
       end
    /\ (status response = 500%Z -> exists e, logged (serve net request).2 = [e])
    /\ (status response ≠ 500%Z -> logged (serve net request).2 = []).
Proof.
  destruct (serve_table net request)
    as [[_ (m & Hm & ->)] | (query & response & w & _ & -> & _ & Hlogged)].
  - eexists. split; [reflexivity |]. simpl. split; [by eauto |].
    split; [discriminate | reflexivity].
  - exists response. split; [reflexivity |]. simpl.
    destruct Hlogged as [[-> [-> | [-> | (seedDoc & st & ->)]]] | (e & -> & ->)]; simpl.
    + split; [split; [discriminate | by eauto] |]. split; [discriminate | reflexivity].
    + split; [split; [reflexivity | split; [reflexivity | eexists; by split]] |].
      split; [discriminate | reflexivity].
    + split; [by split |]. split; [discriminate | reflexivity].
    + split; [split; [discriminate | by eauto] |]. split; [by eauto | congruence].
Qed.

(** *** Characters and their bytes *)


















(** *** The characters of the slug and of the request URLs *)

Lemma chars_append s t : chars (s +:+ t) = chars s ++ chars t.
Proof. induction s as [| c s IH]; simpl; [reflexivity | by rewrite <- IH]. Qed.

(** *** The characters the slug is left with *)

































Lemma forallb_Forall {A} (f : A -> bool) l :
  forallb f l = true -> Forall (fun x => f x = true) l.
Proof.
  intros H. apply Forall_forall. intros x Hx.
  apply (proj1 (forallb_forall f l) H), list_elem_of_In, Hx.
Qed.

Lemma encodeURIComponent_char c :
  forallb segment_safe
    (chars (if JsString.uriUnreserved c then String c EmptyString else JsString.percent c))
  = true.
Proof. destruct c as [[] [] [] [] [] [] [] []]; vm_compute; reflexivity. Qed.

Lemma formUrlEncode_char c :
  forallb form_safe
    (chars (if JsString.isAlnum c || JsString.one_of "*-._" c then String c EmptyString
            else if (JsString.code c =? 32)%N then "+"
            else JsString.percent c))
  = true.
Proof. destruct c as [[] [] [] [] [] [] [] []]; vm_compute; reflexivity. Qed.

Lemma encodeURIComponent_chars s :
  Forall (fun c => segment_safe c = true) (chars (JsString.encodeURIComponent s)).
Proof.
  induction s as [| c s IH]; [constructor |]. simpl.
  rewrite chars_append. apply Forall_app. split; [| exact IH].
  apply forallb_Forall, encodeURIComponent_char.
Qed.

Lemma formUrlEncode_chars s :
  Forall (fun c => form_safe c = true) (chars (JsString.formUrlEncode s)).
Proof.
  induction s as [| c s IH]; [constructor |]. simpl.
  rewrite chars_append. apply Forall_app. split; [| exact IH].
  apply forallb_Forall, formUrlEncode_char.
Qed.

(** X8. The two URLs the route requests are the fixed Open Library
    addresses around one encoded value: the form-encoded query between
    [?q=] and [&limit=25], and the percent-encoded slug between
    [/subjects/] and [.json?limit=30]. The encoded query is made of letters,
    digits and [*-._+%] only, the encoded slug of letters, digits and
    [-_.!~*'()%] only, so neither contains [&], [=], [#], [?], [/] or a
    space: no query and no subject can change the path or add a parameter. *)
Theorem request_urls_are_well_formed :
  (forall query,
      searchUrl query
      = "https://openlibrary.org/search.json?q=" +:+ JsString.formUrlEncode query
          +:+ "&limit=25"
      /\ Forall (fun c => form_safe c = true) (chars (JsString.formUrlEncode query)))
  /\ (forall subject,
        subjectUrl subject
        = "https://openlibrary.org/subjects/"
            +:+ JsString.encodeURIComponent (subjectSlug subject) +:+ ".json?limit=30"
        /\ Forall (fun c => segment_safe c = true)
             (chars (JsString.encodeURIComponent (subjectSlug subject))))
  /\ Forall (fun c => form_safe c = false /\ segment_safe c = false) (chars "&=#?/ ").
Proof.
  split; [| split].
  - intros query. split; [reflexivity | apply formUrlEncode_chars].
  - intros subject. split; [reflexivity | apply encodeURIComponent_chars].
  - repeat constructor.
Qed.

(** ** The saved-books handlers on the document-store client *)

Section ShelfRuns.

Variable env : Shelf.Env.

(** One [couchRequest], step by step. *)
Lemma run_couchRequest T path init w :
  run (Shelf.answer_client env)
      (CouchDb.couchRequest T (Shelf.config env) path init) w
  = match CouchDb.resolvedBaseUrl (Shelf.config env) with
    | Some (String _ _ as base) =>
        let request :=
          {| CouchDb.url := base +:+ path;
             CouchDb.method := init ≫= CouchDb.init_method;
             CouchDb.headers :=
               match init ≫= CouchDb.init_headers with
               | Some overrideHeaders =>
                   overrideHeaders ∪ CouchDb.baseHeaders (Shelf.config env)
               | None => CouchDb.baseHeaders (Shelf.config env)
               end;
             CouchDb.body := init ≫= CouchDb.init_body |} in
        let w' := {| Shelf.sent := Shelf.sent w ++ [request];
                     Shelf.logged := Shelf.logged w |} in
        match Shelf.store env (length (Shelf.sent w)) request T with
        | inl e => (inl e, w')
        | inr response =>
            if CouchDb.ok response then
              match CouchDb.json response with
              | inl e => (inl e, w')
              | inr data => (inr data, w')
              end
            else
              match CouchDb.text response with
              | inl e => (inl e, w')
              | inr text => (inl (ErrorObject (Shelf.refusal response text)), w')
              end
        end
    | _ => (inl (ErrorObject "Missing CouchDB configuration (COUCHDB_URL)."), w)
    end.
Proof.
  unfold CouchDb.couchRequest.
  destruct (CouchDb.resolvedBaseUrl (Shelf.config env)) as [[| c base] |];
    try reflexivity.
  rewrite run_bind, run_await. simpl.
  destruct (Shelf.store env _ _ T) as [e | response]; [reflexivity |].
  destruct (CouchDb.ok response); simpl.
  - destruct (CouchDb.json response); reflexivity.
  - rewrite run_bind. destruct (CouchDb.text response); reflexivity.
Qed.

Lemma run_createDocument payload w :
  run (Shelf.answer_client env) (CouchDb.createDocument (Shelf.config env) payload) w
  = match CouchDb.resolvedBaseUrl (Shelf.config env) with
    | Some (String _ _ as base) =>
        let request := Shelf.createRequest (Shelf.config env) base payload in
        let w' := {| Shelf.sent := Shelf.sent w ++ [request];
                     Shelf.logged := Shelf.logged w |} in
        match Shelf.store env (length (Shelf.sent w)) request CouchDb.CreatedAnswer with
        | inl e => (inl e, w')
        | inr response =>
            if CouchDb.ok response then
              match CouchDb.json response with
              | inl e => (inl e, w')
              | inr document => (inr document, w')
              end
            else
              match CouchDb.text response with
              | inl e => (inl e, w')
              | inr text => (inl (ErrorObject (Shelf.refusal response text)), w')
              end
        end
    | _ => (inl (ErrorObject "Missing CouchDB configuration (COUCHDB_URL)."), w)
    end.
Proof.
  exact (run_couchRequest CouchDb.CreatedAnswer _ _ w).
Qed.

Lemma run_listDocuments w :
  run (Shelf.answer_client env) (CouchDb.listDocuments (Shelf.config env)) w
  = match CouchDb.resolvedBaseUrl (Shelf.config env) with
    | Some (String _ _ as base) =>
        let request := Shelf.listRequest (Shelf.config env) base in
        let w' := {| Shelf.sent := Shelf.sent w ++ [request];
                     Shelf.logged := Shelf.logged w |} in
        match Shelf.store env (length (Shelf.sent w)) request CouchDb.AllDocsAnswer with
        | inl e => (inl e, w')
        | inr response =>
            if CouchDb.ok response then
              match CouchDb.json response with
              | inl e => (inl e, w')
              | inr data =>
                  (inr (CouchDb.filter_Boolean (CouchDb.doc <$> CouchDb.rows data)), w')
              end
            else
              match CouchDb.text response with
              | inl e => (inl e, w')
              | inr text => (inl (ErrorObject (Shelf.refusal response text)), w')
              end
        end
    | _ => (inl (ErrorObject "Missing CouchDB configuration (COUCHDB_URL)."), w)
    end.
Proof.
  unfold CouchDb.listDocuments. cbv zeta. rewrite run_bind.
  pose proof (run_couchRequest CouchDb.AllDocsAnswer
                ("/" +:+ CouchDb.dbName (Shelf.config env)
                   +:+ "/_all_docs?include_docs=true") None w) as Hrun.
  simpl CouchDb.answer_type in Hrun. rewrite Hrun. clear Hrun.
  destruct (CouchDb.resolvedBaseUrl (Shelf.config env)) as [[| c base] |];
    try reflexivity.
  unfold Shelf.listRequest. simpl.
  destruct (Shelf.store env _ _ _) as [e | [ok status statusText text json]];
    [reflexivity |].
  simpl. destruct ok; [destruct json | destruct text]; reflexivity.
Qed.

(** [POST] with a book in its body, from what [createDocument] does. *)
Lemma run_post body book :
  Shelf.request_body env = inr body ->
  SavedBooks.book body = Some book ->
  Shelf.post env
  = match run (Shelf.answer_client env)
            (CouchDb.createDocument (Shelf.config env)
               {| SavedBooks.book_fields := book;
                  SavedBooks.savedAt := Shelf.clock env |}) Shelf.start with
    | (inr document, w) =>
        (inr {| SavedBooks.status := 200;
                SavedBooks.body :=
                  SavedBooks.SavedBody (SavedBooks.id document)
                    (SavedBooks.rev document) (Shelf.clock env) |}, w)
    | (inl e, w) =>
        (inr {| SavedBooks.status := 500;
                SavedBooks.body :=
                  SavedBooks.ErrorBody
                    match e with
                    | ErrorObject message => message
                    | ThrownValue => "Unexpected error when saving the book."
                    end |},
         {| Shelf.sent := Shelf.sent w; Shelf.logged := Shelf.logged w ++ [e] |})
    end.
Proof.
  intros Hbody Hbook. unfold Shelf.post, SavedBooks.POST.
  rewrite run_try_catch, run_bind, run_await. simpl. rewrite Hbody, Hbook. simpl.
  destruct (run _ (CouchDb.createDocument _ _) _) as [[e | document] w]; reflexivity.
Qed.

(** [GET], from what [listDocuments] does. *)
Lemma run_get :
  Shelf.get env
  = match run (Shelf.answer_client env)
            (CouchDb.listDocuments (Shelf.config env)) Shelf.start with
    | (inr docs, w) =>
        (inr {| SavedList.status := 200;
                SavedList.body := SavedList.ItemsBody (SavedList.itemOf <$> docs) |}, w)
    | (inl e, w) =>
        (inr {| SavedList.status := 500;
                SavedList.body := SavedList.ErrorBody "Failed to load saved books." |},
         {| Shelf.sent := Shelf.sent w; Shelf.logged := Shelf.logged w ++ [e] |})
    end.
Proof.
  unfold Shelf.get, SavedList.GET.
  rewrite run_try_catch, run_bind, run_await. simpl.
  destruct (run _ (CouchDb.listDocuments _) _) as [[e | docs] w]; reflexivity.
Qed.

End ShelfRuns.

(** X9. Without a base URL (no [COUCHDB_URL], or one that is empty once its
    trailing slashes are stripped) the store is never contacted: saving a
    book answers 500 with the message of the configuration error, listing
    answers 500 with the route's fixed message, and each logs the error. *)
Theorem unconfigured_store_is_never_contacted env :
  truthy (CouchDb.resolvedBaseUrl (Shelf.config env)) = false ->
  (forall body book,
      Shelf.request_body env = inr body ->
      SavedBooks.book body = Some book ->
      Shelf.post env
      = (inr {| SavedBooks.status := 500;
                SavedBooks.body :=
                  SavedBooks.ErrorBody "Missing CouchDB configuration (COUCHDB_URL)." |},
         {| Shelf.sent := [];
            Shelf.logged :=
              [ErrorObject "Missing CouchDB configuration (COUCHDB_URL)."] |}))
  /\ Shelf.get env
     = (inr {| SavedList.status := 500;
               SavedList.body := SavedList.ErrorBody "Failed to load saved books." |},
        {| Shelf.sent := [];
           Shelf.logged :=
             [ErrorObject "Missing CouchDB configuration (COUCHDB_URL)."] |}).
Proof.
  intros Hnone. split.
  - intros body book Hbody Hbook. rewrite (run_post env body book Hbody Hbook).
    rewrite run_createDocument.
    destruct (CouchDb.resolvedBaseUrl (Shelf.config env)) as [[| c base] |];
      try discriminate; reflexivity.
  - rewrite run_get, run_listDocuments.
    destruct (CouchDb.resolvedBaseUrl (Shelf.config env)) as [[| c base] |];
      try discriminate; reflexivity.
Qed.

Lemma unconfigured_store_is_never_contacted_witness :
  Shelf.get (ShelfSample.env ShelfSample.unconfigured ShelfSample.accepting)
  = (inr {| SavedList.status := 500;
            SavedList.body := SavedList.ErrorBody "Failed to load saved books." |},
     {| Shelf.sent := [];
        Shelf.logged :=
          [ErrorObject "Missing CouchDB configuration (COUCHDB_URL)."] |}).
Proof.
  exact (proj2 (unconfigured_store_is_never_contacted
                  (ShelfSample.env ShelfSample.unconfigured ShelfSample.accepting)
                  eq_refl)).
Defined.

Lemma configured_base cfg base :
  Shelf.configured cfg base ->
  exists c rest, base = String c rest /\ CouchDb.resolvedBaseUrl cfg = Some (String c rest).
Proof.
  intros [Hbase Hne]. destruct base as [| c rest]; [contradiction |]. eauto.
Qed.

(** X10. When the store refuses a request (a non-success status), saving
    answers 500 and hands the client the client library's message, with
    the store's status, status text and body text in it; listing answers
    500 with its fixed message and keeps the store's message for the log.
    Each sent the one request and nothing more. *)
Theorem store_refusal_is_reported env base :
  Shelf.configured (Shelf.config env) base ->
  (forall body book response text,
      Shelf.request_body env = inr body ->
      SavedBooks.book body = Some book ->
      let request :=
        Shelf.createRequest (Shelf.config env) base
          {| SavedBooks.book_fields := book;
             SavedBooks.savedAt := Shelf.clock env |} in
      Shelf.store env 0%nat request CouchDb.CreatedAnswer = inr response ->
      CouchDb.ok response = false ->
      CouchDb.text response = inr text ->
      Shelf.post env
      = (inr {| SavedBooks.status := 500;
                SavedBooks.body := SavedBooks.ErrorBody (Shelf.refusal response text) |},
         {| Shelf.sent := [request];
            Shelf.logged := [ErrorObject (Shelf.refusal response text)] |}))
  /\ (forall response text,
        let request := Shelf.listRequest (Shelf.config env) base in
        Shelf.store env 0%nat request CouchDb.AllDocsAnswer = inr response ->
        CouchDb.ok response = false ->
        CouchDb.text response = inr text ->
        Shelf.get env
        = (inr {| SavedList.status := 500;
                  SavedList.body := SavedList.ErrorBody "Failed to load saved books." |},
           {| Shelf.sent := [request];
              Shelf.logged := [ErrorObject (Shelf.refusal response text)] |})).
Proof.
  intros Hcfg. destruct (configured_base _ _ Hcfg) as (c & rest & -> & Hbase). split.
  - intros body book response text Hbody Hbook request Hstore Hok Htext.
    rewrite (run_post env body book Hbody Hbook).
    rewrite run_createDocument, Hbase. simpl.
    unfold request in Hstore. rewrite Hstore.
    destruct response as [ok status statusText text' json]. simpl in Hok, Htext.
    subst ok text'. reflexivity.
  - intros response text request Hstore Hok Htext.
    rewrite run_get, run_listDocuments, Hbase. simpl.
    unfold request in Hstore. rewrite Hstore.
    destruct response as [ok status statusText text' json]. simpl in Hok, Htext.
    subst ok text'. reflexivity.
Qed.

Lemma store_refusal_is_reported_witness :
  let env := ShelfSample.env ShelfSample.config ShelfSample.refusing in
  let request :=
    Shelf.createRequest (Shelf.config env) "https://db.example.com"
      {| SavedBooks.book_fields := Sample.dune_book;
         SavedBooks.savedAt := Shelf.clock env |} in
  let message :=
    Shelf.refusal (T := SavedBooks.Created) ShelfSample.unauthorized
      "Name or password is incorrect." in
  Shelf.post env
  = (inr {| SavedBooks.status := 500; SavedBooks.body := SavedBooks.ErrorBody message |},
     {| Shelf.sent := [request]; Shelf.logged := [ErrorObject message] |}).
Proof.
  intros env request message.
  apply (proj1 (store_refusal_is_reported env "https://db.example.com"
                  ltac:(split; [reflexivity | discriminate]))
           {| SavedBooks.book := Some Sample.dune_book |} Sample.dune_book
           ShelfSample.unauthorized "Name or password is incorrect.");
    reflexivity.
Defined.

Lemma baseHeaders_lookup cfg :
  CouchDb.baseHeaders cfg !! "content-type" = Some "application/json"
  /\ CouchDb.baseHeaders cfg !! "accept" = Some "application/json"
  /\ CouchDb.baseHeaders cfg !! "authorization"
     = match CouchDb.authorizationHeader cfg with
       | Some (String _ _ as header) => Some header
       | _ => None
       end.
Proof.
  unfold CouchDb.baseHeaders.
  destruct (CouchDb.authorizationHeader cfg) as [[| c header] |];
    repeat split; by simplify_map_eq.
Qed.

(** X11. Saving a book sends the store exactly one request, whatever the
    store then answers: a POST to the base URL, a slash and the database
    name, declaring and accepting JSON, carrying the Authorization header
    exactly when the configuration has one, with the book and the clock's
    stamp as [savedAt] for body. When the store answers with success, the
    route answers 200 with the store's identifier and revision and that
    stamp, and logs nothing. *)
Theorem save_sends_one_stamped_document env base body book :
  Shelf.configured (Shelf.config env) base ->
  Shelf.request_body env = inr body ->
  SavedBooks.book body = Some book ->
  let payload := {| SavedBooks.book_fields := book;
                    SavedBooks.savedAt := Shelf.clock env |} in
  let request := Shelf.createRequest (Shelf.config env) base payload in
  Shelf.sent (Shelf.post env).2 = [request]
  /\ CouchDb.headers request !! "content-type" = Some "application/json"
  /\ CouchDb.headers request !! "accept" = Some "application/json"
  /\ CouchDb.headers request !! "authorization"
     = match CouchDb.authorizationHeader (Shelf.config env) with
       | Some (String _ _ as header) => Some header
       | _ => None
       end
  /\ (forall response document,
        Shelf.store env 0%nat request CouchDb.CreatedAnswer = inr response ->
        CouchDb.ok response = true ->
        CouchDb.json response = inr document ->
        Shelf.post env
        = (inr {| SavedBooks.status := 200;
                  SavedBooks.body :=
                    SavedBooks.SavedBody (SavedBooks.id document)
                      (SavedBooks.rev document) (Shelf.clock env) |},
           {| Shelf.sent := [request]; Shelf.logged := [] |})).
Proof.
  intros Hcfg Hbody Hbook payload request.
  destruct (configured_base _ _ Hcfg) as (c & rest & -> & Hbase).
  rewrite (run_post env body book Hbody Hbook), run_createDocument, Hbase. simpl.
  fold payload. fold request.
  destruct (baseHeaders_lookup (Shelf.config env)) as (Hct & Hacc & Hauth).
  split; [| split; [exact Hct | split; [exact Hacc | split; [exact Hauth |]]]].
  - destruct (Shelf.store env 0%nat request CouchDb.CreatedAnswer)
      as [e | [ok status statusText text json]]; [reflexivity |].
    simpl. destruct ok; [destruct json | destruct text]; reflexivity.
  - intros response document -> Hok Hjson.
    destruct response as [ok status statusText text json]. simpl in Hok, Hjson.
    subst ok json. reflexivity.
Qed.

Lemma save_sends_one_stamped_document_witness :
  let env := ShelfSample.env ShelfSample.config ShelfSample.accepting in
  let request :=
    Shelf.createRequest ShelfSample.config "https://db.example.com"
      ShelfSample.dune_saved in
  Shelf.sent (Shelf.post env).2 = [request]
  /\ CouchDb.headers request !! "content-type" = Some "application/json"
  /\ CouchDb.headers request !! "accept" = Some "application/json"
  /\ CouchDb.headers request !! "authorization" = Some "Basic YWRtaW46c2VjcmV0"
  /\ (forall response document,
        Shelf.store env 0%nat request CouchDb.CreatedAnswer = inr response ->
        CouchDb.ok response = true ->
        CouchDb.json response = inr document ->
        Shelf.post env
        = (inr {| SavedBooks.status := 200;
                  SavedBooks.body :=
                    SavedBooks.SavedBody (SavedBooks.id document)
                      (SavedBooks.rev document) (Shelf.clock env) |},
           {| Shelf.sent := [request]; Shelf.logged := [] |})).
Proof.
  exact (save_sends_one_stamped_document
           (ShelfSample.env ShelfSample.config ShelfSample.accepting)
           "https://db.example.com" _ Sample.dune_book
           ltac:(split; [reflexivity | discriminate]) eq_refl eq_refl).
Defined.

Lemma filter_Boolean_omap rows :
  CouchDb.filter_Boolean (CouchDb.doc <$> rows) = omap CouchDb.doc rows.
Proof.
  unfold CouchDb.filter_Boolean. induction rows as [| row rows IH]; [reflexivity |].
  rewrite fmap_cons. simpl. destruct (CouchDb.doc row); simpl; by f_equal.
Qed.

Lemma omap_length {A B} (f : A -> option B) l : (length (omap f l) <= length l)%nat.
Proof.
  induction l as [| x l IH]; simpl; [lia |].
  change (list_omap A B f l) with (omap f l). destruct (f x); simpl; lia.
Qed.

Lemma get_success env base response data :
  Shelf.configured (Shelf.config env) base ->
  Shelf.store env 0%nat (Shelf.listRequest (Shelf.config env) base)
    CouchDb.AllDocsAnswer = inr response ->
  CouchDb.ok response = true ->
  CouchDb.json response = inr data ->
  Shelf.get env
  = (inr {| SavedList.status := 200;
            SavedList.body :=
              SavedList.ItemsBody
                (SavedList.itemOf <$> omap CouchDb.doc (CouchDb.rows data)) |},
     {| Shelf.sent := [Shelf.listRequest (Shelf.config env) base];
        Shelf.logged := [] |}).
Proof.
  intros Hcfg Hstore Hok Hjson.
  destruct (configured_base _ _ Hcfg) as (c & rest & -> & Hbase).
  rewrite run_get, run_listDocuments, Hbase. simpl. rewrite Hstore.
  destruct response as [ok status statusText text json]. simpl in Hok, Hjson.
  subst ok json. simpl. rewrite filter_Boolean_omap. reflexivity.
Qed.

(** X12. Listing sends the store one GET for all documents with their
    bodies and, when the store answers with success, answers 200 with one
    item per row that has a document, in the rows' order: rows without a
    document are left out, and every item carries the document's [_id] as
    [id] and its book fields and [savedAt] unchanged. *)
Theorem listing_projects_documents env base response data :
  Shelf.configured (Shelf.config env) base ->
  Shelf.store env 0%nat (Shelf.listRequest (Shelf.config env) base)
    CouchDb.AllDocsAnswer = inr response ->
  CouchDb.ok response = true ->
  CouchDb.json response = inr data ->
  exists items,
    Shelf.get env
    = (inr {| SavedList.status := 200; SavedList.body := SavedList.ItemsBody items |},
       {| Shelf.sent := [Shelf.listRequest (Shelf.config env) base];
          Shelf.logged := [] |})
    /\ items = SavedList.itemOf <$> omap CouchDb.doc (CouchDb.rows data)
    /\ (length items <= length (CouchDb.rows data))%nat
    /\ (forall row stored,
          row ∈ CouchDb.rows data -> CouchDb.doc row = Some stored ->
          exists item,
            item ∈ items
            /\ SavedList.id item = CouchDb._id stored
            /\ SavedList.savedAt item = SavedBooks.savedAt (CouchDb.saved stored)
            /\ {| Book.key := SavedList.key item;
                  Book.title := SavedList.title item;
                  Book.author := SavedList.author item;
                  Book.coverImage := SavedList.coverImage item;
                  Book.year := SavedList.year item;
                  Book.subjects := SavedList.subjects item |}
               = SavedBooks.book_fields (CouchDb.saved stored)).
Proof.
  intros Hcfg Hstore Hok Hjson.
  rewrite (get_success env base response data Hcfg Hstore Hok Hjson).
  eexists. split; [reflexivity |]. split; [reflexivity |]. split.
  - rewrite length_fmap. apply omap_length.
  - intros row stored Hrow Hdoc. exists (SavedList.itemOf stored). split.
    + apply list_elem_of_fmap_2, list_elem_of_omap. eauto.
    + destruct stored as [i r [fields stamp]]. destruct fields. repeat split.
Qed.

Lemma listing_projects_documents_witness :
  exists items,
    Shelf.get (ShelfSample.env ShelfSample.config ShelfSample.accepting)
    = (inr {| SavedList.status := 200; SavedList.body := SavedList.ItemsBody items |},
       {| Shelf.sent := [Shelf.listRequest ShelfSample.config "https://db.example.com"];
          Shelf.logged := [] |})
    /\ length items = 1%nat.
Proof.
  destruct (listing_projects_documents
              (ShelfSample.env ShelfSample.config ShelfSample.accepting)
              "https://db.example.com" _ _
              ltac:(split; [reflexivity | discriminate]) eq_refl eq_refl eq_refl)
    as (items & Hget & Hitems & _).
  exists items. split; [exact Hget |]. rewrite Hitems. reflexivity.
Defined.

(** A save that answered 200 sent the stamped book and returned what the
    store assigned. *)
Lemma post_success env body book id rev savedAt w :
  Shelf.request_body env = inr body ->
  SavedBooks.book body = Some book ->
  Shelf.post env
  = (inr {| SavedBooks.status := 200;
            SavedBooks.body := SavedBooks.SavedBody id rev savedAt |}, w) ->
  savedAt = Shelf.clock env
  /\ exists base,
       Shelf.configured (Shelf.config env) base
       /\ Shelf.sent w
          = [Shelf.createRequest (Shelf.config env) base
               {| SavedBooks.book_fields := book; SavedBooks.savedAt := savedAt |}].
Proof.
  intros Hbody Hbook. rewrite (run_post env body book Hbody Hbook), run_createDocument.
  destruct (CouchDb.resolvedBaseUrl (Shelf.config env)) as [[| c base] |] eqn:Hbase;
    try discriminate.
  simpl.
  destruct (Shelf.store env 0%nat _ CouchDb.CreatedAnswer)
    as [e | [ok status statusText text json]]; [discriminate |].
  simpl. destruct ok; [destruct json | destruct text]; try discriminate.
  intros [= <- <- <- <-]. split; [reflexivity |].
  exists (String c base). split; [split; [exact Hbase | discriminate] | reflexivity].
Qed.

(** X13. Save, then list. When a save answered 200 with an identifier, a
    revision and a stamp, and the store later lists, under that identifier
    and revision, the document the save request carried, the listing has an
    item with that identifier, that stamp as [savedAt] and every field of
    the saved book. *)
Theorem saved_book_is_listed env1 env2 base body book id rev savedAt w1 response data :
  Shelf.request_body env1 = inr body ->
  SavedBooks.book body = Some book ->
  Shelf.post env1
  = (inr {| SavedBooks.status := 200;
            SavedBooks.body := SavedBooks.SavedBody id rev savedAt |}, w1) ->
  Shelf.configured (Shelf.config env2) base ->
  Shelf.store env2 0%nat (Shelf.listRequest (Shelf.config env2) base)
    CouchDb.AllDocsAnswer = inr response ->
  CouchDb.ok response = true ->
  CouchDb.json response = inr data ->
  (forall request payload,
      request ∈ Shelf.sent w1 ->
      CouchDb.body request = Some payload ->
      exists row,
        row ∈ CouchDb.rows data
        /\ CouchDb.doc row
           = Some {| CouchDb._id := id; CouchDb._rev := rev; CouchDb.saved := payload |}) ->
  exists items,
    Shelf.get env2
    = (inr {| SavedList.status := 200; SavedList.body := SavedList.ItemsBody items |},
       {| Shelf.sent := [Shelf.listRequest (Shelf.config env2) base];
          Shelf.logged := [] |})
    /\ {| SavedList.id := id;
          SavedList.title := Book.title book;
          SavedList.author := Book.author book;
          SavedList.coverImage := Book.coverImage book;
          SavedList.year := Book.year book;
          SavedList.subjects := Book.subjects book;
          SavedList.key := Book.key book;
          SavedList.savedAt := savedAt |} ∈ items.
Proof.
  intros Hbody Hbook Hpost Hcfg Hstore Hok Hjson Hlisted.
  destruct (post_success env1 body book id rev savedAt w1 Hbody Hbook Hpost)
    as (-> & base1 & _ & Hsent).
  destruct (Hlisted _ _ ltac:(rewrite Hsent; left) eq_refl) as (row & Hrow & Hdoc).
  rewrite (get_success env2 base response data Hcfg Hstore Hok Hjson).
  eexists. split; [reflexivity |].
  apply list_elem_of_fmap. eexists. split; [| apply list_elem_of_omap; eauto].
  reflexivity.
Qed.

Lemma saved_book_is_listed_witness :
  exists items,
    Shelf.get (ShelfSample.env ShelfSample.config ShelfSample.accepting)
    = (inr {| SavedList.status := 200; SavedList.body := SavedList.ItemsBody items |},
       {| Shelf.sent := [Shelf.listRequest ShelfSample.config "https://db.example.com"];
          Shelf.logged := [] |})
    /\ {| SavedList.id := "6e1295ed6c29495e54cc05947f18c8af";
          SavedList.title := Some "Dune";
          SavedList.author := "Frank Herbert";
          SavedList.coverImage := None;
          SavedList.year := None;
          SavedList.subjects := None;
          SavedList.key := Some "/works/OL1W";
          SavedList.savedAt := ShelfSample.stamp |} ∈ items.
Proof.
  eapply (saved_book_is_listed
            (ShelfSample.env ShelfSample.config ShelfSample.accepting)
            (ShelfSample.env ShelfSample.config ShelfSample.accepting)
            "https://db.example.com" _ Sample.dune_book).
  - reflexivity.
  - reflexivity.
  - reflexivity.
  - split; [reflexivity | discriminate].
  - reflexivity.
  - reflexivity.
  - reflexivity.
  - intros request payload Hrequest Hpayload.
    apply list_elem_of_singleton in Hrequest as ->. injection Hpayload as <-.
    eexists. split; [left | reflexivity].
Defined.

(** ** Loading the document-store client *)

Lemma strip_no_trailing_slash s prefix :
  CouchDb.stripTrailingSlashes s ≠ prefix +:+ "/".
Proof.
  revert prefix. induction s as [| c s IH]; intros prefix; simpl.
  - destruct prefix; discriminate.
  - destruct (CouchDb.stripTrailingSlashes s) as [| c' s'] eqn:Hs.
    + case_bool_decide as Hc.
      * destruct prefix; discriminate.
      * destruct prefix as [| p prefix]; simpl.
        -- intros [= ->]. by apply Hc.
        -- intros [= _ Hrest]. destruct prefix; discriminate.
    + destruct prefix as [| p prefix]; simpl; [discriminate |].
      intros [= _ Hrest]. exact (IH prefix Hrest).
Qed.

Lemma strip_removes_slashes_only s :
  exists n, s = CouchDb.stripTrailingSlashes s +:+ CouchDb.slashes n.
Proof.
  induction s as [| c s (n & IH)]; simpl; [by exists 0%nat |].
  destruct (CouchDb.stripTrailingSlashes s) as [| c' s'] eqn:Hs.
  - simpl in IH. subst s. case_bool_decide as Hc.
    + subst c. by exists (S n).
    + by exists n.
  - exists n. change (String c s = String c (String c' s' +:+ CouchDb.slashes n)).
    by rewrite <- IH.
Qed.

Lemma strip_fixed s :
  (forall prefix, s ≠ prefix +:+ "/") -> CouchDb.stripTrailingSlashes s = s.
Proof.
  induction s as [| c s IH]; intros Hs; [reflexivity |]. simpl.
  rewrite IH.
  - destruct s as [| c' s'].
    + case_bool_decide as Hc; [| reflexivity]. subst c. exfalso. by apply (Hs "").
    + reflexivity.
  - intros prefix ->. by apply (Hs (String c prefix)).
Qed.

(** X14. However the client is configured, its base URL, when it has one,
    never ends with a slash: it is the configured URL (or, when that parses,
    the text of the parsed URL without credentials) with its trailing
    slashes removed and nothing else changed, and stripping it again changes
    nothing. The database name is the configured one, or [saved_books] when
    none is given; and the client warns that the routes will fail exactly
    when it is left without a usable base URL. *)
Theorem base_url_has_no_trailing_slash rt COUCHDB_URL COUCHDB_DATABASE :
  let cfg := CouchDb.load rt COUCHDB_URL COUCHDB_DATABASE in
  CouchDb.dbName cfg = nullish COUCHDB_DATABASE "saved_books"
  /\ match CouchDb.resolvedBaseUrl cfg with
     | Some base =>
         (forall prefix, base ≠ prefix +:+ "/")
         /\ CouchDb.stripTrailingSlashes base = base
         /\ exists dbUrl n,
              COUCHDB_URL = Some dbUrl
              /\ (dbUrl = base +:+ CouchDb.slashes n
                  \/ exists parsed,
                       CouchDb.new_URL rt dbUrl = inr parsed
                       /\ CouchDb.href_without_credentials parsed
                          = base +:+ CouchDb.slashes n)
     | None => truthy COUCHDB_URL = false
     end
  /\ (truthy (CouchDb.resolvedBaseUrl cfg) = false
      <-> "COUCHDB_URL environment variable is not set. Saved books API routes will fail."
            ∈ CouchDb.warnings cfg).
Proof.
  set (notSet := "COUCHDB_URL environment variable is not set. Saved books API routes will fail.").
  assert (forall message : string, notSet ≠ "Invalid COUCHDB_URL provided. " +:+ message)
    as Hother by (intros message; discriminate).
  assert (forall raw : string,
             (forall prefix, CouchDb.stripTrailingSlashes raw ≠ prefix +:+ "/")
             /\ CouchDb.stripTrailingSlashes (CouchDb.stripTrailingSlashes raw)
                = CouchDb.stripTrailingSlashes raw) as Hstrip.
  { intros raw. split; [intros prefix; apply strip_no_trailing_slash |].
    apply strip_fixed. intros prefix. apply strip_no_trailing_slash. }
  unfold CouchDb.load. cbv zeta. fold notSet.
  destruct COUCHDB_URL as [[| c rest] |]; cbv beta iota.
  1, 3: (cbn [truthy CouchDb.resolvedBaseUrl CouchDb.dbName CouchDb.warnings app];
         split; [reflexivity |]; split; [reflexivity |];
         split; [by left | reflexivity]).
  set (dbUrl := String c rest).
  destruct (strip_removes_slashes_only dbUrl) as (n & Hn).
  destruct (CouchDb.new_URL rt dbUrl) as [message | parsed] eqn:Hparse.
  - cbn [CouchDb.resolvedBaseUrl].
    destruct (truthy (Some (CouchDb.stripTrailingSlashes dbUrl))) eqn:Htruthy;
      cbn [CouchDb.resolvedBaseUrl CouchDb.dbName CouchDb.warnings];
      rewrite Htruthy; (split; [reflexivity |]);
      (split; [split; [apply Hstrip | split; [apply Hstrip |]];
               exists dbUrl, n; split; [reflexivity | by left] |]).
    + split; [discriminate |]. intros Hin. apply list_elem_of_singleton in Hin.
      destruct (Hother _ Hin).
    + split; [| reflexivity]. intros _. apply elem_of_app. right. by left.
  - destruct (strip_removes_slashes_only (CouchDb.href_without_credentials parsed))
      as (k & Hk).
    destruct (CouchDb.credentialsHeader rt parsed) as [message | header].
    + cbn [CouchDb.resolvedBaseUrl].
      destruct (truthy (Some (CouchDb.stripTrailingSlashes dbUrl))) eqn:Htruthy;
        cbn [CouchDb.resolvedBaseUrl CouchDb.dbName CouchDb.warnings];
        rewrite Htruthy; (split; [reflexivity |]);
        (split; [split; [apply Hstrip | split; [apply Hstrip |]];
                 exists dbUrl, n; split; [reflexivity | by left] |]).
      * split; [discriminate |]. intros Hin. apply list_elem_of_singleton in Hin.
        destruct (Hother _ Hin).
      * split; [| reflexivity]. intros _. apply elem_of_app. right. by left.
    + cbn [CouchDb.resolvedBaseUrl].
      destruct (truthy (Some (CouchDb.stripTrailingSlashes
                                (CouchDb.href_without_credentials parsed))))
        eqn:Htruthy;
        cbn [CouchDb.resolvedBaseUrl CouchDb.dbName CouchDb.warnings];
        rewrite Htruthy; (split; [reflexivity |]);
        (split; [split; [apply Hstrip | split; [apply Hstrip |]];
                 exists dbUrl, k; split; [reflexivity | right; by exists parsed] |]).
      * split; [discriminate |]. intros Hin. by apply elem_of_nil in Hin.
      * split; [| reflexivity]. intros _. by left.
Qed.

(** ** The page *)

Section PageRuns.

Variable backend : Page.Backend.


End PageRuns.


(** *** From the search box to the route *)

Lemma formUrlDecode_char c t :
  Wire.formUrlDecode
    ((if JsString.isAlnum c || JsString.one_of "*-._" c then String c EmptyString
      else if (JsString.code c =? 32)%N then "+"
      else JsString.percent c) +:+ t)
  = String c (Wire.formUrlDecode t).
Proof. destruct c as [[] [] [] [] [] [] [] []]; reflexivity. Qed.

Lemma formUrlDecode_encode s : Wire.formUrlDecode (JsString.formUrlEncode s) = s.
Proof.
  induction s as [| c s IH]; [reflexivity |].
  cbn [JsString.formUrlEncode]. rewrite formUrlDecode_char, IH. reflexivity.
Qed.

Lemma form_safe_not_separator c :
  form_safe c = true -> c ≠ "&"%char /\ c ≠ "="%char /\ c ≠ "?"%char.
Proof. intros Hc. repeat split; intros ->; discriminate. Qed.

Lemma splitOn_without_separator sep s :
  Forall (fun c => c ≠ sep) (chars s) -> Wire.splitOn sep s = [s].
Proof.
  induction s as [| c s IH]; [reflexivity |]. simpl. intros Hs.
  apply Forall_cons in Hs as [Hc Hs]. rewrite bool_decide_eq_false_2 by exact Hc.
  rewrite (IH Hs). reflexivity.
Qed.

Lemma searchParams_get_query value :
  Forall (fun c => form_safe c = true) (chars value) ->
  Wire.searchParams_get "query" ("query=" +:+ value) = Some (Wire.formUrlDecode value).
Proof.
  intros Hsafe. unfold Wire.searchParams_get, Wire.parseSearch.
  rewrite splitOn_without_separator.
  - reflexivity.
  - repeat (constructor; [discriminate |]).
    eapply Forall_impl; [exact Hsafe |]. intros c Hc.
    by apply form_safe_not_separator in Hc as (? & _).
Qed.

Lemma withoutFragment_fixed url :
  Forall (fun c => c ≠ "#"%char) (chars url) -> Wire.withoutFragment url = url.
Proof.
  induction url as [| c url IH]; [reflexivity |]. simpl. intros Hurl.
  apply Forall_cons in Hurl as [Hc Hurl]. rewrite bool_decide_eq_false_2 by exact Hc.
  by rewrite (IH Hurl).
Qed.

Lemma requestOf_search_url term :
  Wire.requestOf ("/api/recommend?query=" +:+ JsString.formUrlEncode term)
  = {| Recommend.query_param := Some term |}.
Proof.
  unfold Wire.requestOf, Wire.searchOf. f_equal.
  rewrite withoutFragment_fixed.
  - change (Wire.afterQuestionMark
              ("/api/recommend?query=" +:+ JsString.formUrlEncode term))
      with ("query=" +:+ JsString.formUrlEncode term).
    rewrite searchParams_get_query by apply formUrlEncode_chars.
    by rewrite formUrlDecode_encode.
  - rewrite chars_append. apply Forall_app. split.
    + repeat (constructor; [discriminate |]). constructor.
    + eapply Forall_impl; [apply formUrlEncode_chars |].
      intros c Hc ->. discriminate.
Qed.

(** X16. Whatever the search term holds, white space, [&], [=], [%], [+]
    or [#] included, the request URL the page builds carries it whole:
    decoding the encoded term gives the term back, and the recommend route
    reads from that URL a [query] parameter equal to the term. *)
Theorem search_term_reaches_the_route term :
  Wire.formUrlDecode (JsString.formUrlEncode term) = term
  /\ Wire.requestOf ("/api/recommend?query=" +:+ JsString.formUrlEncode term)
     = {| Recommend.query_param := Some term |}.
Proof. split; [apply formUrlDecode_encode | apply requestOf_search_url]. Qed.

(** *** Trimming *)












(** *** The saved shelf of the page *)

Lemma existsb_key_true book (shelf : list SavedList.Item) :
  existsb (fun item => bool_decide (SavedList.key item = Book.key book)) shelf = true
  <-> Book.key book ∈ SavedList.key <$> shelf.
Proof.
  rewrite existsb_exists, list_elem_of_fmap. split.
  - intros (item & Hin & Hkey). apply bool_decide_eq_true in Hkey.
    exists item. split; [by symmetry | by apply list_elem_of_In].
  - intros (item & Hkey & Hin). exists item. split; [by apply list_elem_of_In |].
    by apply bool_decide_eq_true.
Qed.

(** X18. A click on Save sends one POST with the book and always ends: the
    handler never rejects. The book's entry in [savedStates] ends as
    ["saved"] or as ["error"], every other entry is as before, and the
    search part of the page is untouched. It ends as ["saved"], with the
    toast naming the title and nothing logged, exactly when the answer is
    ok and carries a non-empty [id] and a non-empty [savedAt]; the shelf
    then gets the book with that [id] and [savedAt] in front, unless it
    already holds an item with the book's key, in which case it is left as
    it is. Otherwise the shelf is unchanged, the failure toast is shown and
    the error is logged. Either way, a shelf without a repeated key stays
    without one. *)
Theorem save_click_updates_the_shelf backend book s :
  let run_ := run (Page.answer backend) (Page.handleSaveBook book s) Page.start in
  let key := Page.propertyKey (Book.key book) in
  let accepted id savedAt :=
    exists response data,
      backend 0%nat "/api/saved-books"
        {| Page.method := Some "POST"; Page.cache := None;
           Page.content_type := Some "application/json"; Page.body := Some book |}
        Page.SaveApi = inr response
      /\ Page.ok response = true
      /\ Page.json response = inr data
      /\ Page.save_id data = Some id /\ id ≠ ""
      /\ Page.save_savedAt data = Some savedAt /\ savedAt ≠ "" in
  exists s',
    run_.1 = inr s'
    /\ Page.requested run_.2
       = [("/api/saved-books",
           {| Page.method := Some "POST"; Page.cache := None;
              Page.content_type := Some "application/json"; Page.body := Some book |})]
    /\ (forall k, k ≠ key -> Page.savedStates s' !! k = Page.savedStates s !! k)
    /\ ((exists id savedAt,
           accepted id savedAt
           /\ Page.savedStates s' !! key = Some Page.saved
           /\ Page.savedToast s' = Some (Page.savedToastFor book)
           /\ Page.logged run_.2 = []
           /\ Page.savedBooks s'
              = if bool_decide (Book.key book ∈ SavedList.key <$> Page.savedBooks s)
                then Page.savedBooks s
                else Page.savedBookOf book id savedAt :: Page.savedBooks s)
        \/ ((forall id savedAt, ~ accepted id savedAt)
            /\ Page.savedStates s' !! key = Some Page.error_state
            /\ Page.savedToast s'
               = Some "We couldn't save that book. Please try again."
            /\ (exists e, Page.logged run_.2 = [e])
            /\ Page.savedBooks s' = Page.savedBooks s))
    /\ (NoDup (SavedList.key <$> Page.savedBooks s) ->
        NoDup (SavedList.key <$> Page.savedBooks s'))
    /\ (Page.query s', Page.seed s', Page.recommendations s', Page.infoMessage s',
        Page.error s', Page.isLoading s')
       = (Page.query s, Page.seed s, Page.recommendations s, Page.infoMessage s,
          Page.error s, Page.isLoading s).
Proof.
  intros run_ key accepted. subst run_. unfold Page.handleSaveBook.
  rewrite run_try_catch, run_bind, run_await. simpl. fold key.
  set (init := {| Page.method := Some "POST"; Page.cache := None;
                  Page.content_type := Some "application/json";
                  Page.body := Some book |}) in *.
  assert (forall (v : Page.SaveState) (m : gmap string Page.SaveState) k,
             k ≠ key -> <[key := v]> (<[key := Page.saving]> m) !! k = m !! k) as Hother.
  { intros v m k Hk. by rewrite !lookup_insert_ne. }
  assert (forall (v : Page.SaveState) (m : gmap string Page.SaveState),
             <[key := v]> (<[key := Page.saving]> m) !! key = Some v) as Hkey.
  { intros v m. by rewrite lookup_insert_eq. }
  destruct (backend 0%nat "/api/saved-books" init Page.SaveApi)
    as [e | [ok json]] eqn:Hanswer.
  { simpl. eexists. split; [reflexivity |]. split; [reflexivity |].
    split; [apply Hother |]. split; [| by split].
    right. split; [| split; [apply Hkey | split; [reflexivity | split; [by eexists | reflexivity]]]]. intros id savedAt (response & data & [=] & _). }
  simpl. rewrite run_bind. unfold Page.response_json. simpl.
  destruct json as [e | data].
  { simpl. eexists. split; [reflexivity |]. split; [reflexivity |].
    split; [apply Hother |]. split; [| by split].
    right. split; [| split; [apply Hkey | split; [reflexivity | split; [by eexists | reflexivity]]]].
    intros id savedAt (response & data & [= <-] & _ & [=] & _). }
  simpl.
  destruct (Page.save_id data) as [[| ci id] |] eqn:Hid;
    [| destruct (Page.save_savedAt data) as [[| cs savedAt] |] eqn:Hstamp;
       [| destruct ok |] |]; simpl.
  - eexists. split; [reflexivity |]. split; [reflexivity |].
    split; [apply Hother |]. split; [| by split].
    right. split; [| split; [apply Hkey | split; [reflexivity | split; [by eexists | reflexivity]]]].
    intros id savedAt (response & data' & [= <-] & _ & [= <-] & Hid' & Hne & _).
    rewrite Hid in Hid'. injection Hid' as <-. by apply Hne.
  - eexists. split; [reflexivity |]. split; [reflexivity |].
    split; [apply Hother |]. split; [| by split].
    right. split; [| split; [apply Hkey | split; [reflexivity | split; [by eexists | reflexivity]]]].
    intros id' savedAt (response & data' & [= <-] & _ & [= <-] & _ & _ & Hs' & Hne).
    rewrite Hstamp in Hs'. injection Hs' as <-. by apply Hne.
  - eexists. split; [reflexivity |]. split; [reflexivity |].
    split; [apply Hother |]. simpl. split; [| split; [| reflexivity]].
    + left. exists (String ci id), (String cs savedAt). split.
      { exists {| Page.ok := true; Page.json := inr data |}, data.
        repeat split; try done. }
      split; [apply Hkey |]. split; [reflexivity |]. split; [reflexivity |].
      destruct (existsb _ (Page.savedBooks s)) eqn:Hexists.
      * apply existsb_key_true in Hexists. by rewrite bool_decide_eq_true_2.
      * rewrite bool_decide_eq_false_2; [reflexivity |].
        intros Hin. apply existsb_key_true in Hin. congruence.
    + intros Hnd. destruct (existsb _ (Page.savedBooks s)) eqn:Hexists; [exact Hnd |].
      simpl. apply NoDup_cons. split; [| exact Hnd].
      intros Hin. apply existsb_key_true in Hin. congruence.
  - eexists. split; [reflexivity |]. split; [reflexivity |].
    split; [apply Hother |]. split; [| by split].
    right. split; [| split; [apply Hkey | split; [reflexivity | split; [by eexists | reflexivity]]]].
    intros id' savedAt' (response & data' & [= <-] & Hok & _). discriminate.
  - eexists. split; [reflexivity |]. split; [reflexivity |].
    split; [apply Hother |]. split; [| by split].
    right. split; [| split; [apply Hkey | split; [reflexivity | split; [by eexists | reflexivity]]]].
    intros id' savedAt (response & data' & [= <-] & _ & [= <-] & _ & _ & Hs' & _).
    rewrite Hstamp in Hs'. discriminate.
  - eexists. split; [reflexivity |]. split; [reflexivity |].
    split; [apply Hother |]. split; [| by split].
    right. split; [| split; [apply Hkey | split; [reflexivity | split; [by eexists | reflexivity]]]].
    intros id savedAt (response & data' & [= <-] & _ & [= <-] & Hid' & _).
    rewrite Hid in Hid'. discriminate.
Qed.

Lemma marked_lookup (items : list SavedList.Item) (prev : gmap string Page.SaveState) k :
  forEach (fun item next => <[Page.propertyKey (SavedList.key item) := Page.saved]> next)
    items prev !! k
  = if bool_decide (k ∈ (fun item => Page.propertyKey (SavedList.key item)) <$> items)
    then Some Page.saved
    else prev !! k.
Proof.
  revert prev. induction items as [| item items IH]; intros prev; [reflexivity |].
  rewrite forEach_cons, IH, fmap_cons.
  destruct (decide (k ∈ (fun item => Page.propertyKey (SavedList.key item)) <$> items))
    as [Hin | Hout].
  - rewrite !bool_decide_eq_true_2; [reflexivity | by right | exact Hin].
  - rewrite (bool_decide_eq_false_2 _ Hout).
    destruct (decide (k = Page.propertyKey (SavedList.key item))) as [-> | Hne].
    + rewrite lookup_insert_eq, bool_decide_eq_true_2; [reflexivity | by left].
    + rewrite lookup_insert_ne by done. rewrite bool_decide_eq_false_2; [reflexivity |].
      intros Hin. apply elem_of_cons in Hin as [Heq | Hin]; [by apply Hne | by apply Hout].
Qed.

(** X19. Loading the shelf sends one uncached GET and always ends with the
    shelf no longer loading and the search part of the page untouched. When
    the answer is ok and parses, the shelf becomes the answered items (none
    when the answer has no [items]), no error is shown, every listed book is
    marked ["saved"] and every other entry of [savedStates] is as before.
    Otherwise (a rejected request, a body that is not JSON, a non-ok
    answer) the shelf and the entries are unchanged, the error is logged and
    the page shows its own message, never the server's. *)
Theorem loading_the_shelf_marks_its_books_saved backend s :
  let run_ := run (Page.answer backend) (Page.fetchSavedBooks s) Page.start in
  let init := {| Page.method := None; Page.cache := Some "no-store";
                 Page.content_type := None; Page.body := None |} in
  exists s',
    run_.1 = inr s'
    /\ Page.requested run_.2 = [("/api/saved-books", init)]
    /\ Page.savedLoading s' = false
    /\ ((exists response data,
           backend 0%nat "/api/saved-books" init Page.ListApi = inr response
           /\ Page.ok response = true
           /\ Page.json response = inr data
           /\ Page.savedBooks s' = nullish (Page.list_items data) []
           /\ Page.savedError s' = None
           /\ Page.logged run_.2 = []
           /\ forall k,
                Page.savedStates s' !! k
                = if bool_decide
                       (k ∈ (fun item => Page.propertyKey (SavedList.key item))
                              <$> Page.savedBooks s')
                  then Some Page.saved
                  else Page.savedStates s !! k)
        \/ ((forall response data,
                backend 0%nat "/api/saved-books" init Page.ListApi = inr response ->
                Page.json response = inr data -> Page.ok response = false)
            /\ Page.savedBooks s' = Page.savedBooks s
            /\ Page.savedStates s' = Page.savedStates s
            /\ Page.savedError s' = Some "We couldn't load your saved books."
            /\ exists e, Page.logged run_.2 = [e]))
    /\ (Page.query s', Page.seed s', Page.recommendations s', Page.infoMessage s',
        Page.error s', Page.isLoading s', Page.savedToast s')
       = (Page.query s, Page.seed s, Page.recommendations s, Page.infoMessage s,
          Page.error s, Page.isLoading s, Page.savedToast s).
Proof.
  intros run_ init. subst run_. unfold Page.fetchSavedBooks.
  rewrite run_bind, run_try_catch, run_bind, run_await. simpl. fold init.
  destruct (backend 0%nat "/api/saved-books" init Page.ListApi)
    as [e | [ok json]] eqn:Hanswer.
  { simpl. eexists. split; [reflexivity |]. split; [reflexivity |].
    split; [reflexivity |]. split; [| reflexivity].
    right. split; [intros response data [=] |]. by eauto. }
  simpl. rewrite run_bind. unfold Page.response_json. simpl.
  destruct json as [e | data].
  { simpl. eexists. split; [reflexivity |]. split; [reflexivity |].
    split; [reflexivity |]. split; [| reflexivity].
    right. split; [intros response data [= <-] [=] |]. by eauto. }
  destruct ok; simpl.
  - eexists. split; [reflexivity |]. split; [reflexivity |].
    split; [reflexivity |]. split; [| reflexivity].
    left. exists {| Page.ok := true; Page.json := inr data |}, data.
    repeat split. intros k. simpl. apply marked_lookup.
  - eexists. split; [reflexivity |]. split; [reflexivity |].
    split; [reflexivity |]. split; [| reflexivity].
    right. split; [by intros response data' [= <-] _ |]. by eauto.
Qed.
